(** * ExamFlow: exam-session lifecycle, resume resolution and grading

    A shallow embedding of the client-side core of the ExamFlow front end:

    - [frontend/pages/StudentDashboard.tsx]: the Resume Resolver
      ([isServerSessionValid], [isLocalSessionResumable] and the per-exam
      labelling loop);
    - [frontend/pages/ResultDetails.tsx]: [isCorrect] and [handleGrade];
    - [frontend/pages/ExamRunner.tsx]: the countdown, the auto-submit
      watcher and [handleFinishExam];
    - [frontend/services/api.ts]: [saveExamProgress], [submitExam],
      [updateSessionScore], [getCurrentUser].

    Conventions.  Values that the TypeScript code handles as [any] are
    modelled by [Js.value].  JavaScript numbers that occur here are counts
    (seconds, epoch milliseconds, marks) and are carried by [Z]; [NaN] is a
    separate case wherever the code tests for it.  The one place where the
    code computes with a number that nothing has checked is the countdown:
    module [Countdown] has the timer over every finite number, as a
    rational, and the statements about the timer are made there.  A [Date]
    is its time value, [None] standing for an invalid date.  Platform
    functions ([JSON.parse], [JSON.stringify], [atob], string-to-number
    coercion, the clock) are section variables. *)

From Stdlib Require Import ZArith Lia Bool QArith Qround Lqa.
From stdpp Require Import base option list strings gmap fin_maps pretty.

Set Warnings "-register-all".

Local Open Scope string_scope.
Local Open Scope Z_scope.
Local Open Scope list_scope.

(** ** JavaScript values *)

Module Js.

Inductive value : Type :=
| VUndefined
| VNull
| VBool (b : bool)
| VNumber (n : Z)
| VString (s : string)
| VArray (xs : list value)
| VObject (fields : list (string * value)).

(** [lookup_field k fs] is the own property [k] of an object literal. *)
Fixpoint lookup_field (k : string) (fs : list (string * value)) : option value :=
  match fs with
  | [] => None
  | (k', v) :: fs' => if String.eqb k k' then Some v else lookup_field k fs'
  end.

(** [get v k] is the property read [v.k]: it throws (here: [None]) on
    [null] and [undefined], and yields [undefined] for a property that is
    absent.  Only data properties are read by the code modelled here. *)
Definition get (v : value) (k : string) : option value :=
  match v with
  | VUndefined | VNull => None
  | VObject fs => Some (default VUndefined (lookup_field k fs))
  | _ => Some VUndefined
  end.

(** [prop v k] is [v.k] where the read cannot throw (after a truthiness
    guard), and [v?.k] in general. *)
Definition prop (v : value) (k : string) : value :=
  default VUndefined (get v k).

Definition nullish (v : value) : bool :=
  match v with VUndefined | VNull => true | _ => false end.

(** [a ?? b] *)
Definition coalesce (a b : value) : value := if nullish a then b else a.

Definition truthy (v : value) : bool :=
  match v with
  | VUndefined | VNull => false
  | VBool b => b
  | VNumber n => negb (n =? 0)
  | VString s => negb (String.eqb s "")
  | VArray _ | VObject _ => true
  end.

(** [a || b] *)
Definition or_else (a b : value) : value := if truthy a then a else b.

(** [typeof v === 'number'] *)
Definition is_number (v : value) : bool :=
  match v with VNumber _ => true | _ => false end.

(** [v === s] for a string literal [s] *)
Definition eq_string (v : value) (s : string) : bool :=
  match v with VString t => String.eqb t s | _ => false end.

(** [Array.prototype.join(",")] over already converted elements. *)
Fixpoint join_comma (parts : list string) : string :=
  match parts with
  | [] => ""
  | [p] => p
  | p :: ps => p +:+ "," +:+ join_comma ps
  end.

(** [String(v)] *)
Fixpoint to_string (v : value) : string :=
  match v with
  | VUndefined => "undefined"
  | VNull => "null"
  | VBool true => "true"
  | VBool false => "false"
  | VNumber n => pretty n
  | VString s => s
  | VArray xs =>
      join_comma
        (List.map (fun x => if nullish x then "" else to_string x) xs)
  | VObject _ => "[object Object]"
  end.

End Js.

Import Js.

Infix "??" := Js.coalesce (at level 45, left associativity).

(** ** Dates *)

(** The time value of a [Date]; [None] is an invalid date ([NaN]). *)
Definition Date : Type := option Z.

(** [a > b] *)
Definition date_gt (a b : Date) : bool :=
  match a, b with
  | Some x, Some y => y <? x
  | _, _ => false
  end.

(** [a <= b] *)
Definition date_le (a b : Date) : bool :=
  match a, b with
  | Some x, Some y => x <=? y
  | _, _ => false
  end.

(** ** Data model ([frontend/types.ts]) *)

Inductive QuestionType : Type :=
| SINGLE_CHOICE
| MULTI_CHOICE
| TEXT
| IMAGE_UPLOAD.

Record Exam : Type := mkExam {
  exam_id : string;
  exam_title : string;
  exam_start_time : string;
  exam_end_time : string;
  exam_duration_minutes : Z;
  exam_question_ids : list string;
  exam_is_published : bool
}.

Inductive SessionStatus : Type :=
| in_progress
| submitted.

Definition status_string (st : SessionStatus) : string :=
  match st with
  | in_progress => "in_progress"
  | submitted => "submitted"
  end.

(** The label the dashboard attaches to an exam
    ([Record<string, 'resumable' | 'submitted' | undefined>]). *)
Inductive Label : Type :=
| resumable
| submitted_label.

(** The browser's [localStorage]: [getItem] of an absent key is [null]. *)
Abbreviation Storage := (gmap string string).

(** The key of the local durable cache entry,
    [`exam_session_${examId}_${studentId}`]. *)
Definition session_key (examId studentId : string) : string :=
  "exam_session_" +:+ examId +:+ "_" +:+ studentId.

(** ** Resume Resolver ([StudentDashboard], the [load] effect) *)

Section ResumeResolver.

(** [JSON.parse]; [None] is a [SyntaxError]. *)
Variable JSON_parse : string -> option value.
(** [Number(s)] for a string; [None] is [NaN]. *)
Variable StringToNumber : string -> option Z.
(** [new Date(s)] *)
Variable Date_parse : string -> Date.

(** [ToNumber], as applied by the relational operators. *)
Definition to_number (v : value) : option Z :=
  match v with
  | VUndefined => None
  | VNull => Some 0
  | VBool b => Some (if b then 1 else 0)
  | VNumber n => Some n
  | VString s => StringToNumber s
  | VArray _ | VObject _ => StringToNumber (to_string v)
  end.

(** [v > k] for a number [k] *)
Definition gt_number (v : value) (k : Z) : bool :=
  match to_number v with
  | Some n => k <? n
  | None => false
  end.

(** [v <= k] for a number [k] *)
Definition le_number (v : value) (k : Z) : bool :=
  match to_number v with
  | Some n => n <=? k
  | None => false
  end.

(** [r?.examId ?? r?.exam_id ?? null] *)
Definition record_exam_id (r : value) : value :=
  prop r "examId" ?? prop r "exam_id" ?? VNull.

(** [r?.studentId ?? r?.student_id ?? null] *)
Definition record_student_id (r : value) : value :=
  prop r "studentId" ?? prop r "student_id" ?? VNull.

(** One turn of the loop that fills [resultsMap]. *)
Definition index_result (userId : string) (m : gmap string value) (r : value)
  : gmap string value :=
  let rid := record_exam_id r in
  let rStudent := record_student_id r in
  if negb (nullish rid) && negb (nullish rStudent)
     && String.eqb (to_string rStudent) userId
  then <[to_string rid := r]> m
  else m.

(** [resultsMap], from the batched student results. *)
Definition index_results (userId : string) (studentResults : list value)
  : gmap string value :=
  foldl (index_result userId) ∅ studentResults.

Definition isServerSessionValid (sess : value) (examId userId : string) : bool :=
  if negb (truthy sess) then false
  else
    let sessExamId := prop sess "examId" ?? prop sess "exam_id" ?? VNull in
    let sessStudentId := prop sess "studentId" ?? prop sess "student_id" ?? VNull in
    if nullish sessExamId || nullish sessStudentId then false
    else String.eqb (to_string sessExamId) examId
         && String.eqb (to_string sessStudentId) userId.

(** The stored ids of a local entry, as [isLocalSessionResumable] reads
    them. *)
Definition local_exam_id (localSess : value) : value :=
  prop localSess "examId" ?? prop localSess "exam_id" ?? VNull.

Definition local_student_id (localSess : value) : value :=
  prop localSess "studentId" ?? prop localSess "student_id"
    ?? prop localSess "student" ?? VNull.

Definition local_remaining (localSess : value) : value :=
  prop localSess "remainingSeconds" ?? prop localSess "remaining_seconds"
    ?? VNumber 0.

Definition local_status (localSess : value) : value :=
  prop localSess "status" ?? VString "in_progress".

Definition local_start (localSess : value) : value :=
  prop localSess "startTime" ?? prop localSess "start_time" ?? VNumber 0.

Definition isLocalSessionResumable
    (localSess : value) (examId userId : string) (now end_ : Date) : bool :=
  if negb (truthy localSess) then false
  else
    let sessExamId := local_exam_id localSess in
    let sessStudentId := local_student_id localSess in
    if nullish sessExamId || nullish sessStudentId then false
    else
      let remaining := local_remaining localSess in
      let status := local_status localSess in
      let start := local_start localSess in
      if eq_string status "submitted" then false
      else if negb (is_number remaining) || le_number remaining 0 then false
      else if negb (truthy start && is_number start && gt_number start 0) then false
      else if date_gt now end_ then false
      else if negb (String.eqb (to_string sessExamId) examId) then false
      else if negb (String.eqb (to_string sessStudentId) userId) then false
      else true.

(** The fallback on the local durable cache, for one exam. *)
Definition local_fallback
    (ls : Storage) (examId userId : string) (now end_ : Date) : option Label :=
  let key := session_key examId userId in
  match ls !! key with
  | Some raw =>
      if String.eqb raw "" then None
      else
        match JSON_parse raw with
        | Some localSess =>
            if isLocalSessionResumable localSess examId userId now end_
            then Some resumable
            else None
        | None => None
        end
  | None => None
  end.

(** The body of the per-exam loop: the value of [marked] after it, which is
    also what is stored under [String(e.id)] in the status map.  No
    statement of the guarded block can throw on these values, so the
    [catch] arm, which repeats the local fallback, is not entered. *)
Definition label_exam
    (resultsMap : gmap string value) (ls : Storage) (userId : string)
    (clock : Z) (e : Exam) : option Label :=
  let now : Date := Some clock in
  let end_ := Date_parse (exam_end_time e) in
  let sess := default VNull (resultsMap !! exam_id e) in
  if truthy sess && isServerSessionValid sess (exam_id e) userId then
    let sessStudentId := prop sess "studentId" ?? prop sess "student_id" ?? VNull in
    if negb (String.eqb (to_string sessStudentId) userId) then None
    else if eq_string (prop sess "status") "submitted" then Some submitted_label
    else if gt_number (prop sess "remainingSeconds" ?? VNumber 0) 0
            && date_le now end_
    then Some resumable
    else None
  else local_fallback ls (exam_id e) userId now end_.

(** The status map built by the loop over the exams. *)
Definition record_label
    (resultsMap : gmap string value) (ls : Storage) (userId : string)
    (clock : Z) (m : gmap string Label) (e : Exam) : gmap string Label :=
  match label_exam resultsMap ls userId clock e with
  | Some l => <[exam_id e := l]> m
  | None => m
  end.

Definition build_status_map
    (studentResults : list value) (ls : Storage) (userId : string)
    (clock : Z) (exams : list Exam) : gmap string Label :=
  foldl (record_label (index_results userId studentResults) ls userId clock)
        ∅ exams.

End ResumeResolver.

(** *** What the resolver requires of a local entry *)

(** An id is stored in the entry and its string form is [id]. *)
Definition stored_id (x : value) (id : string) : Prop :=
  nullish x = false /\ to_string x = id.

(** The conditions under which a parsed cache entry may be offered for
    resumption: both ids stored and equal to the exam's and the student's,
    not submitted, a positive number of seconds left, a positive start
    timestamp, and the clock not past the end of the exam. *)
Record EntryAccepted
    (localSess : value) (examId userId : string) (now end_ : Date) : Prop := {
  accepted_exam : stored_id (local_exam_id localSess) examId;
  accepted_student : stored_id (local_student_id localSess) userId;
  accepted_status : local_status localSess <> VString "submitted";
  accepted_remaining : exists n, local_remaining localSess = VNumber n /\ 0 < n;
  accepted_start : exists t, local_start localSess = VNumber t /\ 0 < t;
  accepted_time : date_gt now end_ = false
}.

(** The server record the loop consults for an exam, when it is usable. *)
Definition valid_server_record
    (resultsMap : gmap string value) (examId userId : string) : option value :=
  match resultsMap !! examId with
  | Some sess =>
      if truthy sess && isServerSessionValid sess examId userId
      then Some sess else None
  | None => None
  end.

(** A server record whose id pair is stored and equal to the exam's and the
    student's. *)
Definition record_matches (r : value) (examId userId : string) : Prop :=
  stored_id (record_exam_id r) examId /\ stored_id (record_student_id r) userId.

(** [(sess.remainingSeconds ?? 0) > 0] read as a statement. *)
Definition seconds_left (StringToNumber : string -> option Z) (sess : value) : Prop :=
  exists n,
    to_number StringToNumber (prop sess "remainingSeconds" ?? VNumber 0) = Some n
    /\ 0 < n.

(** ** Questions and answers ([frontend/types.ts]) *)

(** An answer, and a correct-answer reference: [string | string[]], or
    absent. *)
Inductive AnswerValue : Type :=
| AUndefined
| AString (s : string)
| AList (l : list string).

Record Question : Type := mkQuestion {
  q_id : string;
  q_title : string;
  q_complexity : string;
  q_type : QuestionType;
  q_options : option (list string);
  q_correct_answers : AnswerValue;
  q_max_score : Z;
  q_tags : option (list string)
}.

(** ** Grading ([ResultDetails]) *)

(** [a === b]: two arrays are equal only when they are the same object,
    which an answer and a correct-answer reference never are. *)
Definition answer_strict_eq (a b : AnswerValue) : bool :=
  match a, b with
  | AUndefined, AUndefined => true
  | AString s, AString t => String.eqb s t
  | _, _ => false
  end.

(** [given.includes(v)] *)
Definition includes (given : list string) (v : string) : bool :=
  existsb (String.eqb v) given.

Definition isCorrect (q : Question) (userAnswer : AnswerValue) : bool :=
  match q_type q with
  | SINGLE_CHOICE => answer_strict_eq userAnswer (q_correct_answers q)
  | MULTI_CHOICE =>
      match userAnswer, q_correct_answers q with
      | AList given, AList correct =>
          Nat.eqb (length correct) (length given)
          && forallb (fun v => includes given v) correct
      | _, _ => false
      end
  | _ => false
  end.

(** Two lists with the same elements. *)
Definition same_set (l k : list string) : Prop := forall x, x ∈ l <-> x ∈ k.

(** [l] holds only elements of [k], and not all of them. *)
Definition proper_subset (l k : list string) : Prop :=
  (forall x, x ∈ l -> x ∈ k) /\ exists y, y ∈ k /\ y ∉ l.

(** ** Sessions ([frontend/types.ts]) *)

Record StudentExamSession : Type := mkSession {
  examId : string;
  studentId : string;
  startTime : Z;
  answers : list (string * value);
  remainingSeconds : Z;
  status : SessionStatus;
  score : option Z;
  questionScores : option (list (string * Z))
}.

(** [{ ...session, remainingSeconds: seconds }] *)
Definition with_remaining (session : StudentExamSession) (seconds : Z)
  : StudentExamSession :=
  {| examId := examId session; studentId := studentId session;
     startTime := startTime session; answers := answers session;
     remainingSeconds := seconds; status := status session;
     score := score session; questionScores := questionScores session |}.

(** The object [{ ...session }]; an optional field that is absent stays
    absent. *)
Definition session_object (session : StudentExamSession) : value :=
  VObject
    ([("examId", VString (examId session));
      ("studentId", VString (studentId session));
      ("startTime", VNumber (startTime session));
      ("answers", VObject (answers session));
      ("remainingSeconds", VNumber (remainingSeconds session));
      ("status", VString (status_string (status session)))]
     ++ match score session with
        | Some n => [("score", VNumber n)]
        | None => []
        end
     ++ match questionScores session with
        | Some qs =>
            [("questionScores",
              VObject (List.map (fun kn => (fst kn, VNumber (snd kn))) qs))]
        | None => []
        end).

(** A session as the API layer maps it from a response: every field is
    whatever the server sent ([as StudentExamSession] is unchecked). *)
Record MappedSession : Type := mkMapped {
  m_examId : value;
  m_studentId : value;
  m_startTime : option Z;
  m_answers : value;
  m_remainingSeconds : value;
  m_status : value;
  m_score : value;
  m_questionScores : value
}.

(** ** Effects *)

Inductive Method : Type := GET | POST | PUT | DELETE.

Record Request : Type := mkRequest {
  req_method : Method;
  req_url : string;
  req_body : value;
  req_token : option string
}.

(** An [axios] call resolves with a response, of which [data] is kept, or
    rejects with an error object. *)
Inductive Reply : Type :=
| Resolved (data : value)
| Rejected (err : value).

Inductive Event : Type :=
| EAlert (msg : string)
| EConfirm (msg : string)
| ENavigate (path : string)
| ENavigateBack
| ERequest (req : Request)
| ESetItem (key text : string)
| ERemoveItem (key : string)
| EConsoleLog (tag : string)
| EConsoleError (tag : string).

(** [localStorage]: its items, and whether [setItem] succeeds (it throws
    when the quota is exhausted or storage is disabled). *)
Record Store : Type := mkStore {
  items : Storage;
  writable : bool
}.

Inductive Result (A : Type) : Type :=
| Ok (a : A)
| Throw (exn : value).

Arguments Ok {A} a.
Arguments Throw {A} exn.

Record Run (A : Type) : Type := mkRun {
  result : Result A;
  store : Store;
  events : list Event
}.

Arguments mkRun {A} result store events.
Arguments result {A} r.
Arguments store {A} r.
Arguments events {A} r.

(** A computation reads and writes the store, emits events in order, and
    returns or throws. *)
Definition M (A : Type) : Type := Store -> Run A.

Definition ret {A} (a : A) : M A := fun s => mkRun (Ok a) s [].

Definition throw {A} (exn : value) : M A := fun s => mkRun (Throw exn) s [].

(** [evs] happened before the run [r]. *)
Definition after {A} (evs : list Event) (r : Run A) : Run A :=
  match r with
  | mkRun res s ev => mkRun res s (evs ++ ev)
  end.

Definition bind {A B} (m : M A) (f : A -> M B) : M B :=
  fun s =>
    match m s with
    | mkRun (Ok a) s1 ev1 => after ev1 (f a s1)
    | mkRun (Throw exn) s1 ev1 => mkRun (Throw exn) s1 ev1
    end.

(** [try { m } catch (err) { handler err }] *)
Definition try_catch {A} (m : M A) (handler : value -> M A) : M A :=
  fun s =>
    match m s with
    | mkRun (Ok a) s1 ev1 => mkRun (Ok a) s1 ev1
    | mkRun (Throw exn) s1 ev1 => after ev1 (handler exn s1)
    end.

Definition emit (e : Event) : M unit := fun s => mkRun (Ok tt) s [e].

Notation "x <- m ;; k" := (bind m (fun x => k))
  (at level 100, m at next level, right associativity).
Notation "m ;;; k" := (bind m (fun _ => k))
  (at level 100, right associativity).

(** [new Error(detail)] *)
Definition new_Error (detail : value) : value :=
  VObject [("message", VString (to_string detail))].

(** The [TypeError] of a property read on [null] or [undefined]. *)
Definition type_error : value :=
  VObject [("message", VString "Cannot read properties of null")].

Definition localStorage_getItem (key : string) : M (option string) :=
  fun s => mkRun (Ok (items s !! key)) s [].

Definition localStorage_setItem (key text : string) : M unit :=
  fun s =>
    if writable s
    then mkRun (Ok tt) (mkStore (<[key := text]> (items s)) (writable s))
               [ESetItem key text]
    else mkRun (Throw (VObject [("name", VString "QuotaExceededError")])) s [].

Definition localStorage_removeItem (key : string) : M unit :=
  fun s => mkRun (Ok tt) (mkStore (delete key (items s)) (writable s))
                 [ERemoveItem key].

Record User : Type := mkUser {
  user_id : string;
  user_name : string;
  user_email : string;
  user_role : string
}.

(** What [getCurrentUser] resolves with: the response body as it came
    ([resp.data as User]), a user built from the decoded token, or [null]. *)
Inductive CurrentUser : Type :=
| FromBackend (data : value)
| FromToken (user : User)
| NoUser.

(** ** The API layer ([frontend/services/api.ts]) *)

Section Api.

(** [JSON.stringify]; [None] when it throws. *)
Variable JSON_stringify : value -> option string.
(** [JSON.parse]; [None] when it throws. *)
Variable JSON_parse : string -> option value.
(** [atob]; [None] when it throws. *)
Variable atob : string -> option string.
(** The backend, as seen through [axios]. *)
Variable server : Request -> Reply.
(** [new Date(v).getTime()]; [None] is [NaN]. *)
Variable Date_getTime : value -> option Z.
(** [Date.now()] *)
Variable Date_now : Z.

Definition stringify (v : value) : M string :=
  match JSON_stringify v with
  | Some text => ret text
  | None => throw (VObject [("name", VString "TypeError")])
  end.

Definition decodeTokenLocal (token : string) : value :=
  match atob token with
  | Some text =>
      match JSON_parse text with
      | Some v => v
      | None => VNull
      end
  | None => VNull
  end.

(** The [Authorization] header, when a token is stored. *)
Definition getAuthHeaders : M (option string) :=
  token <- localStorage_getItem "authToken";;
  ret match token with
      | Some t => if String.eqb t "" then None else Some t
      | None => None
      end.

Definition axios (method : Method) (url : string) (body : value)
    (headers : option string) : M value :=
  fun s =>
    let req := mkRequest method url body headers in
    match server req with
    | Resolved data => mkRun (Ok data) s [ERequest req]
    | Rejected err => mkRun (Throw err) s [ERequest req]
    end.

(** [err?.response?.data] *)
Definition response_data (err : value) : value :=
  prop (prop err "response") "data".

Definition getCurrentUser (token : string) : M CurrentUser :=
  if String.eqb token "" then ret NoUser
  else
    try_catch
      (data <- axios GET "/users/me" VUndefined (Some token);;
       ret (FromBackend data))
      (fun err =>
         emit (EConsoleError "Failed to get current user from backend");;;
         let decoded := decodeTokenLocal token in
         if negb (truthy decoded) then ret NoUser
         else
           ret (FromToken
             {| user_id :=
                  to_string (or_else (or_else (prop decoded "id")
                                              (prop decoded "user_id"))
                                     (VString ""));
                user_name :=
                  to_string (or_else (or_else (or_else (prop decoded "name")
                                                       (prop decoded "full_name"))
                                              (prop decoded "username"))
                                     (VString ""));
                user_email :=
                  to_string (or_else (prop decoded "email") (VString ""));
                user_role :=
                  if eq_string (prop decoded "role") "admin"
                  then "admin" else "student" |})).

Definition saveExamProgress (session : StudentExamSession) : M unit :=
  try_catch
    (let payload :=
       VObject [("answers", VObject (answers session));
                ("remaining_seconds", VNumber (remainingSeconds session))] in
     try_catch
       (let key := session_key (examId session) (studentId session) in
        text <- stringify (session_object session);;
        localStorage_setItem key text)
       (fun _ => ret tt);;;
     (shown <- stringify payload;;
      emit (EConsoleLog "Saving exam progress payload"));;;
     headers <- getAuthHeaders;;
     axios PUT ("/api/exams/" +:+ examId session +:+ "/session") payload headers;;;
     ret tt)
    (fun err =>
       emit (EConsoleError "Failed to autosave session on backend");;;
       ret tt).

Definition optional_number (n : option Z) : value :=
  match n with Some k => VNumber k | None => VUndefined end.

Definition optional_scores (qs : option (list (string * Z))) : value :=
  match qs with
  | Some l => VObject (List.map (fun kn => (fst kn, VNumber (snd kn))) l)
  | None => VUndefined
  end.

Definition map_submit_response (session : StudentExamSession) (data : value)
  : MappedSession :=
  {| m_examId :=
       or_else (or_else (prop data "exam_id") (prop data "examId"))
               (VString (examId session));
     m_studentId :=
       or_else (or_else (prop data "student_id") (prop data "studentId"))
               (VString (studentId session));
     m_startTime :=
       if truthy (prop data "start_time")
       then Date_getTime (prop data "start_time")
       else Some (if startTime session =? 0 then Date_now else startTime session);
     m_answers :=
       or_else (or_else (prop data "answers") (VObject (answers session)))
               (VObject []);
     m_remainingSeconds := prop data "remaining_seconds" ?? VNumber 0;
     m_status := or_else (prop data "status") (VString "submitted");
     m_score :=
       if is_number (prop data "score") then prop data "score"
       else optional_number (score session);
     m_questionScores :=
       or_else (or_else (prop data "question_scores")
                        (optional_scores (questionScores session)))
               (VObject []) |}.

Definition submitExam (session : StudentExamSession) : M MappedSession :=
  try_catch
    (let payload := VObject [("answers", VObject (answers session))] in
     headers <- getAuthHeaders;;
     data <- axios POST ("/api/exams/" +:+ examId session +:+ "/submit")
                   payload headers;;
     try_catch
       (localStorage_removeItem
          (session_key (examId session) (studentId session)))
       (fun _ => ret tt);;;
     match get data "exam_id" with
     | Some _ => ret (map_submit_response session data)
     | None => throw type_error
     end)
    (fun err =>
       let detail :=
         or_else (or_else (or_else (prop (response_data err) "detail")
                                   (response_data err))
                          (prop err "message"))
                 (VString "Failed to submit session to backend") in
       throw (new_Error detail)).

Definition map_grade_response (data : value) : MappedSession :=
  {| m_examId := prop data "exam_id";
     m_studentId := prop data "student_id";
     m_startTime :=
       if truthy (prop data "start_time")
       then Date_getTime (prop data "start_time")
       else Some Date_now;
     m_answers := or_else (prop data "answers") (VObject []);
     m_remainingSeconds := prop data "remaining_seconds" ?? VNumber 0;
     m_status := or_else (prop data "status") (VString "submitted");
     m_score :=
       if is_number (prop data "score") then prop data "score" else VUndefined;
     m_questionScores := or_else (prop data "question_scores") (VObject []) |}.

Definition updateSessionScore
    (examId studentId questionId : string) (newScore : Z) : M MappedSession :=
  try_catch
    (let payload :=
       VObject [("exam_id", VString examId); ("student_id", VString studentId);
                ("question_id", VString questionId);
                ("new_score", VNumber newScore)] in
     headers <- getAuthHeaders;;
     data <- axios POST "/api/student/results/grade" payload headers;;
     match get data "exam_id" with
     | Some _ => ret (map_grade_response data)
     | None => throw type_error
     end)
    (fun err =>
       if truthy (prop (response_data err) "detail")
       then throw (new_Error (prop (response_data err) "detail"))
       else
         let detail :=
           or_else (or_else (response_data err) (prop err "message"))
                   (VString "Failed to update session score on backend") in
         throw (new_Error detail)).

End Api.

(** A route parameter inside a template literal. *)
Definition template_param (p : option string) : string := default "undefined" p.

(** [!p] for a route parameter: it is absent or the empty string. *)
Definition param_missing (p : option string) : bool :=
  match p with
  | Some s => String.eqb s ""
  | None => true
  end.

(** ** The exam runner ([frontend/pages/ExamRunner.tsx]) *)

Module ExamRunner.

Record Props : Type := mkProps {
  examId : option string;          (* useParams *)
  currentUser_id : string
}.

Record State : Type := mkState {
  session : option StudentExamSession;
  timeLeft : Z;                    (* whole seconds; see [Countdown] *)
  loading : bool;
  saving : bool;
  timer_installed : bool;          (* the interval of the timer effect *)
  save_scheduled : bool            (* saveTimeoutRef.current *)
}.

(** The state of the first render. *)
Definition initial : State :=
  {| session := None; timeLeft := 0; loading := true; saving := false;
     timer_installed := false; save_scheduled := false |}.

Definition set_timeLeft (t : Z) (st : State) : State :=
  {| session := session st; timeLeft := t; loading := loading st;
     saving := saving st; timer_installed := timer_installed st;
     save_scheduled := save_scheduled st |}.

Definition set_timer (b : bool) (st : State) : State :=
  {| session := session st; timeLeft := timeLeft st; loading := loading st;
     saving := saving st; timer_installed := b;
     save_scheduled := save_scheduled st |}.

Definition set_loading (b : bool) (st : State) : State :=
  {| session := session st; timeLeft := timeLeft st; loading := b;
     saving := saving st; timer_installed := timer_installed st;
     save_scheduled := save_scheduled st |}.

Definition set_saving (b : bool) (st : State) : State :=
  {| session := session st; timeLeft := timeLeft st; loading := loading st;
     saving := b; timer_installed := timer_installed st;
     save_scheduled := save_scheduled st |}.

Definition clear_save_timeout (st : State) : State :=
  {| session := session st; timeLeft := timeLeft st; loading := loading st;
     saving := saving st; timer_installed := timer_installed st;
     save_scheduled := false |}.

(** [!session || session.status === 'submitted'] *)
Definition no_running_session (st : State) : bool :=
  match session st with
  | None => true
  | Some sess =>
      match status sess with submitted => true | in_progress => false end
  end.

(** The timer effect, run when [session?.status] changes: it installs the
    one-second interval unless there is no running session. *)
Definition timer_effect (st : State) : State :=
  set_timer (negb (no_running_session st)) st.

(** The updater that the interval passes to [setTimeLeft], on whole
    seconds.  [Countdown.countdown] below is the updater on every number. *)
Definition countdown (prev : Z) : Z :=
  if prev <=? 0 then 0 else prev - 1.

(** One firing of the interval; at or below zero the interval clears
    itself. *)
Definition tick (st : State) : State :=
  if timer_installed st then
    if timeLeft st <=? 0
    then set_timer false (set_timeLeft (countdown (timeLeft st)) st)
    else set_timeLeft (countdown (timeLeft st)) st
  else st.

Fixpoint ticks (n : nat) (st : State) : State :=
  match n with
  | O => st
  | S n' => ticks n' (tick st)
  end.

Section Handlers.

Variable server : Request -> Reply.
Variable Date_getTime : value -> option Z.
Variable Date_now : Z.
(** [window.confirm] *)
Variable window_confirm : string -> bool.

Variable props : Props.

Definition confirm (msg : string) : M bool :=
  fun s => mkRun (Ok (window_confirm msg)) s [EConfirm msg].

Definition submit_prompt : string :=
  "Are you sure you want to submit? You cannot change answers after submission.".

Definition submit_failed : string := "Failed to submit exam. Please try again.".

(** [`/result/${examId}/${currentUser.id}`] *)
Definition result_path : string :=
  "/result/" +:+ template_param (examId props) +:+ "/" +:+ currentUser_id props.

Definition handleFinishExam (manual : bool) (st : State) : M State :=
  match session st with
  | None => ret st
  | Some sess =>
      if loading st then ret st
      else
        confirmed <-
          (if manual then confirm submit_prompt else ret true);;
        if negb confirmed then ret st
        else
          let st1 := clear_save_timeout (set_saving false (set_loading true st)) in
          try_catch
            (submitExam server Date_getTime Date_now
               (with_remaining sess (timeLeft st));;;
             emit (ENavigate result_path);;;
             ret st1)
            (fun error =>
               emit (EConsoleError "Submission failed");;;
               emit (EAlert submit_failed);;;
               ret (set_loading false st1))
  end.

(** The condition of the auto-submit watcher. *)
Definition auto_submit_due (st : State) : bool :=
  (timeLeft st =? 0)
  && match session st with
     | Some sess =>
         match status sess with submitted => false | in_progress => true end
         && negb (loading st) && (0 <? startTime sess)
     | None => false
     end.

(** The auto-submit watcher, run when [timeLeft], [session] or [loading]
    changes. *)
Definition auto_submit_watcher (st : State) : M State :=
  if auto_submit_due st then handleFinishExam false st else ret st.

End Handlers.

End ExamRunner.

(** ** The countdown on every number ([frontend/pages/ExamRunner.tsx])

    [initializeExam] calls [setTimeLeft(sess.remainingSeconds)] with what
    [startExamSession] took from the response ([data.remaining_seconds ??
    data.remainingSeconds ?? 0]); nothing checks that it is a whole number
    or that it is not negative.  [ExamRunner.State] carries whole seconds.
    Here the timer effect and its interval are given over the finite
    numbers, as rationals, together with what they read of the runner:
    [session?.status], [timeLeft] and the interval.  On whole seconds
    [ExamRunner.tick] and [Countdown.tick] agree (lemma
    [tick_whole_seconds]). *)

Module Countdown.

Record State : Type := mkState {
  session_status : option SessionStatus;   (* session?.status *)
  timeLeft : Q;
  timer_installed : bool
}.

Definition set_timeLeft (t : Q) (st : State) : State :=
  {| session_status := session_status st; timeLeft := t;
     timer_installed := timer_installed st |}.

Definition set_timer (b : bool) (st : State) : State :=
  {| session_status := session_status st; timeLeft := timeLeft st;
     timer_installed := b |}.

(** [!session || session.status === 'submitted'] *)
Definition no_running_session (st : State) : bool :=
  match session_status st with
  | None => true
  | Some submitted => true
  | Some in_progress => false
  end.

Definition timer_effect (st : State) : State :=
  set_timer (negb (no_running_session st)) st.

(** [prev => { if (prev <= 0) { clearInterval(timer); return 0; } return
    prev - 1; }] *)
Definition countdown (prev : Q) : Q :=
  if Qle_bool prev 0 then 0 else prev - 1.

Definition tick (st : State) : State :=
  if timer_installed st then
    if Qle_bool (timeLeft st) 0
    then set_timer false (set_timeLeft (countdown (timeLeft st)) st)
    else set_timeLeft (countdown (timeLeft st)) st
  else st.

Fixpoint ticks (n : nat) (st : State) : State :=
  match n with
  | O => st
  | S n' => ticks n' (tick st)
  end.

(** What the timer reads of a runner that holds whole seconds. *)
Definition of_runner (st : ExamRunner.State) : State :=
  {| session_status := option_map status (ExamRunner.session st);
     timeLeft := inject_Z (ExamRunner.timeLeft st);
     timer_installed := ExamRunner.timer_installed st |}.

(** The same timer state, the two countdowns being the same number. *)
Definition same (a b : State) : Prop :=
  session_status a = session_status b
  /\ (timeLeft a == timeLeft b)%Q
  /\ timer_installed a = timer_installed b.

End Countdown.

(** ** The result page ([frontend/pages/ResultDetails.tsx]) *)

Module ResultDetails.

Record Props : Type := mkProps {
  examId : option string;          (* useParams *)
  studentId : option string
}.

Record State : Type := mkState {
  session : option MappedSession;
  updatingQ : option string
}.

Definition set_updatingQ (q : option string) (st : State) : State :=
  {| session := session st; updatingQ := q |}.

Definition set_session (sess : MappedSession) (st : State) : State :=
  {| session := Some sess; updatingQ := updatingQ st |}.

Section Handlers.

Variable server : Request -> Reply.
Variable Date_getTime : value -> option Z.
Variable Date_now : Z.
(** [Number(s)] for the text of the grade input; [None] is [NaN]. *)
Variable StringToNumber : string -> option Z.

Variable props : Props.

(** [newScore] may be [NaN] ([None]); [maxScore] may be omitted. *)
Definition handleGrade (qId : string) (newScore : option Z) (maxScore : option Z)
    (st : State) : M State :=
  if param_missing (examId props) || param_missing (studentId props) then ret st
  else
    match newScore with
    | None => emit (EAlert "Grade must be a number");;; ret st
    | Some ns =>
        if match maxScore with
           | Some m => (ns <? 0) || (m <? ns)
           | None => false
           end
        then
          emit (EAlert ("Grade must be between 0 and "
                        +:+ pretty (default 0 maxScore)));;;
          ret st
        else
          let st1 := set_updatingQ (Some qId) st in
          st2 <- try_catch
                   (updated <- updateSessionScore server Date_getTime Date_now
                                 (template_param (examId props))
                                 (template_param (studentId props)) qId ns;;
                    ret (set_session updated st1))
                   (fun e => emit (EAlert "Failed to update score");;; ret st1);;
          (* finally *)
          ret (set_updatingQ None st2)
    end.

(** The grade input of a manually graded question: the Enter key and the
    Update Grade button both read the text of the input and, unless it is
    empty, call [handleGrade] with the question's maximum. *)
Definition submit_grade (q : Question) (text : string) (st : State) : M State :=
  if String.eqb text "" then ret st
  else handleGrade (q_id q) (StringToNumber text) (Some (q_max_score q)) st.

End Handlers.

End ResultDetails.

(** ** Statements about runs *)

(** A number of seconds that is whole and not negative. *)
Definition whole_seconds (v : Q) : Prop :=
  exists k : Z, 0 <= k /\ (v == inject_Z k)%Q.

(** What holds of the timer between two ticks while an attempt is in
    progress: the status is as it was, and the interval is installed unless
    the countdown is at zero. *)
Definition Counting (st : Countdown.State) : Prop :=
  Countdown.session_status st = Some in_progress
  /\ (Countdown.timer_installed st = true \/ (Countdown.timeLeft st == 0)%Q).

(** The token that [getAuthHeaders] finds. *)
Definition stored_token (s : Store) : option string :=
  match items s !! "authToken" with
  | Some t => if String.eqb t "" then None else Some t
  | None => None
  end.

(** The request of [submitExam]. *)
Definition submit_request (session : StudentExamSession) (s : Store) : Request :=
  mkRequest POST ("/api/exams/" +:+ examId session +:+ "/submit")
            (VObject [("answers", VObject (answers session))])
            (stored_token s).

(** The request of [saveExamProgress]. *)
Definition autosave_request (session : StudentExamSession) (s : Store) : Request :=
  mkRequest PUT ("/api/exams/" +:+ examId session +:+ "/session")
            (VObject [("answers", VObject (answers session));
                      ("remaining_seconds", VNumber (remainingSeconds session))])
            (stored_token s).

(** The request of [updateSessionScore]. *)
Definition grade_request
    (examId studentId questionId : string) (newScore : Z) (s : Store) : Request :=
  mkRequest POST "/api/student/results/grade"
            (VObject [("exam_id", VString examId); ("student_id", VString studentId);
                      ("question_id", VString questionId);
                      ("new_score", VNumber newScore)])
            (stored_token s).

(** Events that reach the user interface. *)
Definition surfaced (e : Event) : bool :=
  match e with
  | EAlert _ | EConfirm _ | ENavigate _ | ENavigateBack => true
  | _ => false
  end.

Definition is_request (e : Event) : bool :=
  match e with ERequest _ => true | _ => false end.

Definition is_confirm (e : Event) : bool :=
  match e with EConfirm _ => true | _ => false end.

(** The runner's state once [handleFinishExam] has started to submit. *)
Definition after_submit (st : ExamRunner.State) : ExamRunner.State :=
  ExamRunner.clear_save_timeout
    (ExamRunner.set_saving false (ExamRunner.set_loading true st)).

(** ** JSON *)

(** What [JSON.parse (JSON.stringify v)] yields for a value [v] that can be
    printed: a property whose value is [undefined] is left out of an object,
    and [undefined] in an array becomes [null]. *)
Fixpoint json_image (v : value) : value :=
  match v with
  | VArray xs =>
      VArray (List.map (fun x => match x with
                                 | VUndefined => VNull
                                 | _ => json_image x
                                 end) xs)
  | VObject fs =>
      VObject
        ((fix fields (l : list (string * value)) : list (string * value) :=
            match l with
            | [] => []
            | (k, x) :: l' =>
                match x with
                | VUndefined => fields l'
                | _ => (k, json_image x) :: fields l'
                end
            end) fs)
  | _ => v
  end.

(** The conditions of resumption, read off a session itself. *)
Definition session_resumable
    (session : StudentExamSession) (now end_ : Date) : Prop :=
  status session <> submitted
  /\ 0 < remainingSeconds session
  /\ 0 < startTime session
  /\ date_gt now end_ = false.

(** ** A concrete dashboard, used to exercise the statements below *)

Module Demo.

(** The snapshot of an attempt of exam [e1] by student [u1], 42 seconds
    before its time runs out. *)
Definition entry : value :=
  VObject [("examId", VString "e1"); ("studentId", VString "u1");
           ("startTime", VNumber 1700000000000); ("answers", VObject []);
           ("remainingSeconds", VNumber 42); ("status", VString "in_progress")].

Definition raw : string := "{examId:e1,studentId:u1,remainingSeconds:42}".

Definition parse (s : string) : option value :=
  if String.eqb s raw then Some entry else None.

Definition no_number (s : string) : option Z := None.

Definition date (s : string) : Date :=
  if String.eqb s "2030-01-01T00:00:00Z" then Some 1893456000000 else None.

Definition exam : Exam :=
  {| exam_id := "e1"; exam_title := "Midterm";
     exam_start_time := "2020-01-01T00:00:00Z";
     exam_end_time := "2030-01-01T00:00:00Z";
     exam_duration_minutes := 30; exam_question_ids := ["q1"; "q2"];
     exam_is_published := true |}.

Definition clock : Z := 1700000100000.

Definition storage : Storage := {[ session_key "e1" "u1" := raw ]}.

(** A server record of another student, and one of [u1] for [e1]. *)
Definition foreign_record : value :=
  VObject [("examId", VString "e1"); ("studentId", VString "u2");
           ("status", VString "submitted"); ("remainingSeconds", VNumber 0)].

Definition own_record : value :=
  VObject [("examId", VString "e1"); ("studentId", VString "u1");
           ("status", VString "in_progress"); ("remainingSeconds", VNumber 42)].

End Demo.

(** A multi-choice question with the given correct answers. *)
Module GradingDemo.

Definition question (correct : list string) : Question :=
  {| q_id := "q1"; q_title := "Pick the primes"; q_complexity := "Class 1";
     q_type := MULTI_CHOICE; q_options := Some ["A"; "B"; "C"];
     q_correct_answers := AList correct; q_max_score := 5; q_tags := None |}.

End GradingDemo.

(** ** A concrete attempt, used to exercise the statements below *)

Module RunnerDemo.

Definition session : StudentExamSession :=
  {| examId := "e1"; studentId := "u1"; startTime := 1700000000000;
     answers := [("q1", VString "B"); ("q2", VArray [VString "A"; VString "C"])];
     remainingSeconds := 42; status := in_progress;
     score := None; questionScores := None |}.

Definition props : ExamRunner.Props :=
  {| ExamRunner.examId := Some "e1"; ExamRunner.currentUser_id := "u1" |}.

(** The runner just after the session has been loaded. *)
Definition state : ExamRunner.State :=
  {| ExamRunner.session := Some session; ExamRunner.timeLeft := 42;
     ExamRunner.loading := false; ExamRunner.saving := false;
     ExamRunner.timer_installed := false; ExamRunner.save_scheduled := false |}.

(** The runner when the countdown has run out. *)
Definition expired : ExamRunner.State :=
  ExamRunner.set_timeLeft 0 state.

(** The timer of an attempt in progress, loaded with [seconds]. *)
Definition timer (seconds : Q) : Countdown.State :=
  {| Countdown.session_status := Some in_progress;
     Countdown.timeLeft := seconds;
     Countdown.timer_installed := false |}.

Definition store : Store := mkStore Demo.storage true.

Definition server_up (req : Request) : Reply :=
  Resolved (VObject [("exam_id", VString "e1"); ("student_id", VString "u1");
                     ("status", VString "submitted"); ("score", VNumber 5)]).

Definition server_down (req : Request) : Reply :=
  Rejected (VObject [("message", VString "Network Error")]).

(** A backend that answers every request with the body [null]. *)
Definition server_null (req : Request) : Reply := Resolved VNull.

Definition getTime (v : value) : option Z := None.

Definition now : Z := 1700000100000.

Definition confirm_yes (msg : string) : bool := true.

Definition text : string := "{examId:e1,studentId:u1,remainingSeconds:42,status:in_progress}".

Definition print (v : value) : option string := Some text.

Definition parse (s : string) : option value :=
  if String.eqb s text then Some (json_image (session_object session)) else None.

Definition decode64 (s : string) : option string := Some s.

(** A token whose payload names the role [teacher]. *)
Definition parse_token (s : string) : option value :=
  Some (VObject [("id", VNumber 7); ("email", VString "t@example.org");
                 ("role", VString "teacher")]).

Definition exam : Exam := Demo.exam.

Definition result_props : ResultDetails.Props :=
  {| ResultDetails.examId := Some "e1"; ResultDetails.studentId := Some "u1" |}.

Definition result_state : ResultDetails.State :=
  {| ResultDetails.session := None; ResultDetails.updatingQ := None |}.

Definition text_question : Question :=
  {| q_id := "q7"; q_title := "Explain"; q_complexity := "Class 2";
     q_type := TEXT; q_options := None; q_correct_answers := AUndefined;
     q_max_score := 10; q_tags := None |}.

(** The grade input holds the text [11]. *)
Definition read_number (s : string) : option Z :=
  if String.eqb s "11" then Some 11 else None.

End RunnerDemo.

(** * The rest of the exam runner, the dashboard, the result pages and the
      API layer *)

(** ** More of the exam runner ([frontend/pages/ExamRunner.tsx]) *)

Module RunnerView.

(** [s.padStart(n, "0")] *)
Definition padStart_zero (n : nat) (s : string) : string :=
  String.concat "" (List.repeat "0" (n - String.length s)) +:+ s.

(** [formatTime]: [Math.floor (sec / 60)] is the floor quotient and [%] the
    remainder of the truncated division. *)
Definition formatTime (sec : Z) : string :=
  let sec := if sec <? 0 then 0 else sec in
  let m := sec / 60 in
  let s := Z.rem sec 60 in
  pretty m +:+ ":" +:+ padStart_zero 2 (pretty s).

(** [questions[i]] for a number [i]. *)
Definition question_at (questions : list Question) (i : Z) : option Question :=
  if i <? 0 then None else questions !! Z.to_nat i.

(** [{ ...fields, [k]: v }]: an existing key keeps its place and takes the
    new value, a new key comes last. *)
Fixpoint set_field (k : string) (v : value) (fields : list (string * value))
  : list (string * value) :=
  match fields with
  | [] => [(k, v)]
  | (k', v') :: rest =>
      if String.eqb k k' then (k', v) :: rest
      else (k', v') :: set_field k v rest
  end.

(** [{ ...session, answers: { ...session.answers, [k]: v } }] *)
Definition with_answer (session : StudentExamSession) (k : string) (v : value)
  : StudentExamSession :=
  {| examId := examId session; studentId := studentId session;
     startTime := startTime session;
     answers := set_field k v (answers session);
     remainingSeconds := remainingSeconds session; status := status session;
     score := score session; questionScores := questionScores session |}.

Definition set_session (sess : StudentExamSession) (st : ExamRunner.State)
  : ExamRunner.State :=
  {| ExamRunner.session := Some sess;
     ExamRunner.timeLeft := ExamRunner.timeLeft st;
     ExamRunner.loading := ExamRunner.loading st;
     ExamRunner.saving := ExamRunner.saving st;
     ExamRunner.timer_installed := ExamRunner.timer_installed st;
     ExamRunner.save_scheduled := ExamRunner.save_scheduled st |}.

(** The single characters of a string, as [[...s]] yields them. *)
Fixpoint characters (s : string) : list value :=
  match s with
  | EmptyString => []
  | String c rest => VString (String c EmptyString) :: characters rest
  end.

(** The change handler of a multi-choice checkbox: [currentAnswer] is the
    stored answer, [checked] the new state of the box.  The result is the
    value passed to [handleAnswerChange], or [None] when the handler throws
    (a value that cannot be spread, or has no [filter]). *)
Definition toggle_option (currentAnswer : value) (opt : string) (checked : bool)
  : option value :=
  let current := or_else currentAnswer (VArray []) in
  if checked then
    match current with
    | VArray xs => Some (VArray (xs ++ [VString opt]))
    | VString s => Some (VArray (characters s ++ [VString opt]))
    | _ => None
    end
  else
    match current with
    | VArray xs => Some (VArray (List.filter (fun x => negb (eq_string x opt)) xs))
    | _ => None
    end.

(** [checked={currentAnswer?.includes(opt) || false}]: membership for an
    array, the substring test for a string, [false] for an absent answer;
    [None] when the value has no [includes]. *)
Definition option_checked (currentAnswer : value) (opt : string) : option bool :=
  match currentAnswer with
  | VUndefined | VNull => Some false
  | VArray xs => Some (existsb (fun x => eq_string x opt) xs)
  | VString s =>
      Some match String.index 0 opt s with Some _ => true | None => false end
  | _ => None
  end.

(** The questions of an exam, in the order of its definition; an id without
    a question in the bank is left out. *)
Definition exam_questions (question_ids : list string) (allQuestions : list Question)
  : list Question :=
  omap (fun id => List.find (fun q => String.eqb (q_id q) id) allQuestions)
       question_ids.

(** The updaters of the Previous and Next buttons. *)
Definition previous_index (prev : Z) : Z := Z.max 0 (prev - 1).

Definition next_index (questions : list Question) (prev : Z) : Z :=
  Z.min (Z.of_nat (length questions) - 1) (prev + 1).

Section Handlers.

Variable JSON_stringify : value -> option string.
Variable server : Request -> Reply.

(** [saveProgressNow]; [timeLeft] is the one of the render that created
    the handler. *)
Definition saveProgressNow (sessToSave : option StudentExamSession)
    (st : ExamRunner.State) : M ExamRunner.State :=
  match sessToSave with
  | None => ret st
  | Some sess =>
      try_catch
        (saveExamProgress JSON_stringify server
           (with_remaining sess (ExamRunner.timeLeft st)))
        (fun err => emit (EConsoleError "Auto-save failed"));;;
      (* setSaving(true) ... finally setSaving(false) *)
      ret (ExamRunner.set_saving false st)
  end.

Definition handleAnswerChange
    (questions : list Question) (currentQIndex : Z) (val : value)
    (st : ExamRunner.State) : M ExamRunner.State :=
  match ExamRunner.session st with
  | None => ret st
  | Some session =>
      match question_at questions currentQIndex with
      | None => ret st
      | Some currentQ =>
          let updatedSession := with_answer session (q_id currentQ) val in
          let st1 := ExamRunner.clear_save_timeout (set_session updatedSession st) in
          saveProgressNow (Some updatedSession) st1
      end
  end.

(** The Previous and Next buttons: save, then move. *)
Definition go_previous (currentQIndex : Z) (st : ExamRunner.State)
  : M (ExamRunner.State * Z) :=
  st' <- saveProgressNow (ExamRunner.session st) st;;
  ret (st', previous_index currentQIndex).

Definition go_next (questions : list Question) (currentQIndex : Z)
    (st : ExamRunner.State) : M (ExamRunner.State * Z) :=
  st' <- saveProgressNow (ExamRunner.session st) st;;
  ret (st', next_index questions currentQIndex).

(** [handleVisibilityChange] when the page becomes hidden, and
    [handleBeforeUnload]: both save the session unless there is none or it
    is submitted. *)
Definition save_on_leave (st : ExamRunner.State) : M unit :=
  match ExamRunner.session st with
  | Some sess =>
      match status sess with
      | submitted => ret tt
      | in_progress =>
          saveExamProgress JSON_stringify server
            (with_remaining sess (ExamRunner.timeLeft st))
      end
  | None => ret tt
  end.

End Handlers.

End RunnerView.

(** ** Routing ([App.tsx]) *)

Module App.

(** The locations of the route table. *)
Inductive Path : Type :=
| login_path
| register_path
| root_path
| admin_questions
| admin_exams
| admin_results
| student_dashboard
| student_exam (examId : string)
| student_results
| result_details (examId studentId : string).

Inductive Page : Type :=
| LoginPage
| RegisterPage
| QuestionBankPage
| ExamManagerPage
| AdminResultsPage
| StudentDashboardPage
| ExamRunnerPage (examId : string)
| ResultsPage
| ResultDetailsPage (examId studentId : string).

(** What a route element renders: the loading notice of [ProtectedRoute],
    nothing at all ([AuthRedirect] returns [null]), a [<Navigate replace>],
    or a page. *)
Inductive Element : Type :=
| Loading
| Nothing
| Navigate (to : Path)
| Show (page : Page).

(** [roles.includes(user.role)] *)
Definition roles_include (roles : list string) (user : value) : bool :=
  existsb (fun r => eq_string (prop user "role") r) roles.

Definition ProtectedRoute
    (user : value) (isLoading : bool) (roles : option (list string))
    (children : Page) : Element :=
  if isLoading then Loading
  else if negb (truthy user) then Navigate login_path
  else
    match roles with
    | Some rs =>
        if negb (roles_include rs user) then Navigate root_path
        else Show children
    | None => Show children
    end.

(** [user.role === 'admin' ? '/admin/questions' : '/student/dashboard'] *)
Definition home (user : value) : Path :=
  if eq_string (prop user "role") "admin" then admin_questions
  else student_dashboard.

Definition AuthRedirect (user : value) (isLoading : bool) (children : Page)
  : Element :=
  if isLoading then Nothing
  else if truthy user then Navigate (home user)
  else Show children.

(** The route table of [AppContent]. *)
Definition route (user : value) (isLoading : bool) (p : Path) : Element :=
  match p with
  | login_path => AuthRedirect user isLoading LoginPage
  | register_path => AuthRedirect user isLoading RegisterPage
  | root_path =>
      if truthy user then Navigate (home user) else Navigate login_path
  | admin_questions =>
      ProtectedRoute user isLoading (Some ["admin"]) QuestionBankPage
  | admin_exams =>
      ProtectedRoute user isLoading (Some ["admin"]) ExamManagerPage
  | admin_results =>
      ProtectedRoute user isLoading (Some ["admin"]) AdminResultsPage
  | student_dashboard =>
      ProtectedRoute user isLoading (Some ["student"]) StudentDashboardPage
  | student_exam examId =>
      ProtectedRoute user isLoading (Some ["student"]) (ExamRunnerPage examId)
  | student_results =>
      ProtectedRoute user isLoading (Some ["student"]) ResultsPage
  | result_details examId studentId =>
      ProtectedRoute user isLoading None (ResultDetailsPage examId studentId)
  end.

(** Rendering a location and following at most [n] redirects. *)
Fixpoint follow (n : nat) (user : value) (isLoading : bool) (p : Path)
  : Element :=
  match route user isLoading p with
  | Navigate q =>
      match n with
      | O => Navigate q
      | S n' => follow n' user isLoading q
      end
  | e => e
  end.

(** The role a page is reserved for. *)
Definition reserved_for (page : Page) : option string :=
  match page with
  | QuestionBankPage | ExamManagerPage | AdminResultsPage => Some "admin"
  | StudentDashboardPage | ExamRunnerPage _ | ResultsPage => Some "student"
  | LoginPage | RegisterPage | ResultDetailsPage _ _ => None
  end.

Definition public (page : Page) : bool :=
  match page with
  | LoginPage | RegisterPage => true
  | _ => false
  end.

Definition is_navigate (e : Element) : bool :=
  match e with Navigate _ => true | _ => false end.

End App.

(** ** Signing in and out ([frontend/services/api.ts],
      [context/AuthContext.tsx], [frontend/components/Navbar.tsx]) *)

Module AuthApi.

(** [AuthResponse], as the API layer takes it from a response body. *)
Record AuthResponse : Type := mkAuthResponse {
  res_user : value;
  res_token : value
}.

(** The [catch] arm shared by [login] and [register]. *)
Definition auth_failure (fallback : string) (err : value) : value :=
  if truthy (prop (response_data err) "detail")
  then new_Error (prop (response_data err) "detail")
  else new_Error (or_else (prop err "message") (VString fallback)).

(** [{ email, password }] *)
Definition credentials (email password : string) : value :=
  VObject [("email", VString email); ("password", VString password)].

(** The requests of [login] and [register].  The two calls pass no
    headers of their own; a request holds what the call passes, not what
    [axios] adds from its defaults. *)
Definition login_request (email password : string) : Request :=
  mkRequest POST "/auth/login" (credentials email password) None.

Definition register_request (name email password : string) : Request :=
  mkRequest POST "/auth/register"
    (VObject [("email", VString email); ("password", VString password);
              ("full_name", VString name)])
    None.

(** [data && data.user && data.token] *)
Definition login_body_ok (data : value) : bool :=
  truthy data && truthy (prop data "user") && truthy (prop data "token").

Section Api.

Variable server : Request -> Reply.

Definition login (email password : string) : M AuthResponse :=
  try_catch
    (data <- axios server POST "/auth/login" (credentials email password) None;;
     if negb (truthy data) || negb (truthy (prop data "user"))
        || negb (truthy (prop data "token"))
     then throw (new_Error (VString "Invalid response from auth server"))
     else ret (mkAuthResponse (prop data "user") (prop data "token")))
    (fun err => throw (auth_failure "Login failed: backend not reachable" err)).

Definition register (name email password : string) : M AuthResponse :=
  try_catch
    (data <- axios server POST "/auth/register"
               (VObject [("email", VString email); ("password", VString password);
                         ("full_name", VString name)])
               None;;
     if truthy data && truthy (prop data "id") && truthy (prop data "email")
     then
       if truthy (prop data "token")
       then ret (mkAuthResponse data (prop data "token"))
       else
         loginData <- axios server POST "/auth/login"
                        (credentials email password) None;;
         if truthy loginData && truthy (prop loginData "user")
            && truthy (prop loginData "token")
         then ret (mkAuthResponse (prop loginData "user")
                                  (prop loginData "token"))
         else throw (new_Error
                       (VString "Registration succeeded but token not returned"))
     else throw (new_Error (VString "Invalid response from register endpoint")))
    (fun err => throw (auth_failure "Register failed: backend not reachable" err)).

End Api.

End AuthApi.

Module AuthContext.

Import AuthApi.

(** The state of the provider, with the default [Authorization] header of
    [axios] ([axios.defaults.headers.common]) and the calls of
    [addNotification], latest last. *)
Record State : Type := mkState {
  user : value;
  isLoading : bool;
  authorization : option string;
  notifications : list (string * value)
}.

Definition initial : State :=
  {| user := VNull; isLoading := true; authorization := None;
     notifications := [] |}.

Definition set_user (u : value) (st : State) : State :=
  {| user := u; isLoading := isLoading st;
     authorization := authorization st; notifications := notifications st |}.

Definition set_isLoading (b : bool) (st : State) : State :=
  {| user := user st; isLoading := b;
     authorization := authorization st; notifications := notifications st |}.

Definition set_authorization (h : option string) (st : State) : State :=
  {| user := user st; isLoading := isLoading st;
     authorization := h; notifications := notifications st |}.

Definition addNotification (type : string) (message : value) (st : State)
  : State :=
  {| user := user st; isLoading := isLoading st;
     authorization := authorization st;
     notifications := notifications st ++ [(type, message)] |}.

(** [`Bearer ${token}`] *)
Definition bearer (token : string) : string := "Bearer " +:+ token.

(** The user object that [getCurrentUser] resolves with. *)
Definition user_value (u : CurrentUser) : value :=
  match u with
  | FromBackend data => data
  | FromToken usr =>
      VObject [("id", VString (user_id usr)); ("name", VString (user_name usr));
               ("email", VString (user_email usr));
               ("role", VString (user_role usr))]
  | NoUser => VNull
  end.

(** The provider as it is once a sign-in has gone through. *)
Definition signed_in (res : AuthResponse) (st : State) : State :=
  set_user (res_user res)
    (set_authorization (Some (bearer (to_string (res_token res)))) st).

Section Provider.

Variable JSON_parse : string -> option value.
Variable atob : string -> option string.
Variable server : Request -> Reply.
Variable window_confirm : string -> bool.

(** The effect run when the provider mounts. *)
Definition restore (st : State) : M State :=
  token <- localStorage_getItem "authToken";;
  match token with
  | Some t =>
      if String.eqb t "" then ret (set_isLoading false st)
      else
        let st1 := set_authorization (Some (bearer t)) st in
        st2 <-
          try_catch
            (u <- getCurrentUser JSON_parse atob server t;;
             if truthy (user_value u) then ret (set_user (user_value u) st1)
             else
               localStorage_removeItem "authToken";;;
               ret (set_authorization None st1))
            (fun _ =>
               localStorage_removeItem "authToken";;;
               ret (set_authorization None st1));;
        ret (set_isLoading false st2)
  | None => ret (set_isLoading false st)
  end.

(** [login] and [register] of the provider resolve, or reject with the
    error they caught: the second component is that error. *)
Definition login (email pass : string) (st : State) : M (State * option value) :=
  try_catch
    (res <- AuthApi.login server email pass;;
     localStorage_setItem "authToken" (to_string (res_token res));;;
     ret (addNotification "success"
            (VString ("Welcome back, "
                      +:+ to_string (prop (res_user res) "full_name") +:+ "!"))
            (signed_in res st),
          None))
    (fun e =>
       ret (addNotification "error"
              (or_else (prop e "message") (VString "Login failed")) st,
            Some e)).

Definition register (name email pass : string) (st : State)
  : M (State * option value) :=
  try_catch
    (res <- AuthApi.register server name email pass;;
     localStorage_setItem "authToken" (to_string (res_token res));;;
     ret (addNotification "success"
            (VString "Registration successful! Welcome.")
            (signed_in res st),
          None))
    (fun e =>
       ret (addNotification "error"
              (or_else (prop e "message") (VString "Registration failed")) st,
            Some e)).

Definition logout (st : State) : M State :=
  localStorage_removeItem "authToken";;;
  ret (addNotification "info" (VString "You have been logged out.")
         (set_authorization None (set_user VNull st))).

Definition logout_prompt : string := "Are you sure you want to logout?".

(** [handleLogout] of the navigation bar. *)
Definition handleLogout (st : State) : M State :=
  confirmed <- ExamRunner.confirm window_confirm logout_prompt;;
  if confirmed then
    st' <- logout st;;
    emit (ENavigate "/login");;;
    ret st'
  else ret st.

End Provider.


End AuthContext.

(** ** The cards of the student dashboard ([StudentDashboard]) and the
      start of an attempt ([startExamSession]) *)

Module Dashboard.

(** [a >= b] *)
Definition date_ge (a b : Date) : bool :=
  match a, b with
  | Some x, Some y => y <=? x
  | _, _ => false
  end.

(** [a < b] *)
Definition date_lt (a b : Date) : bool :=
  match a, b with
  | Some x, Some y => x <? y
  | _, _ => false
  end.

(** What the card of an exam offers: the disabled Submitted button with the
    link to the result, the Resume link, the Start button (disabled and
    labelled Starting while a start is under way), or a disabled button
    labelled Not Started Yet or Expired. *)
Inductive Card : Type :=
| Submitted (result_link : string)
| Resume (link : string)
| Start (starting : bool)
| NotStartedYet
| Expired.

(** [`/student/exam/${examId}`] *)
Definition runner_path (examId : string) : string := "/student/exam/" +:+ examId.

Section Card.

Variable Date_parse : string -> Date.

Definition isActive (clock : Z) (exam : Exam) : bool :=
  let now : Date := Some clock in
  date_ge now (Date_parse (exam_start_time exam))
  && date_le now (Date_parse (exam_end_time exam)).

Definition exam_card
    (examStatusMap : gmap string Label) (startingMap : gmap string bool)
    (user_id : option string) (clock : Z) (exam : Exam) : Card :=
  let now : Date := Some clock in
  let start := Date_parse (exam_start_time exam) in
  if isActive clock exam then
    match examStatusMap !! exam_id exam with
    | Some submitted_label =>
        Submitted ("/result/" +:+ exam_id exam +:+ "/" +:+ template_param user_id)
    | Some resumable => Resume (runner_path (exam_id exam))
    | None => Start (default false (startingMap !! exam_id exam))
    end
  else if date_lt now start then NotStartedYet
  else Expired.

End Card.

(** The session as [startExamSession] maps it from the response. *)
Record StartedSession : Type := mkStarted {
  s_examId : value;
  s_studentId : value;
  s_startTime : option Z;
  s_answers : value;
  s_remainingSeconds : value;
  s_status : value;
  s_questions : value
}.

Definition start_failed : string := "Failed to start exam. Please try again.".

Section Start.

Variable server : Request -> Reply.
Variable Date_getTime : value -> option Z.
Variable Date_now : Z.

Definition map_start_response (examId studentId : string) (data : value)
  : StartedSession :=
  {| s_examId :=
       or_else (or_else (prop data "exam_id") (prop data "examId"))
               (VString examId);
     s_studentId :=
       or_else (or_else (prop data "student_id") (prop data "studentId"))
               (VString studentId);
     s_startTime :=
       if truthy (prop data "start_time")
       then Date_getTime (prop data "start_time")
       else Some Date_now;
     s_answers := or_else (prop data "answers") (VObject []);
     s_remainingSeconds :=
       prop data "remaining_seconds" ?? prop data "remainingSeconds" ?? VNumber 0;
     s_status := or_else (prop data "status") (VString "in_progress");
     s_questions := or_else (prop data "questions") (VArray []) |}.

Definition startExamSession (examId studentId : string) : M StartedSession :=
  try_catch
    (headers <- getAuthHeaders;;
     data <- axios server POST ("/api/exams/" +:+ examId +:+ "/start")
                   (VObject []) headers;;
     match get data "exam_id" with
     | Some _ => ret (map_start_response examId studentId data)
     | None => throw type_error
     end)
    (fun err =>
       let detail :=
         or_else (or_else (or_else (prop (response_data err) "detail")
                                   (response_data err))
                          (prop err "message"))
                 (VString "Failed to start exam session on backend") in
       throw (new_Error detail)).

(** [handleStart] of the dashboard, on the map of the starts under way. *)
Definition handleStart
    (user_id : option string) (examId : string) (startingMap : gmap string bool)
  : M (gmap string bool) :=
  match user_id with
  | None => ret startingMap
  | Some uid =>
      let starting := <[examId := true]> startingMap in
      try_catch
        (startExamSession examId uid;;;
         emit (ENavigate (runner_path examId)))
        (fun err =>
           emit (EConsoleError "Failed to start exam");;;
           emit (EAlert (to_string (or_else (prop err "message")
                                            (VString start_failed)))));;;
      ret (<[examId := false]> starting)
  end.

End Start.

End Dashboard.

(** The request of [startExamSession]. *)
Definition start_request (examId : string) (s : Store) : Request :=
  mkRequest POST ("/api/exams/" +:+ examId +:+ "/start") (VObject [])
            (stored_token s).

(** ** Reading exams, questions and results, and uploading an image
      ([frontend/services/api.ts]) *)

Module ExamApi.

(** An exam as the API layer maps it from a response ([as Exam] is
    unchecked). *)
Record MappedExam : Type := mkMappedExam {
  e_id : value;
  e_title : value;
  e_description : value;
  e_start_time : value;
  e_end_time : value;
  e_duration_minutes : value;
  e_question_ids : value;
  e_is_published : value
}.

(** [err?.response?.data?.detail || err?.response?.data || err?.message
    || fallback] *)
Definition error_detail (fallback : string) (err : value) : value :=
  or_else (or_else (or_else (prop (response_data err) "detail")
                            (response_data err))
                   (prop err "message"))
          (VString fallback).

(** [err?.message || fallback] *)
Definition error_message (fallback : string) (err : value) : value :=
  or_else (prop err "message") (VString fallback).

(** The object literal built from an exam [e] of a response; [None] is the
    [TypeError] of a property read on [null] or [undefined]. *)
Definition map_exam (e : value) : option MappedExam :=
  match get e "id" with
  | Some eid =>
      Some {| e_id := eid;
              e_title := prop e "title";
              e_description := or_else (prop e "description") (VString "");
              e_start_time := prop e "start_time";
              e_end_time := prop e "end_time";
              e_duration_minutes :=
                prop e "duration" ?? prop e "duration_minutes" ?? VNumber 0;
              e_question_ids :=
                or_else (or_else (prop e "questions") (prop e "question_ids"))
                        (VArray []);
              e_is_published := prop e "is_published" ?? VBool false |}
  | None => None
  end.

(** [role === 'student' ? '/api/student/exams' : '/api/exams/']; a call
    without a role passes [undefined], for which the default is ['admin']. *)
Definition exams_endpoint (role : value) : string :=
  if eq_string role "student" then "/api/student/exams" else "/api/exams/".

(** The parameters of [fetchQuestions]. *)
Record QuestionQuery : Type := mkQuery {
  search : option string;
  tags : option (list string);
  page : option Z;
  per_page : option Z;
  complexity : option string
}.

Definition text_param (k : string) (p : option string) : list (string * value) :=
  match p with
  | Some s => if String.eqb s "" then [] else [(k, VString s)]
  | None => []
  end.

Definition number_param (k : string) (p : option Z) : list (string * value) :=
  match p with
  | Some n => if n =? 0 then [] else [(k, VNumber n)]
  | None => []
  end.

(** [queryParams] *)
Definition query_params (params : option QuestionQuery) : value :=
  match params with
  | Some p =>
      VObject
        (text_param "search" (search p)
         ++ match tags p with
            | Some (t :: ts) => [("tags", VString (join_comma (t :: ts)))]
            | _ => []
            end
         ++ number_param "page" (page p)
         ++ number_param "per_page" (per_page p)
         ++ text_param "complexity" (complexity p))
  | None => VObject []
  end.

(** [{ page: 1, per_page: 10000 }] *)
Definition all_questions_query : QuestionQuery :=
  {| search := None; tags := None; page := Some 1; per_page := Some 10000;
     complexity := None |}.


Section Api.

Variable server : Request -> Reply.
Variable Date_getTime : value -> option Z.
Variable Date_now : Z.
(** [window.location.origin] *)
Variable origin : string.

Definition fetchExams (role : value) : M (list MappedExam) :=
  try_catch
    (headers <- getAuthHeaders;;
     data <- axios server GET (exams_endpoint role) VUndefined headers;;
     match data with
     | VArray xs =>
         match mapM map_exam xs with
         | Some mapped => ret mapped
         | None => throw type_error
         end
     | _ => throw (new_Error (VString "Invalid response from exams endpoint"))
     end)
    (fun err =>
       throw (new_Error (error_detail "Failed to fetch exams from backend" err))).

(** For a [GET] with query parameters, the body of the request is the
    [params] object of the call.  The call passes no headers. *)
Definition fetchQuestions (params : option QuestionQuery)
  : M (list value * Z) :=
  try_catch
    (data <- axios server GET "/api/questionbank/list" (query_params params)
                   None;;
     if truthy data then
       match prop data "items", prop data "total" with
       | VArray items, VNumber total => ret (items, total)
       | _, _ =>
           throw (new_Error (VString "Invalid response from questions endpoint"))
       end
     else throw (new_Error (VString "Invalid response from questions endpoint")))
    (fun err =>
       throw (new_Error
                (error_detail "Failed to fetch questions from backend" err))).

Definition fetchAllQuestions : M (list value) :=
  try_catch
    (resp <- fetchQuestions (Some all_questions_query);;
     ret (fst resp))
    (fun err =>
       throw (new_Error
                (error_message "Failed to fetch all questions from backend" err))).

(** The object literal built from a record [d] of a results response. *)
Definition map_result (d : value) : option MappedSession :=
  match get d "exam_id" with
  | Some eid =>
      Some {| m_examId := eid;
              m_studentId := prop d "student_id";
              m_startTime :=
                if truthy (prop d "start_time")
                then Date_getTime (prop d "start_time")
                else Some Date_now;
              m_answers := or_else (prop d "answers") (VObject []);
              m_remainingSeconds := prop d "remaining_seconds" ?? VNumber 0;
              m_status := prop d "status";
              m_score := prop d "score";
              m_questionScores :=
                or_else (prop d "question_scores") (VObject []) |}
  | None => None
  end.

Definition result_request (examId studentId : string) (token : option string)
  : Request :=
  mkRequest POST "/api/student/results"
    (VObject [("exam_id", VString examId); ("student_id", VString studentId)])
    token.

Definition getExamResult (examId studentId : string)
  : M (option MappedSession) :=
  try_catch
    (let payload :=
       VObject [("exam_id", VString examId); ("student_id", VString studentId)] in
     headers <- getAuthHeaders;;
     data <- axios server POST "/api/student/results" payload headers;;
     match data with
     | VArray (d :: _) =>
         match map_result d with
         | Some sess => ret (Some sess)
         | None => throw type_error
         end
     | _ => ret None
     end)
    (fun err =>
       throw (new_Error
                (error_message "Failed to fetch exam result from backend" err))).


End Api.

End ExamApi.

(** ** The questions of an exam, from the responses *)

Module QuestionList.

(** [a === b] for values of two responses: two arrays or two objects are
    never the same object. *)
Definition strict_eq (a b : value) : bool :=
  match a, b with
  | VUndefined, VUndefined => true
  | VNull, VNull => true
  | VBool x, VBool y => Bool.eqb x y
  | VNumber x, VNumber y => x =? y
  | VString x, VString y => String.eqb x y
  | _, _ => false
  end.

(** [allQuestions.find(q => q.id === id)]: [None] is the [TypeError] of
    reading [id] of [null] or [undefined], [Some None] is [undefined]. *)
Fixpoint find_by_id (id : value) (allQuestions : list value)
  : option (option value) :=
  match allQuestions with
  | [] => Some None
  | q :: rest =>
      match get q "id" with
      | Some qid => if strict_eq qid id then Some (Some q) else find_by_id id rest
      | None => None
      end
  end.

(** [question_ids.map(id => allQuestions.find(q => q.id === id))
    .filter(q => q !== undefined)]; [None] when it throws: [question_ids]
    is not an array, or a question of the bank is [null]. *)
Definition exam_questions (question_ids : value) (allQuestions : list value)
  : option (list value) :=
  match question_ids with
  | VArray ids =>
      match mapM (fun id => find_by_id id allQuestions) ids with
      | Some found => Some (omap (fun q => q) found)
      | None => None
      end
  | _ => None
  end.

(** [exams.find(e => e.id === examId)] *)
Definition find_exam (examId : string) (exams : list ExamApi.MappedExam)
  : option ExamApi.MappedExam :=
  List.find (fun e => eq_string (ExamApi.e_id e) examId) exams.

End QuestionList.

(** A promise awaited inside [Promise.all]: the call runs to its end and
    its outcome is kept for the moment all are settled. *)
Definition settle {A} (m : M A) : M (Result A) :=
  fun s =>
    match m s with
    | mkRun res s1 ev1 => mkRun (Ok res) s1 ev1
    end.

(** ** Loading the result page ([ResultDetails], [loadData]) *)

Module ResultPage.

Record State : Type := mkState {
  session : option MappedSession;
  exam : option ExamApi.MappedExam;
  questions : list value;
  loading : bool
}.

Definition initial : State :=
  {| session := None; exam := None; questions := []; loading := true |}.

Definition set_loading (b : bool) (st : State) : State :=
  {| session := session st; exam := exam st; questions := questions st;
     loading := b |}.

Definition set_questions (qs : list value) (st : State) : State :=
  {| session := session st; exam := exam st; questions := qs;
     loading := loading st |}.

(** [setSession(sess); setExam(ex)] *)
Definition set_result (sess : MappedSession) (ex : option ExamApi.MappedExam)
    (st : State) : State :=
  {| session := Some sess; exam := ex; questions := questions st;
     loading := loading st |}.

Section Load.

Variable server : Request -> Reply.
Variable Date_getTime : value -> option Z.
Variable Date_now : Z.
Variable props : ResultDetails.Props.
(** The signed-in user, as the provider holds it. *)
Variable currentUser : value.

(** [currentUser.role === 'student' && currentUser.id !== studentId] *)
Definition unauthorized : bool :=
  eq_string (prop currentUser "role") "student"
  && negb (eq_string (prop currentUser "id")
                     (template_param (ResultDetails.studentId props))).

(** [loadData].  The three calls of [Promise.all] are started in the order
    written; when one of them rejects, or the question list cannot be
    built, the [catch] arm logs the error, which has no text of its own. *)
Definition loadData (st : State) : M State :=
  if param_missing (ResultDetails.examId props)
     || param_missing (ResultDetails.studentId props)
  then ret st
  else if unauthorized then
    emit (EAlert "Unauthorized");;;
    emit (ENavigate "/");;;
    ret st
  else
    let examId := template_param (ResultDetails.examId props) in
    let studentId := template_param (ResultDetails.studentId props) in
    r1 <- settle (ExamApi.getExamResult server Date_getTime Date_now
                    examId studentId);;
    r2 <- settle (ExamApi.fetchExams server (prop currentUser "role"));;
    r3 <- settle (ExamApi.fetchAllQuestions server);;
    st1 <-
      match r1, r2, r3 with
      | Ok None, Ok _, Ok _ =>
          emit (EAlert "Result not found");;;
          emit ENavigateBack;;;
          ret st
      | Ok (Some sess), Ok exams, Ok allQuestions =>
          let ex := QuestionList.find_exam examId exams in
          let st' := set_result sess ex st in
          match ex with
          | Some found =>
              match QuestionList.exam_questions
                      (ExamApi.e_question_ids found) allQuestions with
              | Some examQuestions => ret (set_questions examQuestions st')
              | None => emit (EConsoleError "");;; ret st'
              end
          | None => ret st'
          end
      | _, _, _ => emit (EConsoleError "");;; ret st
      end;;
    (* finally *)
    ret (set_loading false st1).

End Load.

End ResultPage.

(** ** Loading the runner and uploading an image ([ExamRunner],
      [initializeExam] and [handleImageSelect]) *)

Module RunnerPage.

(** What [initializeExam] leaves: nothing without an exam id; the way to
    the result of an attempt already submitted; the session and the
    questions it sets, with the countdown at the session's remaining seconds
    and loading ended; or the way back to the dashboard. *)
Inductive Outcome : Type :=
| NoExam
| AlreadySubmitted
| Ready (sess : Dashboard.StartedSession) (questions : list value)
| LoadFailed.

Section Load.

Variable JSON_stringify : value -> option string.
Variable server : Request -> Reply.
Variable Date_getTime : value -> option Z.
Variable Date_now : Z.
Variable origin : string.
Variable props : ExamRunner.Props.

Definition initializeExam : M Outcome :=
  if param_missing (ExamRunner.examId props) then ret NoExam
  else
    let examId := template_param (ExamRunner.examId props) in
    try_catch
      (sess <- Dashboard.startExamSession server Date_getTime Date_now examId
                 (ExamRunner.currentUser_id props);;
       if eq_string (Dashboard.s_status sess) "submitted" then
         emit (ENavigate (ExamRunner.result_path props));;;
         ret AlreadySubmitted
       else
         allQuestions <- ExamApi.fetchAllQuestions server;;
         exams <- ExamApi.fetchExams server VUndefined;;
         match QuestionList.find_exam examId exams with
         | Some examDef =>
             match QuestionList.exam_questions
                     (ExamApi.e_question_ids examDef) allQuestions with
             | Some examQuestions => ret (Ready sess examQuestions)
             | None => throw type_error
             end
         | None => throw (new_Error (VString "Exam def missing"))
         end)
      (fun e =>
         emit (EConsoleError "");;;
         emit (EAlert "Failed to load exam");;;
         emit (ENavigate "/student/dashboard");;;
         ret LoadFailed).


End Load.

End RunnerPage.

(** ** Writing an exam ([frontend/services/api.ts]) and the exam form
      ([ExamManager]) *)

Module ExamManager.

(** The form state [newExam], a [Partial<Exam>]: the fields of the object.
    After [handleEdit] they are those of an exam mapped from a response. *)
Definition Draft : Type := list (string * value).

Definition field (d : Draft) (k : string) : value := prop (VObject d) k.

(** [{ title: '', duration_minutes: 60, question_ids: [], is_published:
    false }] *)
Definition empty_draft : Draft :=
  [("title", VString ""); ("duration_minutes", VNumber 60);
   ("question_ids", VArray []); ("is_published", VBool false)].

(** [{ ...exam }] for a mapped exam *)
Definition draft_of (e : ExamApi.MappedExam) : Draft :=
  [("id", ExamApi.e_id e); ("title", ExamApi.e_title e);
   ("description", ExamApi.e_description e);
   ("start_time", ExamApi.e_start_time e); ("end_time", ExamApi.e_end_time e);
   ("duration_minutes", ExamApi.e_duration_minutes e);
   ("question_ids", ExamApi.e_question_ids e);
   ("is_published", ExamApi.e_is_published e)].

(** The payload of [createExam]. *)
Definition create_payload (exam : Draft) : list (string * value) :=
  [("title", field exam "title"); ("start_time", field exam "start_time");
   ("end_time", field exam "end_time");
   ("duration", field exam "duration_minutes" ?? VNumber 0);
   ("is_published", field exam "is_published" ?? VBool false);
   ("questions", or_else (field exam "question_ids") (VArray []))].

(** [if (exam.k !== undefined) payload.name = exam.k] *)
Definition defined_field (name : string) (v : value) : list (string * value) :=
  match v with
  | VUndefined => []
  | _ => [(name, v)]
  end.

(** The payload of [updateExam]. *)
Definition update_payload (exam : Draft) : list (string * value) :=
  defined_field "title" (field exam "title")
  ++ defined_field "start_time" (field exam "start_time")
  ++ defined_field "end_time" (field exam "end_time")
  ++ defined_field "duration" (field exam "duration_minutes")
  ++ defined_field "questions" (field exam "question_ids")
  ++ defined_field "is_published" (field exam "is_published").

(** [v?.length] *)
Definition optional_length (v : value) : value :=
  match v with
  | VArray xs => VNumber (Z.of_nat (length xs))
  | VString s => VNumber (Z.of_nat (String.length s))
  | VObject fs => prop v "length"
  | _ => VUndefined
  end.

(** [!newExam.title || !newExam.start_time || !newExam.end_time
    || (newExam.question_ids?.length || 0) === 0] *)
Definition missing_fields (d : Draft) : bool :=
  negb (truthy (field d "title"))
  || negb (truthy (field d "start_time"))
  || negb (truthy (field d "end_time"))
  || match or_else (optional_length (field d "question_ids")) (VNumber 0) with
     | VNumber n => n =? 0
     | _ => false
     end.

Definition fill_fields : string :=
  "Please fill all fields and select at least one question.".

Record Filters : Type := mkFilters {
  f_title : string;
  f_complexity : string;
  f_tag : string
}.

Definition no_filters : Filters :=
  {| f_title := ""; f_complexity := ""; f_tag := "" |}.

(** The state of the page, with the calls of [addNotification], latest
    last. *)
Record State : Type := mkState {
  exams : list ExamApi.MappedExam;
  questions : list value;
  isCreating : bool;
  editingId : value;
  loading : bool;
  newExam : Draft;
  searchInputs : Filters;
  appliedQFilters : Filters;
  notifications : list (string * value)
}.

Definition initial : State :=
  {| exams := []; questions := []; isCreating := false; editingId := VNull;
     loading := false; newExam := empty_draft; searchInputs := no_filters;
     appliedQFilters := no_filters; notifications := [] |}.

Definition set_loaded (es : list ExamApi.MappedExam) (qs : list value)
    (st : State) : State :=
  {| exams := es; questions := qs; isCreating := isCreating st;
     editingId := editingId st; loading := loading st; newExam := newExam st;
     searchInputs := searchInputs st; appliedQFilters := appliedQFilters st;
     notifications := notifications st |}.

Definition set_loading (b : bool) (st : State) : State :=
  {| exams := exams st; questions := questions st; isCreating := isCreating st;
     editingId := editingId st; loading := b; newExam := newExam st;
     searchInputs := searchInputs st; appliedQFilters := appliedQFilters st;
     notifications := notifications st |}.

Definition set_newExam (d : Draft) (st : State) : State :=
  {| exams := exams st; questions := questions st; isCreating := isCreating st;
     editingId := editingId st; loading := loading st; newExam := d;
     searchInputs := searchInputs st; appliedQFilters := appliedQFilters st;
     notifications := notifications st |}.

Definition addNotification (type : string) (message : value) (st : State)
  : State :=
  {| exams := exams st; questions := questions st; isCreating := isCreating st;
     editingId := editingId st; loading := loading st; newExam := newExam st;
     searchInputs := searchInputs st; appliedQFilters := appliedQFilters st;
     notifications := notifications st ++ [(type, message)] |}.

(** [setIsCreating(c); setEditingId(id); setNewExam(d); resetFilters()] *)
Definition set_form (c : bool) (id : value) (d : Draft) (st : State) : State :=
  {| exams := exams st; questions := questions st; isCreating := c;
     editingId := id; loading := loading st; newExam := d;
     searchInputs := no_filters; appliedQFilters := no_filters;
     notifications := notifications st |}.

Definition handleEdit (exam : ExamApi.MappedExam) (st : State) : State :=
  set_form true (ExamApi.e_id exam) (draft_of exam) st.

Definition handleCancel (st : State) : State :=
  set_form false VNull empty_draft st.

(** [toggleQuestion] on the draft; [None] when it throws, the selection
    being neither absent nor an array nor a string without [qId] in it. *)
Definition toggleQuestion (qId : string) (newExam : Draft) : option Draft :=
  match or_else (field newExam "question_ids") (VArray []) with
  | VArray current =>
      if existsb (fun id => eq_string id qId) current
      then Some (RunnerView.set_field "question_ids"
                   (VArray (List.filter (fun id => negb (eq_string id qId))
                                        current))
                   newExam)
      else Some (RunnerView.set_field "question_ids"
                   (VArray (current ++ [VString qId])) newExam)
  | VString current =>
      match String.index 0 qId current with
      | Some _ => None
      | None =>
          Some (RunnerView.set_field "question_ids"
                  (VArray (RunnerView.characters current ++ [VString qId]))
                  newExam)
      end
  | _ => None
  end.

Section Handlers.

Variable server : Request -> Reply.
Variable Date_getTime : value -> option Z.

Definition createExam (exam : Draft) : M ExamApi.MappedExam :=
  try_catch
    (headers <- getAuthHeaders;;
     e <- axios server POST "/api/exams/" (VObject (create_payload exam)) headers;;
     match ExamApi.map_exam e with
     | Some mapped => ret mapped
     | None => throw type_error
     end)
    (fun err =>
       throw (new_Error
                (ExamApi.error_detail "Failed to create exam on backend" err))).

Definition updateExam (exam : Draft) : M ExamApi.MappedExam :=
  try_catch
    (headers <- getAuthHeaders;;
     e <- axios server PUT ("/api/exams/" +:+ to_string (field exam "id"))
                (VObject (update_payload exam)) headers;;
     match ExamApi.map_exam e with
     | Some mapped => ret mapped
     | None => throw type_error
     end)
    (fun err =>
       throw (new_Error
                (ExamApi.error_detail "Failed to update exam on backend" err))).

Definition loadData (st : State) : M State :=
  r1 <- settle (ExamApi.fetchExams server VUndefined);;
  r2 <- settle (ExamApi.fetchAllQuestions server);;
  match r1, r2 with
  | Ok eData, Ok qData => ret (set_loaded eData qData st)
  | _, _ =>
      emit (EConsoleError "Failed to load exams/questions");;;
      ret (set_loaded [] [] st)
  end.

(** The call that saves the form: [updateExam] when an exam is being
    edited, [createExam] otherwise; it resolves with the text of the
    notification. *)
Definition save_form (st : State) : M string :=
  if truthy (editingId st) then
    updateExam (RunnerView.set_field "id" (editingId st) (newExam st));;;
    ret "Exam updated successfully"
  else
    createExam (newExam st);;;
    ret "Exam created successfully".

(** [handleCreateOrUpdate].  [new Date(v).getTime()] does not throw on the
    values of a draft, so the [catch] arm of the date check is not
    entered. *)
Definition handleCreateOrUpdate (st : State) : M State :=
  if missing_fields (newExam st) then
    emit (EAlert fill_fields);;;
    ret st
  else
    match Date_getTime (field (newExam st) "start_time"),
          Date_getTime (field (newExam st) "end_time") with
    | Some startTs, Some endTs =>
        if endTs <=? startTs then
          ret (addNotification "error"
                 (VString "Start time must be before end time") st)
        else
          let st1 := set_loading true st in
          saved <- settle (save_form st);;
          st2 <-
            match saved with
            | Ok text =>
                loadData
                  (set_form false VNull empty_draft
                     (addNotification "success" (VString text) st1))
            | Throw e =>
                emit (EConsoleError "Create/Update exam failed");;;
                ret (addNotification "error"
                       (or_else (prop e "message")
                                (VString "Failed to save exam")) st1)
            end;;
          (* finally *)
          ret (set_loading false st2)
    | _, _ =>
        ret (addNotification "error" (VString "Invalid start or end time") st)
    end.

(** [publishExam]; the exam id is whatever the mapped exam holds. *)
Definition publishExam (examId : value) (isPublished : bool)
  : M ExamApi.MappedExam :=
  try_catch
    (let url :=
       if isPublished
       then "/api/exams/" +:+ to_string examId +:+ "/publish"
       else "/api/exams/" +:+ to_string examId +:+ "/unpublish" in
     headers <- getAuthHeaders;;
     e <- axios server POST url (VObject []) headers;;
     match ExamApi.map_exam e with
     | Some mapped => ret mapped
     | None => throw type_error
     end)
    (fun err =>
       throw (new_Error
                (ExamApi.error_detail "Failed to toggle publish on backend" err))).

Definition deleteExam (examId : value) : M unit :=
  try_catch
    (headers <- getAuthHeaders;;
     axios server DELETE ("/api/exams/" +:+ to_string examId) VUndefined headers;;;
     ret tt)
    (fun err =>
       throw (new_Error
                (ExamApi.error_detail "Failed to delete exam on backend" err))).

Definition handlePublishToggle (exam : ExamApi.MappedExam) (st : State)
  : M State :=
  toggled <- settle (publishExam (ExamApi.e_id exam)
                       (negb (truthy (ExamApi.e_is_published exam))));;
  match toggled with
  | Ok _ =>
      loadData
        (addNotification "success"
           (VString (if truthy (ExamApi.e_is_published exam)
                     then "Exam unpublished" else "Exam published"))
           st)
  | Throw e =>
      emit (EConsoleError "Publish toggle failed");;;
      ret (addNotification "error"
             (or_else (prop e "message") (VString "Failed to toggle publish"))
             st)
  end.

Variable window_confirm : string -> bool.

Definition delete_prompt : string :=
  "Delete this exam? This action cannot be undone.".

(** The click handler of the Delete button of an exam. *)
Definition handleDelete (exam : ExamApi.MappedExam) (st : State) : M State :=
  confirmed <- ExamRunner.confirm window_confirm delete_prompt;;
  if negb confirmed then ret st
  else
    deleted <- settle (deleteExam (ExamApi.e_id exam));;
    match deleted with
    | Ok _ =>
        loadData (addNotification "error"
                    (VString "Exam deleted successfully") st)
    | Throw e =>
        emit (EConsoleError "Delete exam failed");;;
        ret (addNotification "error"
               (or_else (prop e "message") (VString "Failed to delete exam"))
               st)
    end.

End Handlers.

(** The request that saves the form held by [st]. *)
Definition save_request (st : State) (s : Store) : Request :=
  if truthy (editingId st) then
    mkRequest PUT ("/api/exams/" +:+ to_string (editingId st))
      (VObject (update_payload
                  (RunnerView.set_field "id" (editingId st) (newExam st))))
      (stored_token s)
  else
    mkRequest POST "/api/exams/" (VObject (create_payload (newExam st)))
      (stored_token s).

(** The requests of [handlePublishToggle] and of the Delete button. *)
Definition publish_request (exam : ExamApi.MappedExam) (s : Store) : Request :=
  mkRequest POST
    ("/api/exams/" +:+ to_string (ExamApi.e_id exam)
     +:+ (if truthy (ExamApi.e_is_published exam)
          then "/unpublish" else "/publish"))
    (VObject []) (stored_token s).

Definition delete_request (exam : ExamApi.MappedExam) (s : Store) : Request :=
  mkRequest DELETE ("/api/exams/" +:+ to_string (ExamApi.e_id exam)) VUndefined
    (stored_token s).

(** The form can be saved: no field is missing, both times can be read and
    the start is before the end. *)
Definition form_ok (Date_getTime : value -> option Z) (d : Draft) : Prop :=
  missing_fields d = false
  /\ exists startTs endTs,
       Date_getTime (field d "start_time") = Some startTs
       /\ Date_getTime (field d "end_time") = Some endTs
       /\ startTs < endTs.

End ExamManager.

(** The requests of [fetchExams], [fetchAllQuestions] and [uploadMedia]. *)
Definition exams_request (role : value) (s : Store) : Request :=
  mkRequest GET (ExamApi.exams_endpoint role) VUndefined (stored_token s).

Definition questions_request : Request :=
  mkRequest GET "/api/questionbank/list"
    (ExamApi.query_params (Some ExamApi.all_questions_query)) None.


(** ** Concrete pages, used to exercise the statements below *)

Module PagesDemo.

(** The two ends of the window of [Demo.exam]. *)
Definition date (s : string) : Date :=
  if String.eqb s "2020-01-01T00:00:00Z" then Some 1577836800000
  else if String.eqb s "2030-01-01T00:00:00Z" then Some 1893456000000
  else None.

(** The record of the submitted attempt of exam [e1] by student [u1]. *)
Definition submitted_record : value :=
  VObject [("examId", VString "e1"); ("studentId", VString "u1");
           ("status", VString "submitted"); ("remainingSeconds", VNumber 0)].

(** Another student of the same backend. *)
Definition other_student : value :=
  VObject [("id", VString "u2"); ("email", VString "sam@example.org");
           ("role", VString "student")].




(** A backend that signs in the administrator. *)
Definition auth_server (req : Request) : Reply :=
  Resolved (VObject [("user", VObject [("id", VString "a1");
                                       ("full_name", VString "Ada");
                                       ("role", VString "admin")]);
                     ("token", VString "t0k3n")]).

(** [new Date(v).getTime()] for the two ends of the window. *)
Definition getTime (v : value) : option Z :=
  match v with
  | VString s => date s
  | _ => None
  end.

(** The form filled in for a new exam of one question. *)
Definition draft : ExamManager.Draft :=
  [("title", VString "Midterm"); ("duration_minutes", VNumber 30);
   ("question_ids", VArray [VString "q1"]); ("is_published", VBool false);
   ("start_time", VString "2020-01-01T00:00:00Z");
   ("end_time", VString "2030-01-01T00:00:00Z")].

Definition manager : ExamManager.State :=
  ExamManager.set_form true VNull draft ExamManager.initial.

(** The administrator, as the provider holds it. *)
Definition admin : value :=
  VObject [("id", VString "a1"); ("full_name", VString "Ada");
           ("role", VString "admin")].

Definition exam_record : value :=
  VObject [("id", VString "e1"); ("title", VString "Midterm");
           ("duration_minutes", VNumber 30);
           ("question_ids", VArray [VString "q1"]);
           ("is_published", VBool true)].

Definition question_record : value :=
  VObject [("id", VString "q1"); ("title", VString "Pick the primes");
           ("type", VString "multi_choice")].

(** The attempt of exam [e1] by student [u1], as the backend reports it
    when it is started or resumed. *)
Definition attempt_record : value :=
  VObject [("exam_id", VString "e1"); ("student_id", VString "u1");
           ("status", VString "in_progress"); ("remaining_seconds", VNumber 42)].

(** A backend with one exam of one question, the attempt of it in progress
    and no result yet. *)
Definition exam_server (req : Request) : Reply :=
  if String.eqb (req_url req) "/api/questionbank/list" then
    Resolved (VObject [("items", VArray [question_record]);
                       ("total", VNumber 1)])
  else if String.eqb (req_url req) "/api/exams/" then
    Resolved (VArray [exam_record])
  else if String.eqb (req_url req) "/api/student/results" then
    Resolved (VArray [])
  else Resolved attempt_record.

End PagesDemo.

(** * Properties *)

(** ** JavaScript values *)

Lemma get_truthy v k : truthy v = true -> get v k = Some (prop v k).
Proof. destruct v; simpl; intros H; try discriminate; reflexivity. Qed.

Lemma prop_falsy v k : truthy v = false -> prop v k = VUndefined.
Proof. destruct v; simpl; intros H; try reflexivity; discriminate. Qed.

Lemma eq_string_true v s : eq_string v s = true <-> v = VString s.
Proof.
  destruct v; simpl; split; intros H; try discriminate.
  - apply String.eqb_eq in H. congruence.
  - inversion H; subst. apply String.eqb_refl.
Qed.

Lemma eq_string_false v s : eq_string v s = false <-> v <> VString s.
Proof.
  rewrite <- eq_string_true. destruct (eq_string v s); split; congruence.
Qed.

Lemma is_number_true v : is_number v = true <-> exists n, v = VNumber n.
Proof.
  destruct v; simpl; split; try discriminate; try (intros [? ?]; discriminate).
  - eauto.
  - reflexivity.
Qed.

Lemma date_le_not_gt (a b : Z) : date_le (Some a) (Some b) = negb (date_gt (Some a) (Some b)).
Proof. simpl. destruct (Z.leb_spec a b), (Z.ltb_spec b a); simpl; try reflexivity; lia. Qed.

(** ** Resume Resolver *)

Section ResumeResolverFacts.

Variable JSON_parse : string -> option value.
Variable StringToNumber : string -> option Z.
Variable Date_parse : string -> Date.

Lemma falsy_has_no_exam_id v : truthy v = false -> nullish (local_exam_id v) = true.
Proof.
  intros H. unfold local_exam_id. rewrite !(prop_falsy _ _ H). reflexivity.
Qed.

(** [isLocalSessionResumable] accepts exactly the entries described by
    [EntryAccepted]. *)
Lemma isLocalSessionResumable_spec v examId userId now end_ :
  isLocalSessionResumable StringToNumber v examId userId now end_ = true
  <-> EntryAccepted v examId userId now end_.
Proof.
  unfold isLocalSessionResumable. split.
  - destruct (truthy v) eqn:Ht; simpl; [|discriminate].
    destruct (nullish (local_exam_id v)) eqn:He; simpl; [discriminate|].
    destruct (nullish (local_student_id v)) eqn:Hs; simpl; [discriminate|].
    destruct (eq_string (local_status v) "submitted") eqn:Hst; [discriminate|].
    destruct (is_number (local_remaining v)) eqn:Hrn; simpl; [|discriminate].
    destruct (le_number StringToNumber (local_remaining v) 0) eqn:Hr; [discriminate|].
    destruct (truthy (local_start v) && is_number (local_start v)
              && gt_number StringToNumber (local_start v) 0) eqn:Hstart;
      simpl; [|discriminate].
    destruct (date_gt now end_) eqn:Hd; [discriminate|].
    destruct (String.eqb (to_string (local_exam_id v)) examId) eqn:Hx;
      simpl; [|discriminate].
    destruct (String.eqb (to_string (local_student_id v)) userId) eqn:Hu;
      simpl; [|discriminate].
    intros _. apply String.eqb_eq in Hx, Hu.
    apply eq_string_false in Hst.
    apply is_number_true in Hrn as [n Hn].
    apply andb_prop in Hstart as [Hstart Hgt].
    apply andb_prop in Hstart as [_ Hsn].
    apply is_number_true in Hsn as [t Hsn].
    split; try (split; assumption); try assumption.
    + exists n. split; [assumption|].
      rewrite Hn in Hr. unfold le_number in Hr; simpl in Hr.
      apply Z.leb_gt in Hr. exact Hr.
    + exists t. split; [assumption|].
      rewrite Hsn in Hgt. unfold gt_number in Hgt; simpl in Hgt.
      apply Z.ltb_lt in Hgt. exact Hgt.
  - intros [[He Hx] [Hs Hu] Hst [n [Hn Hpos]] [t [Hsn Htpos]] Hd].
    destruct (truthy v) eqn:Ht; simpl.
    2:{ rewrite (falsy_has_no_exam_id _ Ht) in He. discriminate. }
    rewrite He, Hs; simpl.
    apply eq_string_false in Hst. rewrite Hst.
    rewrite Hn, Hsn. unfold le_number, gt_number; simpl.
    assert ((n <=? 0) = false) as -> by (apply Z.leb_gt; lia).
    assert (negb (t =? 0) = true) as -> by (apply negb_true_iff, Z.eqb_neq; lia).
    assert ((0 <? t) = true) as -> by (apply Z.ltb_lt; lia).
    simpl. rewrite Hd, Hx, Hu, !String.eqb_refl. reflexivity.
Qed.

Abbreviation label_of rs ls userId clock :=
  (label_exam JSON_parse StringToNumber Date_parse
     (index_results userId rs) ls userId clock).

Abbreviation status_map rs ls userId clock exams :=
  (build_status_map JSON_parse StringToNumber Date_parse rs ls userId clock exams).

Lemma record_label_other rm ls userId clock m e k :
  exam_id e <> k ->
  record_label JSON_parse StringToNumber Date_parse rm ls userId clock m e !! k
  = m !! k.
Proof.
  intros Hne. unfold record_label.
  destruct (label_exam _ _ _ _ _ _ _ _); [|reflexivity].
  apply lookup_insert_ne. exact Hne.
Qed.

Lemma record_label_same rm ls userId clock m e :
  m !! exam_id e = None ->
  record_label JSON_parse StringToNumber Date_parse rm ls userId clock m e
    !! exam_id e
  = label_exam JSON_parse StringToNumber Date_parse rm ls userId clock e.
Proof.
  intros Hm. unfold record_label.
  destruct (label_exam _ _ _ _ _ _ _ _); [apply lookup_insert_eq | exact Hm].
Qed.

Lemma foldl_record_label_other rm ls userId clock exams : forall m k,
  k ∉ exam_id <$> exams ->
  foldl (record_label JSON_parse StringToNumber Date_parse rm ls userId clock)
        m exams !! k = m !! k.
Proof.
  induction exams as [|e exams IH]; intros m k Hk; simpl; [reflexivity|].
  rewrite fmap_cons in Hk. apply not_elem_of_cons in Hk as [Hne Hk].
  rewrite IH by exact Hk. apply record_label_other. congruence.
Qed.

Lemma foldl_record_label_lookup rm ls userId clock exams : forall m e,
  NoDup (exam_id <$> exams) -> e ∈ exams -> m !! exam_id e = None ->
  foldl (record_label JSON_parse StringToNumber Date_parse rm ls userId clock)
        m exams !! exam_id e
  = label_exam JSON_parse StringToNumber Date_parse rm ls userId clock e.
Proof.
  induction exams as [|x exams IH]; intros m e Hnd Hin Hm; simpl.
  - inversion Hin.
  - rewrite fmap_cons in Hnd. apply NoDup_cons in Hnd as [Hx Hnd].
    apply elem_of_cons in Hin as [->|Hin].
    + rewrite foldl_record_label_other by exact Hx.
      apply record_label_same, Hm.
    + apply IH; [exact Hnd | exact Hin |].
      rewrite record_label_other; [exact Hm|].
      intros Heq. apply Hx. rewrite Heq.
      apply list_elem_of_fmap. exists e. split; [reflexivity | exact Hin].
Qed.

(** With pairwise distinct exam ids, the status map holds for each exam the
    label computed in that exam's turn of the loop. *)
Lemma build_status_map_lookup rs ls userId clock exams e :
  NoDup (exam_id <$> exams) -> e ∈ exams ->
  status_map rs ls userId clock exams !! exam_id e = label_of rs ls userId clock e.
Proof.
  intros Hnd Hin. unfold build_status_map.
  apply foldl_record_label_lookup; [exact Hnd | exact Hin | apply lookup_empty].
Qed.

Lemma label_exam_no_server_record rm ls userId clock e :
  valid_server_record rm (exam_id e) userId = None ->
  label_exam JSON_parse StringToNumber Date_parse rm ls userId clock e
  = local_fallback JSON_parse StringToNumber ls (exam_id e) userId
      (Some clock) (Date_parse (exam_end_time e)).
Proof.
  unfold valid_server_record, label_exam. intros H.
  destruct (rm !! exam_id e) as [sess|]; simpl; [|reflexivity].
  destruct (truthy sess && isServerSessionValid sess (exam_id e) userId);
    [discriminate | reflexivity].
Qed.

Lemma local_fallback_resumable ls examId userId now end_ :
  local_fallback JSON_parse StringToNumber ls examId userId now end_
    = Some resumable
  <-> exists raw localSess,
        ls !! session_key examId userId = Some raw /\ raw <> "" /\
        JSON_parse raw = Some localSess /\
        EntryAccepted localSess examId userId now end_.
Proof.
  unfold local_fallback. split.
  - destruct (ls !! session_key examId userId) as [raw|]; [|discriminate].
    destruct (String.eqb raw "") eqn:Hraw; [discriminate|].
    destruct (JSON_parse raw) as [v|] eqn:Hp; [|discriminate].
    destruct (isLocalSessionResumable _ v _ _ _ _) eqn:Hv; [|discriminate].
    intros _. exists raw, v.
    split; [reflexivity|]. split; [apply String.eqb_neq; exact Hraw|].
    split; [exact Hp|]. apply isLocalSessionResumable_spec in Hv. exact Hv.
  - intros (raw & v & -> & Hraw & Hp & Hv).
    apply String.eqb_neq in Hraw. rewrite Hraw, Hp.
    apply isLocalSessionResumable_spec in Hv. rewrite Hv. reflexivity.
Qed.

Lemma local_fallback_label ls examId userId now end_ l :
  local_fallback JSON_parse StringToNumber ls examId userId now end_ = Some l ->
  l = resumable.
Proof.
  unfold local_fallback.
  destruct (ls !! _) as [raw|]; [|discriminate].
  destruct (String.eqb raw ""); [discriminate|].
  destruct (JSON_parse raw) as [v|]; [|discriminate].
  destruct (isLocalSessionResumable _ _ _ _ _ _); [|discriminate].
  congruence.
Qed.

(** C1.  For an exam on the dashboard that has no usable server record, the
    status map marks the exam resumable exactly when the cache holds, under
    the key of this exam and student, a non-empty text that parses to an
    entry with both ids stored and equal to the exam's and the student's, a
    status other than submitted, a positive number of remaining seconds, a
    positive start timestamp, and the clock is not past the exam's end.  In
    particular an entry with a missing or different id never makes the exam
    resumable. *)
Theorem local_entry_resumable_iff
    (studentResults : list value) (ls : Storage) (userId : string)
    (clock : Z) (exams : list Exam) (e : Exam) :
  NoDup (exam_id <$> exams) -> e ∈ exams ->
  valid_server_record (index_results userId studentResults) (exam_id e) userId
    = None ->
  (status_map studentResults ls userId clock exams !! exam_id e = Some resumable
   <-> exists raw localSess,
         ls !! session_key (exam_id e) userId = Some raw /\ raw <> "" /\
         JSON_parse raw = Some localSess /\
         EntryAccepted localSess (exam_id e) userId
           (Some clock) (Date_parse (exam_end_time e)))
  /\ (forall raw localSess,
        ls !! session_key (exam_id e) userId = Some raw ->
        JSON_parse raw = Some localSess ->
        nullish (local_exam_id localSess) = true
        \/ nullish (local_student_id localSess) = true
        \/ to_string (local_exam_id localSess) <> exam_id e
        \/ to_string (local_student_id localSess) <> userId ->
        status_map studentResults ls userId clock exams !! exam_id e
          <> Some resumable).
Proof.
  intros Hnd Hin Hserver.
  rewrite (build_status_map_lookup _ _ _ _ _ _ Hnd Hin).
  rewrite (label_exam_no_server_record _ _ _ _ _ Hserver).
  split; [apply local_fallback_resumable|].
  intros raw v Hraw Hp Hbad Hlab.
  apply local_fallback_resumable in Hlab as (raw' & v' & Hraw' & _ & Hp' & Hacc).
  assert (raw' = raw) as -> by congruence.
  assert (v' = v) as -> by congruence.
  destruct Hacc as [[He Hx] [Hs Hu] _ _ _ _].
  destruct Hbad as [H|[H|[H|H]]]; congruence.
Qed.

(** *** The server record *)

Lemma record_matches_dec r examId userId :
  {record_matches r examId userId} + {~ record_matches r examId userId}.
Proof.
  unfold record_matches, stored_id.
  destruct (nullish (record_exam_id r)); [right; intros [[? ?] _]; discriminate|].
  destruct (nullish (record_student_id r)); [right; intros [_ [? ?]]; discriminate|].
  destruct (decide (to_string (record_exam_id r) = examId)) as [?|Hn];
    [|right; intros [[_ ?] _]; contradiction].
  destruct (decide (to_string (record_student_id r) = userId)) as [?|Hn];
    [|right; intros [_ [_ ?]]; contradiction].
  left. auto.
Qed.

Lemma index_result_no_match userId m r k :
  ~ record_matches r k userId -> index_result userId m r !! k = m !! k.
Proof.
  intros Hno. unfold index_result.
  destruct (nullish (record_exam_id r)) eqn:He; simpl; [reflexivity|].
  destruct (nullish (record_student_id r)) eqn:Hs; simpl; [reflexivity|].
  destruct (String.eqb (to_string (record_student_id r)) userId) eqn:Hu;
    [|reflexivity].
  apply String.eqb_eq in Hu.
  apply lookup_insert_ne. intros Hk. apply Hno.
  repeat split; assumption.
Qed.

Lemma index_result_match userId m r k :
  record_matches r k userId -> index_result userId m r !! k = Some r.
Proof.
  intros [[He Hk] [Hs Hu]]. unfold index_result.
  rewrite He, Hs; simpl.
  apply String.eqb_eq in Hu. rewrite Hu, Hk.
  apply lookup_insert_eq.
Qed.

Lemma index_result_ext userId m1 m2 r k :
  m1 !! k = m2 !! k -> index_result userId m1 r !! k = index_result userId m2 r !! k.
Proof.
  intros Hm. destruct (record_matches_dec r k userId) as [Hy|Hn].
  - rewrite !index_result_match by exact Hy. reflexivity.
  - rewrite !index_result_no_match by exact Hn. exact Hm.
Qed.

Lemma foldl_index_ext userId rs k : forall m1 m2,
  m1 !! k = m2 !! k ->
  foldl (index_result userId) m1 rs !! k = foldl (index_result userId) m2 rs !! k.
Proof.
  induction rs as [|r rs IH]; intros m1 m2 Hm; simpl; [exact Hm|].
  apply IH, index_result_ext, Hm.
Qed.

Lemma foldl_index_no_match userId rs k : forall m,
  Forall (fun r => ~ record_matches r k userId) rs ->
  foldl (index_result userId) m rs !! k = m !! k.
Proof.
  induction rs as [|r rs IH]; intros m Hall; simpl; [reflexivity|].
  apply Forall_cons in Hall as [Hr Hall].
  rewrite IH by exact Hall. apply index_result_no_match, Hr.
Qed.

(** A record with a missing or different id pair is never the one consulted
    for the exam: dropping it leaves the lookup unchanged. *)
Lemma index_results_drop userId rs1 r rs2 k :
  ~ record_matches r k userId ->
  index_results userId (rs1 ++ r :: rs2) !! k
  = index_results userId (rs1 ++ rs2) !! k.
Proof.
  intros Hno. unfold index_results. rewrite !foldl_app. simpl.
  apply foldl_index_ext, index_result_no_match, Hno.
Qed.

(** The record of the pair, when no later record is for the same pair, is
    the one consulted. *)
Lemma index_results_last userId rs1 r rs2 k :
  record_matches r k userId ->
  Forall (fun x => ~ record_matches x k userId) rs2 ->
  index_results userId (rs1 ++ r :: rs2) !! k = Some r.
Proof.
  intros Hy Hall. unfold index_results. rewrite foldl_app. simpl.
  rewrite foldl_index_no_match by exact Hall.
  apply index_result_match, Hy.
Qed.

(** Whatever the index holds for an exam matches the exam and the
    student. *)
Lemma index_results_sound userId rs k sess :
  index_results userId rs !! k = Some sess -> record_matches sess k userId.
Proof.
  unfold index_results.
  assert (Hgen : forall m,
    (forall s, m !! k = Some s -> record_matches s k userId) ->
    foldl (index_result userId) m rs !! k = Some sess ->
    record_matches sess k userId).
  { induction rs as [|r rs IH]; intros m Hm; simpl; [apply Hm|].
    apply IH. intros s Hs.
    destruct (record_matches_dec r k userId) as [Hy|Hn].
    - rewrite index_result_match in Hs by exact Hy. congruence.
    - rewrite index_result_no_match in Hs by exact Hn. apply Hm, Hs. }
  apply Hgen. intros s Hs. rewrite lookup_empty in Hs. discriminate.
Qed.

Lemma label_exam_ext rm1 rm2 ls userId clock e :
  rm1 !! exam_id e = rm2 !! exam_id e ->
  label_exam JSON_parse StringToNumber Date_parse rm1 ls userId clock e
  = label_exam JSON_parse StringToNumber Date_parse rm2 ls userId clock e.
Proof. intros H. unfold label_exam. rewrite H. reflexivity. Qed.

Lemma record_matches_truthy r k userId : record_matches r k userId -> truthy r = true.
Proof.
  intros [[He _] _]. destruct (truthy r) eqn:Ht; [reflexivity|].
  unfold record_exam_id in He. rewrite !(prop_falsy _ _ Ht) in He. discriminate.
Qed.

Lemma record_matches_valid r k userId :
  record_matches r k userId -> isServerSessionValid r k userId = true.
Proof.
  intros Hm. pose proof (record_matches_truthy _ _ _ Hm) as Ht.
  destruct Hm as [[He Hk] [Hs Hu]].
  unfold isServerSessionValid. rewrite Ht; simpl.
  unfold record_exam_id in He, Hk. unfold record_student_id in Hs, Hu.
  rewrite He, Hs, Hk, Hu; simpl. rewrite !String.eqb_refl. reflexivity.
Qed.

(** The label computed from the consulted record. *)
Lemma label_exam_server_record rm ls userId clock e sess :
  rm !! exam_id e = Some sess -> record_matches sess (exam_id e) userId ->
  label_exam JSON_parse StringToNumber Date_parse rm ls userId clock e
  = if eq_string (prop sess "status") "submitted" then Some submitted_label
    else if gt_number StringToNumber (prop sess "remainingSeconds" ?? VNumber 0) 0
            && date_le (Some clock) (Date_parse (exam_end_time e))
         then Some resumable else None.
Proof.
  intros Hrm Hm. unfold label_exam. rewrite Hrm; simpl.
  rewrite (record_matches_truthy _ _ _ Hm), (record_matches_valid _ _ _ Hm); simpl.
  destruct Hm as [_ [_ Hu]]. unfold record_student_id in Hu.
  rewrite Hu, String.eqb_refl. reflexivity.
Qed.

Lemma gt_number_zero v : gt_number StringToNumber v 0 = true
  <-> exists n, to_number StringToNumber v = Some n /\ 0 < n.
Proof.
  unfold gt_number. destruct (to_number StringToNumber v) as [n|]; split.
  - intros H. apply Z.ltb_lt in H. eauto.
  - intros (m & Hm & Hpos). inversion Hm; subst. apply Z.ltb_lt. exact Hpos.
  - discriminate.
  - intros (m & Hm & _). discriminate.
Qed.

(** C2.  For a record [r] that the batched call returned: when its id pair
    is missing or differs from the exam and the student, the label of the
    exam is the one obtained without [r]; when the pair matches (and [r] is
    the record of that pair), the exam is labelled submitted if the status is
    submitted, otherwise resumable if the remaining seconds are positive and
    the clock is at most the exam's end, and otherwise gets no label. *)
Theorem server_record_label
    (rs1 : list value) (r : value) (rs2 : list value) (ls : Storage)
    (userId : string) (clock : Z) (exams : list Exam) (e : Exam) :
  NoDup (exam_id <$> exams) -> e ∈ exams ->
  let labelled rs := status_map rs ls userId clock exams !! exam_id e in
  let open := date_le (Some clock) (Date_parse (exam_end_time e)) in
  (~ record_matches r (exam_id e) userId ->
   labelled (rs1 ++ r :: rs2) = labelled (rs1 ++ rs2))
  /\ (record_matches r (exam_id e) userId ->
      Forall (fun x => ~ record_matches x (exam_id e) userId) rs2 ->
      (prop r "status" = VString "submitted" ->
       labelled (rs1 ++ r :: rs2) = Some submitted_label)
      /\ (prop r "status" <> VString "submitted" ->
          seconds_left StringToNumber r -> open = true ->
          labelled (rs1 ++ r :: rs2) = Some resumable)
      /\ (prop r "status" <> VString "submitted" ->
          ~ (seconds_left StringToNumber r /\ open = true) ->
          labelled (rs1 ++ r :: rs2) = None)).
Proof.
  intros Hnd Hin labelled open. subst labelled. cbv beta.
  rewrite !(build_status_map_lookup _ _ _ _ _ _ Hnd Hin).
  split.
  - intros Hno. apply label_exam_ext, index_results_drop, Hno.
  - intros Hm Hlast.
    pose proof (index_results_last userId rs1 r rs2 _ Hm Hlast) as Hidx.
    rewrite (label_exam_server_record _ _ _ _ _ _ Hidx Hm).
    fold open. split; [|split].
    + intros Hst. apply eq_string_true in Hst. rewrite Hst. reflexivity.
    + intros Hst Hsec Hopen. apply eq_string_false in Hst. rewrite Hst.
      apply gt_number_zero in Hsec. rewrite Hsec, Hopen. reflexivity.
    + intros Hst Hnot. apply eq_string_false in Hst. rewrite Hst.
      destruct (gt_number _ _ 0) eqn:Hgt; [|reflexivity].
      destruct open eqn:Hopen; [|reflexivity].
      exfalso. apply Hnot. split; [|reflexivity].
      apply gt_number_zero. exact Hgt.
Qed.

End ResumeResolverFacts.

Lemma local_entry_resumable_iff_witness :
  valid_server_record (index_results "u1" [Demo.foreign_record]) "e1" "u1" = None
  /\ build_status_map Demo.parse Demo.no_number Demo.date
       [Demo.foreign_record] Demo.storage "u1" Demo.clock [Demo.exam] !! "e1"
     = Some resumable.
Proof.
  assert (Hnd : NoDup (exam_id <$> [Demo.exam])) by (apply NoDup_singleton).
  assert (Hin : Demo.exam ∈ [Demo.exam]) by (apply list_elem_of_here).
  assert (Hsrv : valid_server_record (index_results "u1" [Demo.foreign_record])
                   (exam_id Demo.exam) "u1" = None) by (vm_compute; reflexivity).
  split; [exact Hsrv|].
  apply (proj2 (proj1 (local_entry_resumable_iff Demo.parse Demo.no_number
    Demo.date [Demo.foreign_record] Demo.storage "u1" Demo.clock [Demo.exam]
    Demo.exam Hnd Hin Hsrv))).
  exists Demo.raw, Demo.entry.
  split; [vm_compute; reflexivity|].
  split; [discriminate|].
  split; [reflexivity|].
  split.
  - split; reflexivity.
  - split; reflexivity.
  - discriminate.
  - exists 42. split; [reflexivity | lia].
  - exists 1700000000000. split; [reflexivity | lia].
  - reflexivity.
Defined.

Lemma server_record_label_witness :
  build_status_map Demo.parse Demo.no_number Demo.date
    ([Demo.foreign_record] ++ Demo.own_record :: []) Demo.storage "u1"
    Demo.clock [Demo.exam] !! "e1"
  = Some resumable.
Proof.
  assert (Hnd : NoDup (exam_id <$> [Demo.exam])) by (apply NoDup_singleton).
  assert (Hin : Demo.exam ∈ [Demo.exam]) by (apply list_elem_of_here).
  assert (Hm : record_matches Demo.own_record (exam_id Demo.exam) "u1")
    by (repeat split; reflexivity).
  apply (proj2 (server_record_label Demo.parse Demo.no_number Demo.date
    [Demo.foreign_record] Demo.own_record [] Demo.storage "u1" Demo.clock
    [Demo.exam] Demo.exam Hnd Hin) Hm (Forall_nil_2 _)).
  - discriminate.
  - exists 42. split; [reflexivity | lia].
  - reflexivity.
Defined.

(** ** Grading *)

Lemma includes_true given v : includes given v = true <-> v ∈ given.
Proof.
  unfold includes. rewrite existsb_exists. split.
  - intros (x & Hin & Heq). apply String.eqb_eq in Heq. subst.
    apply list_elem_of_In. exact Hin.
  - intros Hin. exists v. split; [apply list_elem_of_In, Hin | apply String.eqb_refl].
Qed.

(** What the multi-choice branch of [isCorrect] computes. *)
Lemma isCorrect_multi q given correct :
  q_type q = MULTI_CHOICE -> q_correct_answers q = AList correct ->
  isCorrect q (AList given) = true
  <-> length correct = length given /\ (forall v, v ∈ correct -> v ∈ given).
Proof.
  intros Hty Hc. unfold isCorrect. rewrite Hty, Hc.
  rewrite andb_true_iff, Nat.eqb_eq, forallb_forall.
  split; intros [Hlen Hall]; (split; [exact Hlen|]).
  - intros v Hv. apply includes_true, Hall, list_elem_of_In, Hv.
  - intros v Hv. apply includes_true, Hall, list_elem_of_In, Hv.
Qed.

(** The order of either list is irrelevant. *)
Lemma isCorrect_multi_permutation q q' given given' correct correct' :
  q_type q = MULTI_CHOICE -> q_correct_answers q = AList correct ->
  q_type q' = MULTI_CHOICE -> q_correct_answers q' = AList correct' ->
  given ≡ₚ given' -> correct ≡ₚ correct' ->
  isCorrect q (AList given) = isCorrect q' (AList given').
Proof.
  intros Hty Hc Hty' Hc' Hg Hco.
  apply eq_true_iff_eq.
  rewrite (isCorrect_multi q given correct Hty Hc).
  rewrite (isCorrect_multi q' given' correct' Hty' Hc').
  rewrite (Permutation_length Hg), (Permutation_length Hco).
  split; intros [Hlen Hall]; (split; [exact Hlen|]); intros v Hv.
  - rewrite <- Hg. apply Hall. rewrite Hco. exact Hv.
  - rewrite Hg. apply Hall. rewrite <- Hco. exact Hv.
Qed.

(** A submitted list that misses a correct element is marked incorrect,
    whatever else it holds. *)
Lemma isCorrect_multi_missing q given correct y :
  q_type q = MULTI_CHOICE -> q_correct_answers q = AList correct ->
  y ∈ correct -> y ∉ given -> isCorrect q (AList given) = false.
Proof.
  intros Hty Hc Hy Hny.
  destruct (isCorrect q (AList given)) eqn:H; [|reflexivity].
  apply (isCorrect_multi q given correct Hty Hc) in H as [_ Hall].
  exfalso. apply Hny, Hall, Hy.
Qed.

(** An answer marked correct has every correct element; when the correct
    list has no repeated entry it has no other element either. *)
Lemma isCorrect_multi_same_set q given correct :
  q_type q = MULTI_CHOICE -> q_correct_answers q = AList correct ->
  NoDup correct ->
  isCorrect q (AList given) = true -> same_set given correct.
Proof.
  intros Hty Hc Hco H.
  apply (isCorrect_multi q given correct Hty Hc) in H as [Hlen Hall].
  intros x. split; [|apply Hall].
  intros Hx. apply list_elem_of_In.
  apply (NoDup_length_incl (l := correct) (l' := given)).
  - apply NoDup_ListNoDup, Hco.
  - rewrite Hlen. apply Nat.le_refl.
  - intros v Hv. apply list_elem_of_In, Hall, list_elem_of_In, Hv.
  - apply list_elem_of_In, Hx.
Qed.

(** C3, as amended.  A multi-choice answer is marked correct exactly when
    the submitted list is as long as the correct-answer list and every
    correct element occurs in it; the order of either list is irrelevant.
    So a submitted list that lacks a correct element, every proper subset of
    the correct answers among them, is marked incorrect.  When the
    correct-answer list has no repeated entry, an answer marked correct has
    exactly the correct elements, and every proper superset of the correct
    answers is marked incorrect.  When neither list has a repeated entry,
    the answer is marked correct exactly when the two lists are equal as
    sets. *)
Theorem multi_choice_correct_iff (q : Question) (given correct : list string) :
  q_type q = MULTI_CHOICE -> q_correct_answers q = AList correct ->
  (isCorrect q (AList given) = true
   <-> length correct = length given /\ (forall v, v ∈ correct -> v ∈ given))
  /\ (forall q' given' correct',
        q_type q' = MULTI_CHOICE -> q_correct_answers q' = AList correct' ->
        given ≡ₚ given' -> correct ≡ₚ correct' ->
        isCorrect q (AList given) = isCorrect q' (AList given'))
  /\ (forall y, y ∈ correct -> y ∉ given -> isCorrect q (AList given) = false)
  /\ (proper_subset given correct -> isCorrect q (AList given) = false)
  /\ (NoDup correct ->
      (isCorrect q (AList given) = true -> same_set given correct)
      /\ (proper_subset correct given -> isCorrect q (AList given) = false))
  /\ (NoDup correct -> NoDup given ->
      (isCorrect q (AList given) = true <-> same_set given correct)).
Proof.
  intros Hty Hc.
  split; [exact (isCorrect_multi q given correct Hty Hc)|].
  split.
  { intros q' given' correct' Hty' Hc' Hg Hco.
    exact (isCorrect_multi_permutation q q' given given' correct correct'
             Hty Hc Hty' Hc' Hg Hco). }
  split.
  { intros y Hy Hny. exact (isCorrect_multi_missing q given correct y Hty Hc Hy Hny). }
  split.
  { intros [_ (y & Hy & Hny)].
    exact (isCorrect_multi_missing q given correct y Hty Hc Hy Hny). }
  split.
  - intros Hco. split.
    + exact (isCorrect_multi_same_set q given correct Hty Hc Hco).
    + intros [_ (y & Hy & Hny)].
      destruct (isCorrect q (AList given)) eqn:H; [|reflexivity].
      exfalso. apply Hny.
      apply (isCorrect_multi_same_set q given correct Hty Hc Hco H). exact Hy.
  - intros Hco Hg. split.
    + exact (isCorrect_multi_same_set q given correct Hty Hc Hco).
    + intros Hsame. apply (isCorrect_multi q given correct Hty Hc).
      split; [|intros v Hv; apply Hsame, Hv].
      apply Permutation_length, NoDup_Permutation; [exact Hco | exact Hg |].
      intros x. symmetry. apply Hsame.
Qed.

(** A submitted list that repeats an entry has the same elements as the
    correct list [["A"]], yet is marked incorrect: the comparison of lengths
    counts the repetition. *)
Lemma multi_choice_repeated_entry :
  ~ (isCorrect (GradingDemo.question ["A"]) (AList ["A"; "A"]) = true
     <-> same_set ["A"; "A"] ["A"]).
Proof.
  intros [_ H].
  assert (Hsame : same_set ["A"; "A"] ["A"]).
  { intros x. rewrite !elem_of_cons. tauto. }
  apply H in Hsame. vm_compute in Hsame. discriminate.
Qed.

(** Likewise a repeated entry in the correct list lets a proper superset
    pass. *)
Example multi_choice_repeated_correct :
  isCorrect (GradingDemo.question ["A"; "A"]) (AList ["A"; "B"]) = true
  /\ proper_subset ["A"; "A"] ["A"; "B"].
Proof.
  split; [reflexivity|]. split.
  - intros x. rewrite !elem_of_cons. tauto.
  - exists "B". split; [set_solver|].
    rewrite !elem_of_cons. intros [H|[H|H]]; try discriminate. inversion H.
Qed.

(** And a repeated entry in the correct list alone lets an answer with
    exactly the correct elements fail. *)
Example multi_choice_repeated_correct_fails :
  isCorrect (GradingDemo.question ["A"; "A"]) (AList ["A"]) = false
  /\ same_set ["A"] ["A"; "A"] /\ NoDup ["A"].
Proof.
  split; [reflexivity|]. split.
  - intros x. rewrite !elem_of_cons. tauto.
  - apply NoDup_singleton.
Qed.

Lemma multi_choice_correct_iff_witness :
  (isCorrect (GradingDemo.question ["A"; "C"]) (AList ["C"; "A"]) = true
   <-> same_set ["C"; "A"] ["A"; "C"])
  /\ isCorrect (GradingDemo.question ["A"; "C"]) (AList ["C"; "B"]) = false.
Proof.
  split.
  - apply (proj2 (proj2 (proj2 (proj2 (proj2
             (multi_choice_correct_iff (GradingDemo.question ["A"; "C"])
                ["C"; "A"] ["A"; "C"] eq_refl eq_refl)))))).
    + apply (bool_decide_unpack (NoDup ["A"; "C"])). vm_compute. exact I.
    + apply (bool_decide_unpack (NoDup ["C"; "A"])). vm_compute. exact I.
  - apply (proj1 (proj2 (proj2
             (multi_choice_correct_iff (GradingDemo.question ["A"; "C"])
                ["C"; "B"] ["A"; "C"] eq_refl eq_refl))) "A").
    + rewrite elem_of_cons. left. reflexivity.
    + rewrite !elem_of_cons. intros [H|[H|H]]; try discriminate. inversion H.
Defined.

(** ** The countdown *)

(** The two cases of the updater. *)
Lemma countdown_floor v : (v <= 0)%Q -> Countdown.countdown v = 0%Q.
Proof.
  intros H. unfold Countdown.countdown.
  apply Qle_bool_iff in H. rewrite H. reflexivity.
Qed.

Lemma countdown_decrement v : (0 < v)%Q -> Countdown.countdown v = (v - 1)%Q.
Proof.
  intros H. unfold Countdown.countdown.
  destruct (Qle_bool v 0) eqn:Hle; [|reflexivity].
  apply Qle_bool_iff in Hle. lra.
Qed.

Lemma countdown_cases v :
  ((v <= 0)%Q /\ Countdown.countdown v = 0%Q)
  \/ ((0 < v)%Q /\ Countdown.countdown v = (v - 1)%Q).
Proof.
  destruct (Qlt_le_dec 0 v) as [H|H].
  - right. split; [exact H | apply countdown_decrement, H].
  - left. split; [exact H | apply countdown_floor, H].
Qed.

(** The updater gives the same number for the same number. *)
Lemma countdown_compat a b :
  (a == b)%Q -> (Countdown.countdown a == Countdown.countdown b)%Q.
Proof.
  intros Hab.
  destruct (countdown_cases a) as [[Ha ->]|[Ha ->]];
    destruct (countdown_cases b) as [[Hb ->]|[Hb ->]]; lra.
Qed.

(** What a tick does to a number: it is not raised exactly when it is not
    negative, and the result is not negative exactly when the number is at
    or below 0, or at least 1. *)
Lemma countdown_not_raised v : (Countdown.countdown v <= v)%Q <-> (0 <= v)%Q.
Proof. destruct (countdown_cases v) as [[H ->]|[H ->]]; split; lra. Qed.

Lemma countdown_not_negative v :
  (0 <= Countdown.countdown v)%Q <-> (v <= 0)%Q \/ (1 <= v)%Q.
Proof.
  destruct (countdown_cases v) as [[H ->]|[H ->]]; split; intros H1;
    first [lra | destruct H1; lra].
Qed.

Lemma ticks_succ n : forall st,
  Countdown.ticks (S n) st = Countdown.tick (Countdown.ticks n st).
Proof.
  induction n as [|n IH]; intros st; [reflexivity|].
  change (Countdown.ticks (S (S n)) st)
    with (Countdown.ticks (S n) (Countdown.tick st)).
  rewrite IH. reflexivity.
Qed.

Lemma Counting_start st :
  Countdown.session_status st = Some in_progress ->
  Counting (Countdown.timer_effect st).
Proof.
  intros Hs. split; [exact Hs|]. left.
  unfold Countdown.timer_effect, Countdown.no_running_session. simpl.
  rewrite Hs. reflexivity.
Qed.

Lemma Counting_tick st : Counting st -> Counting (Countdown.tick st).
Proof.
  intros (Hs & Hti). unfold Countdown.tick.
  destruct (Countdown.timer_installed st) eqn:Hin.
  - destruct (Qle_bool (Countdown.timeLeft st) 0) eqn:Hle.
    + split; [exact Hs|]. right. simpl.
      apply Qle_bool_iff in Hle. rewrite (countdown_floor _ Hle). reflexivity.
    + split; [exact Hs|]. left. exact Hin.
  - split; [exact Hs|]. rewrite Hin. exact Hti.
Qed.

Lemma Counting_ticks n : forall st, Counting st -> Counting (Countdown.ticks n st).
Proof.
  induction n as [|n IH]; intros st H; [exact H|].
  simpl. apply IH, Counting_tick, H.
Qed.

(** While an attempt is in progress every tick applies the updater. *)
Lemma tick_timeLeft st :
  Counting st ->
  (Countdown.timeLeft (Countdown.tick st)
   == Countdown.countdown (Countdown.timeLeft st))%Q.
Proof.
  intros (_ & Hti). unfold Countdown.tick.
  destruct (Countdown.timer_installed st) eqn:Hin.
  - destruct (Qle_bool (Countdown.timeLeft st) 0); reflexivity.
  - destruct Hti as [Hti|Hti]; [discriminate|].
    rewrite (countdown_compat _ _ Hti). rewrite Hti. reflexivity.
Qed.

Lemma inject_Z_nonneg k : (0 <= inject_Z k)%Q <-> 0 <= k.
Proof. unfold Qle, inject_Z; simpl. lia. Qed.

Lemma inject_Z_ge_1 k : (1 <= inject_Z k)%Q <-> 1 <= k.
Proof. unfold Qle, inject_Z; simpl. lia. Qed.

Lemma inject_Z_pos k : (0 < inject_Z k)%Q <-> 0 < k.
Proof. unfold Qlt, inject_Z; simpl. lia. Qed.

Lemma whole_seconds_countdown v :
  whole_seconds v -> whole_seconds (Countdown.countdown v).
Proof.
  intros (k & Hk & Hv).
  destruct (countdown_cases v) as [[H ->]|[H ->]].
  - exists 0. split; [lia | reflexivity].
  - exists (k - 1). rewrite Hv in H. apply (proj1 (inject_Z_pos k)) in H. split; [lia|].
    rewrite Hv. unfold Z.sub. rewrite inject_Z_plus. reflexivity.
Qed.

Lemma whole_seconds_compat a b : (a == b)%Q -> whole_seconds a -> whole_seconds b.
Proof. intros Hab (k & Hk & Ha). exists k. split; [exact Hk|]. rewrite <- Hab. exact Ha. Qed.

Lemma whole_seconds_ticks n : forall st,
  Counting st -> whole_seconds (Countdown.timeLeft st) ->
  whole_seconds (Countdown.timeLeft (Countdown.ticks n st)).
Proof.
  induction n as [|n IH]; intros st Hc Hw; [exact Hw|].
  simpl. apply IH; [apply Counting_tick, Hc|].
  apply (whole_seconds_compat (Countdown.countdown (Countdown.timeLeft st))).
  - symmetry. apply tick_timeLeft, Hc.
  - apply whole_seconds_countdown, Hw.
Qed.

(** On whole seconds a tick never raises the countdown nor makes it
    negative: it takes one second off, or leaves 0 at 0. *)
Lemma countdown_whole_step v :
  whole_seconds v ->
  let next := Countdown.countdown v in
  (0 <= next <= v)%Q /\ ((next == v - 1)%Q \/ ((v == 0)%Q /\ (next == 0)%Q)).
Proof.
  intros (k & Hk & Hv). cbv zeta.
  destruct (countdown_cases v) as [[H ->]|[H ->]].
  - assert (H0 : (0 <= v)%Q) by (rewrite Hv; apply (proj2 (inject_Z_nonneg k)), Hk).
    split; [lra|]. right. split; [lra | reflexivity].
  - assert (H1 : (1 <= v)%Q).
    { rewrite Hv in H |- *. apply (proj1 (inject_Z_pos k)) in H. apply (proj2 (inject_Z_ge_1 k)). lia. }
    split; [lra|]. left. reflexivity.
Qed.

(** While the ticks so far fit under the loaded number, each took one
    second off. *)
Lemma ticks_decrement n : forall st,
  Counting st -> (inject_Z (Z.of_nat n) <= Countdown.timeLeft st)%Q ->
  (Countdown.timeLeft (Countdown.ticks n st)
   == Countdown.timeLeft st - inject_Z (Z.of_nat n))%Q.
Proof.
  induction n as [|n IH]; intros st Hc Hle.
  - simpl. change (inject_Z (Z.of_nat 0)) with 0%Q. lra.
  - rewrite Nat2Z.inj_succ in Hle |- *. unfold Z.succ in Hle |- *.
    rewrite inject_Z_plus in Hle |- *. change (inject_Z 1) with 1%Q in *.
    assert (Hn : (0 <= inject_Z (Z.of_nat n))%Q) by (apply (proj2 (inject_Z_nonneg _)); lia).
    simpl. 
    assert (Hstep : (Countdown.timeLeft (Countdown.tick st)
                     == Countdown.timeLeft st - 1)%Q).
    { rewrite (tick_timeLeft _ Hc). rewrite countdown_decrement by lra.
      reflexivity. }
    rewrite IH; [|apply Counting_tick, Hc|rewrite Hstep; lra].
    rewrite Hstep. lra.
Qed.

(** A countdown that no tick raises and no tick makes negative was loaded
    with a whole number of seconds that is not negative. *)
Lemma whole_seconds_forced st :
  Counting st ->
  (forall n,
     (0 <= Countdown.timeLeft (Countdown.ticks (S n) st)
        <= Countdown.timeLeft (Countdown.ticks n st))%Q) ->
  whole_seconds (Countdown.timeLeft st).
Proof.
  intros Hc Hall.
  set (v := Countdown.timeLeft st).
  assert (H0 : (0 <= v)%Q).
  { destruct (Hall O) as [_ Hle]. simpl in Hle.
    rewrite (tick_timeLeft _ Hc) in Hle. apply countdown_not_raised, Hle. }
  set (k := Qfloor v).
  assert (Hk : 0 <= k).
  { change 0 with (Qfloor 0). apply Qfloor_resp_le, H0. }
  pose proof (Qfloor_le v) as Hlo. pose proof (Qlt_floor v) as Hhi.
  fold k in Hlo, Hhi. rewrite inject_Z_plus in Hhi.
  change (inject_Z 1) with 1%Q in Hhi.
  exists k. split; [exact Hk|].
  assert (Hnat : Z.of_nat (Z.to_nat k) = k) by (apply Z2Nat.id, Hk).
  pose proof (ticks_decrement (Z.to_nat k) st Hc) as Hval.
  rewrite Hnat in Hval. specialize (Hval Hlo). fold v in Hval.
  destruct (Hall (Z.to_nat k)) as [Hpos _].
  rewrite ticks_succ in Hpos.
  rewrite (tick_timeLeft _ (Counting_ticks _ _ Hc)) in Hpos.
  rewrite (countdown_compat _ _ Hval) in Hpos.
  apply countdown_not_negative in Hpos. lra.
Qed.

(** *** Whole seconds *)

(** On whole seconds the updater of the runner is the updater on every
    number. *)
Lemma countdown_whole_seconds z :
  (Countdown.countdown (inject_Z z) == inject_Z (ExamRunner.countdown z))%Q.
Proof.
  unfold ExamRunner.countdown.
  destruct (Z.leb_spec z 0) as [Hle|Hgt].
  - rewrite countdown_floor; [reflexivity|].
    unfold Qle, inject_Z; simpl. lia.
  - rewrite countdown_decrement by (apply (proj2 (inject_Z_pos z)); lia).
    unfold Z.sub. rewrite inject_Z_plus. reflexivity.
Qed.

Lemma Qle_bool_whole_seconds z : Qle_bool (inject_Z z) 0 = (z <=? 0).
Proof. unfold Qle_bool, inject_Z; simpl. rewrite Z.mul_1_r. reflexivity. Qed.

(** The timer effect and the interval of the runner, which holds whole
    seconds, are those of this section. *)
Lemma timer_effect_whole_seconds st :
  Countdown.of_runner (ExamRunner.timer_effect st)
  = Countdown.timer_effect (Countdown.of_runner st).
Proof.
  unfold Countdown.of_runner, Countdown.timer_effect, ExamRunner.timer_effect,
    Countdown.no_running_session, ExamRunner.no_running_session,
    Countdown.set_timer; simpl.
  destruct (ExamRunner.session st) as [sess|]; [|reflexivity].
  simpl. destruct (status sess); reflexivity.
Qed.

Lemma tick_whole_seconds st :
  Countdown.same (Countdown.of_runner (ExamRunner.tick st))
                 (Countdown.tick (Countdown.of_runner st)).
Proof.
  unfold Countdown.tick, ExamRunner.tick, Countdown.of_runner; simpl.
  rewrite Qle_bool_whole_seconds.
  destruct (ExamRunner.timer_installed st) eqn:Hin.
  - destruct (ExamRunner.timeLeft st <=? 0); simpl;
      (split; [reflexivity|]; split; [|simpl; rewrite ?Hin; reflexivity]);
      symmetry; apply countdown_whole_seconds.
  - simpl. rewrite Hin. repeat split; reflexivity.
Qed.

Lemma tick_same a b :
  Countdown.same a b -> Countdown.same (Countdown.tick a) (Countdown.tick b).
Proof.
  destruct a as [sa ta ia], b as [sb tb ib]. intros (Hs & Ht & Hi).
  simpl in Hs, Ht, Hi. subst sb ib.
  assert (Hb : Qle_bool ta 0 = Qle_bool tb 0).
  { apply eq_true_iff_eq. rewrite !Qle_bool_iff, Ht. reflexivity. }
  unfold Countdown.tick. simpl. rewrite <- Hb.
  destruct ia; [destruct (Qle_bool ta 0)|];
    (split; [reflexivity|]; split; [|reflexivity]);
    simpl; first [exact Ht | apply countdown_compat, Ht].
Qed.

Lemma ticks_whole_seconds n : forall st,
  Countdown.same (Countdown.of_runner (ExamRunner.ticks n st))
                 (Countdown.ticks n (Countdown.of_runner st)).
Proof.
  induction n as [|n IH]; intros st.
  - repeat split; reflexivity.
  - simpl. destruct (IH (ExamRunner.tick st)) as (H1 & H2 & H3).
    assert (Hsame : forall m a b, Countdown.same a b ->
              Countdown.same (Countdown.ticks m a) (Countdown.ticks m b)).
    { clear. induction m as [|m IHm]; intros a b H; [exact H|].
      simpl. apply IHm, tick_same, H. }
    destruct (Hsame n _ _ (tick_whole_seconds st)) as (H4 & H5 & H6).
    split; [congruence|]. split; [rewrite H2; exact H5 | congruence].
Qed.

(** C4, as amended.  While the status of the session is [in_progress],
    whatever number the countdown was loaded with: the status stays as it
    is, and every tick applies the updater, which puts a number at or below
    0 to 0 and takes exactly 1 off a number above 0; so a tick raises the
    countdown exactly when it was negative, and leaves it negative exactly
    when it was above 0 and below 1.  When the countdown was loaded with a
    whole number of seconds that is not negative, it holds such a number
    after every tick, no tick raises it or makes it negative, and every tick
    takes exactly 1 off or leaves it at 0 when it is 0.  For no other loaded
    number is the countdown both never raised and never negative. *)
Theorem countdown_monotone (st : Countdown.State) :
  Countdown.session_status st = Some in_progress ->
  let value n :=
    Countdown.timeLeft (Countdown.ticks n (Countdown.timer_effect st)) in
  (forall n,
     Countdown.session_status (Countdown.ticks n (Countdown.timer_effect st))
     = Some in_progress)
  /\ (forall n, (value (S n) == Countdown.countdown (value n))%Q)
  /\ (forall v, (v <= 0)%Q -> Countdown.countdown v = 0%Q)
  /\ (forall v, (0 < v)%Q -> Countdown.countdown v = (v - 1)%Q)
  /\ (forall n, (value (S n) <= value n)%Q <-> (0 <= value n)%Q)
  /\ (forall n, (0 <= value (S n))%Q <-> (value n <= 0)%Q \/ (1 <= value n)%Q)
  /\ (whole_seconds (Countdown.timeLeft st) ->
      forall n,
        whole_seconds (value n)
        /\ (0 <= value (S n) <= value n)%Q
        /\ ((value (S n) == value n - 1)%Q
            \/ ((value n == 0)%Q /\ (value (S n) == 0)%Q)))
  /\ ((forall n, (0 <= value (S n) <= value n)%Q) ->
      whole_seconds (Countdown.timeLeft st)).
Proof.
  intros Hs value.
  pose proof (Counting_start st Hs) as Hc.
  assert (Hstep : forall n, (value (S n) == Countdown.countdown (value n))%Q).
  { intros n. unfold value. rewrite ticks_succ.
    apply tick_timeLeft, Counting_ticks, Hc. }
  split; [intros n; apply (Counting_ticks n _ Hc)|].
  split; [exact Hstep|].
  split; [exact countdown_floor|].
  split; [exact countdown_decrement|].
  split; [intros n; rewrite (Hstep n); apply countdown_not_raised|].
  split; [intros n; rewrite (Hstep n); apply countdown_not_negative|].
  split.
  - intros Hw n.
    assert (Hwn : whole_seconds (value n)).
    { apply whole_seconds_ticks; [exact Hc | exact Hw]. }
    split; [exact Hwn|].
    destruct (countdown_whole_step _ Hwn) as (Hb & Hd).
    rewrite (Hstep n). split; [exact Hb | exact Hd].
  - intros Hall. apply (whole_seconds_forced _ Hc Hall).
Qed.

(** A countdown loaded with -5 is raised to 0 by the first tick, and a
    countdown loaded with half a second is negative after it. *)
Lemma countdown_raised_or_negative :
  let late := Countdown.timer_effect (RunnerDemo.timer (-5)) in
  let half := Countdown.timer_effect (RunnerDemo.timer (1 # 2)) in
  Countdown.session_status late = Some in_progress
  /\ ~ (Countdown.timeLeft (Countdown.tick late) <= Countdown.timeLeft late)%Q
  /\ Countdown.session_status half = Some in_progress
  /\ ~ (0 <= Countdown.timeLeft (Countdown.tick half))%Q.
Proof.
  cbv zeta. split; [reflexivity|]. split; [|split; [reflexivity|]].
  - vm_compute. intros H. apply H. reflexivity.
  - vm_compute. intros H. apply H. reflexivity.
Qed.

(** Membership in an explicit list of events, case by case. *)
Ltac elem_of_concrete H :=
  repeat (apply elem_of_cons in H as [H|H]; [subst|]);
  try (apply elem_of_nil in H; contradiction).

(** ** The API layer *)

Section ApiFacts.

Variable JSON_stringify : value -> option string.
Variable server : Request -> Reply.

Lemma getAuthHeaders_run s : getAuthHeaders s = mkRun (Ok (stored_token s)) s [].
Proof. reflexivity. Qed.

Lemma session_key_not_token e u : session_key e u <> "authToken".
Proof. unfold session_key. simpl. discriminate. Qed.

Lemma stored_token_setItem s key text :
  key <> "authToken" ->
  stored_token (mkStore (<[key := text]> (items s)) (writable s)) = stored_token s.
Proof.
  intros Hne. unfold stored_token; simpl.
  rewrite lookup_insert_ne by exact Hne. reflexivity.
Qed.

(** A run of [saveExamProgress] whose payload can be printed. *)
Lemma saveExamProgress_run session s shown :
  JSON_stringify
    (VObject [("answers", VObject (answers session));
              ("remaining_seconds", VNumber (remainingSeconds session))])
    = Some shown ->
  let key := session_key (examId session) (studentId session) in
  let r := saveExamProgress JSON_stringify server session s in
  let written :=
    match JSON_stringify (session_object session), writable s with
    | Some text, true => [ESetItem key text]
    | _, _ => []
    end in
  result r = Ok tt
  /\ events r
     = written
       ++ [EConsoleLog "Saving exam progress payload";
           ERequest (autosave_request session s)]
       ++ match server (autosave_request session s) with
          | Resolved _ => []
          | Rejected _ => [EConsoleError "Failed to autosave session on backend"]
          end.
Proof.
  intros Hshown. cbv zeta.
  unfold saveExamProgress, try_catch, bind, stringify, localStorage_setItem,
    getAuthHeaders, localStorage_getItem, axios, emit, ret, throw,
    autosave_request, stored_token.
  rewrite Hshown.
  destruct (JSON_stringify (session_object session)) as [text|];
    [destruct (writable s) eqn:Hw|]; simpl;
    rewrite ?(lookup_insert_ne _ _ _ _ (session_key_not_token _ _));
    destruct (server _); simpl; split; reflexivity.
Qed.

(** The mirror copy: when the snapshot can be printed and the store accepts
    it, [saveExamProgress] leaves it under the session's key. *)
Lemma saveExamProgress_mirror session s text :
  JSON_stringify (session_object session) = Some text -> writable s = true ->
  items (store (saveExamProgress JSON_stringify server session s))
    !! session_key (examId session) (studentId session) = Some text.
Proof.
  intros Htext Hw.
  unfold saveExamProgress, try_catch, bind, stringify, localStorage_setItem,
    getAuthHeaders, localStorage_getItem, axios, emit, ret, throw.
  rewrite Htext, Hw.
  destruct (JSON_stringify
              (VObject [("answers", VObject (answers session));
                        ("remaining_seconds",
                         VNumber (remainingSeconds session))])) as [shown|];
    cbn -[lookup insert]; [destruct (server _); cbn -[lookup insert]|];
    apply lookup_insert_eq.
Qed.

(** A run of [saveExamProgress] whose payload cannot be printed: the
    request does not leave and the failure is logged. *)
Lemma saveExamProgress_unprintable session s :
  JSON_stringify
    (VObject [("answers", VObject (answers session));
              ("remaining_seconds", VNumber (remainingSeconds session))])
    = None ->
  let key := session_key (examId session) (studentId session) in
  let r := saveExamProgress JSON_stringify server session s in
  let written :=
    match JSON_stringify (session_object session), writable s with
    | Some text, true => [ESetItem key text]
    | _, _ => []
    end in
  result r = Ok tt
  /\ events r
     = written ++ [EConsoleError "Failed to autosave session on backend"].
Proof.
  intros Hshown. cbv zeta.
  unfold saveExamProgress, try_catch, bind, stringify, localStorage_setItem,
    getAuthHeaders, localStorage_getItem, axios, emit, ret, throw.
  rewrite Hshown.
  destruct (JSON_stringify (session_object session)) as [text|];
    [destruct (writable s) eqn:Hw|]; simpl; split; reflexivity.
Qed.

(** The store after [saveExamProgress]: the mirror copy is the only
    change. *)
Lemma saveExamProgress_store session s :
  store (saveExamProgress JSON_stringify server session s)
  = match JSON_stringify (session_object session), writable s with
    | Some text, true =>
        mkStore (<[session_key (examId session) (studentId session) := text]>
                   (items s)) (writable s)
    | _, _ => s
    end.
Proof.
  unfold saveExamProgress, try_catch, bind, stringify, localStorage_setItem,
    getAuthHeaders, localStorage_getItem, axios, emit, ret, throw.
  destruct (JSON_stringify (session_object session)) as [text|];
    [destruct (writable s) eqn:Hw|];
    (destruct (JSON_stringify
                (VObject [("answers", VObject (answers session));
                          ("remaining_seconds",
                           VNumber (remainingSeconds session))]))
       as [shown|]);
    simpl; try (destruct (server _)); reflexivity.
Qed.

(** C7.  [saveExamProgress] always returns normally and nothing of it
    reaches the user interface.  Its effects are, in this order: the write
    of the snapshot under the key of the session's exam and student, when
    the snapshot can be printed and the store accepts it, and nothing
    otherwise; then the log entry of the payload and the [PUT] request of
    the session; then, when the request is rejected, the log entry of the
    failure.  (A payload that cannot be printed is logged as a failure in
    place of the request.)  So the write precedes the request, the request
    always leaves once the payload is printed, and a rejected request is
    logged and nothing else.  The store differs from the one before by the
    written snapshot only. *)
Theorem autosave_never_rejects (session : StudentExamSession) (s : Store) :
  let key := session_key (examId session) (studentId session) in
  let payload :=
    VObject [("answers", VObject (answers session));
             ("remaining_seconds", VNumber (remainingSeconds session))] in
  let req := autosave_request session s in
  let failed := EConsoleError "Failed to autosave session on backend" in
  let r := saveExamProgress JSON_stringify server session s in
  let written :=
    match JSON_stringify (session_object session), writable s with
    | Some text, true => [ESetItem key text]
    | _, _ => []
    end in
  let sent :=
    match JSON_stringify payload with
    | Some _ =>
        [EConsoleLog "Saving exam progress payload"; ERequest req]
        ++ match server req with
           | Resolved _ => []
           | Rejected _ => [failed]
           end
    | None => [failed]
    end in
  result r = Ok tt
  /\ (forall e, e ∈ events r -> surfaced e = false)
  /\ events r = written ++ sent
  /\ store r
     = match JSON_stringify (session_object session), writable s with
       | Some text, true => mkStore (<[key := text]> (items s)) (writable s)
       | _, _ => s
       end
  /\ (forall text,
        JSON_stringify (session_object session) = Some text ->
        writable s = true ->
        items (store r) !! key = Some text
        /\ exists rest, events r = ESetItem key text :: rest
                        /\ (is_Some (JSON_stringify payload) ->
                            ERequest req ∈ rest))
  /\ (is_Some (JSON_stringify payload) -> ERequest req ∈ events r)
  /\ (forall err,
        is_Some (JSON_stringify payload) -> server req = Rejected err ->
        exists before, events r = before ++ [ERequest req; failed])
  /\ (forall req' err,
        ERequest req' ∈ events r -> server req' = Rejected err ->
        req' = req /\ failed ∈ events r).
Proof.
  cbv zeta.
  assert (Hev : events (saveExamProgress JSON_stringify server session s)
    = match JSON_stringify (session_object session), writable s with
      | Some text, true =>
          [ESetItem (session_key (examId session) (studentId session)) text]
      | _, _ => []
      end
      ++ match JSON_stringify
                 (VObject [("answers", VObject (answers session));
                           ("remaining_seconds",
                            VNumber (remainingSeconds session))]) with
         | Some _ =>
             [EConsoleLog "Saving exam progress payload";
              ERequest (autosave_request session s)]
             ++ match server (autosave_request session s) with
                | Resolved _ => []
                | Rejected _ =>
                    [EConsoleError "Failed to autosave session on backend"]
                end
         | None => [EConsoleError "Failed to autosave session on backend"]
         end
   /\ result (saveExamProgress JSON_stringify server session s) = Ok tt).
  { destruct (JSON_stringify
                (VObject [("answers", VObject (answers session));
                          ("remaining_seconds",
                           VNumber (remainingSeconds session))]))
      as [shown|] eqn:Hshown.
    - destruct (saveExamProgress_run session s shown Hshown) as (Hres & Hev).
      split; [exact Hev | exact Hres].
    - destruct (saveExamProgress_unprintable session s Hshown) as (Hres & Hev).
      split; [exact Hev | exact Hres]. }
  destruct Hev as (Hev & Hres).
  pose proof (saveExamProgress_store session s) as Hstore.
  split; [exact Hres|].
  split.
  { intros e. rewrite Hev.
    destruct (JSON_stringify (session_object session)) as [text|];
      [destruct (writable s)|];
      (destruct (JSON_stringify
                  (VObject [("answers", VObject (answers session));
                            ("remaining_seconds",
                             VNumber (remainingSeconds session))]))
         as [shown|]);
      try (destruct (server (autosave_request session s)));
      simpl; intros He; elem_of_concrete He; reflexivity. }
  split; [exact Hev|].
  split; [exact Hstore|].
  split.
  { intros text Htext Hw. rewrite Hstore, Hev, Htext, Hw. simpl.
    split; [apply lookup_insert_eq|].
    eexists. split; [reflexivity|].
    intros [shown Hshown]. rewrite Hshown. set_solver. }
  split.
  { intros [shown Hshown]. rewrite Hev, Hshown. set_solver. }
  split.
  { intros err [shown Hshown] Hrej. rewrite Hev, Hshown, Hrej.
    exists (match JSON_stringify (session_object session), writable s with
            | Some text, true =>
                [ESetItem (session_key (examId session) (studentId session))
                          text]
            | _, _ => []
            end ++ [EConsoleLog "Saving exam progress payload"]).
    rewrite <- !app_assoc. reflexivity. }
  intros req' err Hreq Hrej. rewrite Hev in Hreq |- *.
  destruct (JSON_stringify
              (VObject [("answers", VObject (answers session));
                        ("remaining_seconds",
                         VNumber (remainingSeconds session))]))
    as [shown|].
  - assert (Heq : req' = autosave_request session s).
    { destruct (JSON_stringify (session_object session)) as [text|];
        [destruct (writable s)|];
        destruct (server (autosave_request session s));
        simpl in Hreq; elem_of_concrete Hreq;
        first [discriminate | injection Hreq as ->; reflexivity]. }
    subst req'. rewrite Hrej. split; [reflexivity|].
    rewrite !elem_of_app, !elem_of_cons. auto 10.
  - exfalso.
    destruct (JSON_stringify (session_object session)) as [text|];
      [destruct (writable s)|];
      simpl in Hreq; elem_of_concrete Hreq; discriminate.
Qed.

End ApiFacts.

(** ** Submission *)

Section ExamRunnerFacts.

Variable server : Request -> Reply.
Variable Date_getTime : value -> option Z.
Variable Date_now : Z.
Variable window_confirm : string -> bool.
Variable props : ExamRunner.Props.

Abbreviation finish manual st :=
  (ExamRunner.handleFinishExam server Date_getTime Date_now window_confirm props
     manual st).

Abbreviation watcher st :=
  (ExamRunner.auto_submit_watcher server Date_getTime Date_now window_confirm
     props st).

(** A run of [handleFinishExam] that goes ahead: the session is loaded,
    nothing is being loaded, and a manual request is confirmed. *)
Lemma handleFinishExam_run manual st sess s :
  ExamRunner.session st = Some sess -> ExamRunner.loading st = false ->
  (manual = true -> window_confirm ExamRunner.submit_prompt = true) ->
  let snapshot := with_remaining sess (ExamRunner.timeLeft st) in
  let key := session_key (examId sess) (studentId sess) in
  let asked := if manual then [EConfirm ExamRunner.submit_prompt] else [] in
  let failure := [EConsoleError "Submission failed";
                  EAlert ExamRunner.submit_failed] in
  let r := finish manual st s in
  match server (submit_request snapshot s) with
  | Rejected err =>
      result r = Ok (ExamRunner.set_loading false (after_submit st))
      /\ store r = s
      /\ events r = asked ++ ERequest (submit_request snapshot s) :: failure
  | Resolved data =>
      store r = mkStore (delete key (items s)) (writable s)
      /\ if nullish data
         then result r = Ok (ExamRunner.set_loading false (after_submit st))
              /\ events r = asked ++ ERequest (submit_request snapshot s)
                                  :: ERemoveItem key :: failure
         else result r = Ok (after_submit st)
              /\ events r = asked ++ [ERequest (submit_request snapshot s);
                                      ERemoveItem key;
                                      ENavigate (ExamRunner.result_path props)]
  end.
Proof.
  intros Hs Hl Hc. cbv zeta.
  unfold ExamRunner.handleFinishExam. rewrite Hs, Hl.
  unfold ExamRunner.confirm, submitExam, try_catch, bind, axios, getAuthHeaders,
    localStorage_getItem, localStorage_removeItem, emit, ret, throw,
    submit_request, stored_token, after_submit.
  destruct manual; simpl; rewrite ?(Hc eq_refl); simpl;
    (destruct (server _) as [data|err]; simpl; [destruct data; simpl|]);
    repeat split; reflexivity.
Qed.

(** A manual request that is declined does nothing else. *)
Lemma handleFinishExam_declined st sess s :
  ExamRunner.session st = Some sess -> ExamRunner.loading st = false ->
  window_confirm ExamRunner.submit_prompt = false ->
  finish true st s = mkRun (Ok st) s [EConfirm ExamRunner.submit_prompt].
Proof.
  intros Hs Hl Hc. unfold ExamRunner.handleFinishExam. rewrite Hs, Hl.
  unfold ExamRunner.confirm, bind, ret. simpl. rewrite Hc. reflexivity.
Qed.

(** Only a manual request asks for confirmation. *)
Lemma confirm_only_when_manual manual st s e :
  e ∈ events (finish manual st s) -> is_confirm e = true -> manual = true.
Proof.
  destruct manual; [reflexivity|]. intros He Hc. exfalso.
  unfold ExamRunner.handleFinishExam in He.
  destruct (ExamRunner.session st) as [sess|]; [|simpl in He; elem_of_concrete He].
  destruct (ExamRunner.loading st); [simpl in He; elem_of_concrete He|].
  unfold ExamRunner.confirm, submitExam, try_catch, bind, axios, getAuthHeaders,
    localStorage_getItem, localStorage_removeItem, emit, ret, throw in He.
  simpl in He.
  destruct (server _) as [data|err]; simpl in He; [destruct data; simpl in He|];
    elem_of_concrete He; discriminate.
Qed.

Lemma auto_submit_due_true st sess :
  ExamRunner.timeLeft st = 0 -> ExamRunner.session st = Some sess ->
  status sess = in_progress -> ExamRunner.loading st = false ->
  0 < startTime sess -> ExamRunner.auto_submit_due st = true.
Proof.
  intros Ht Hs Hst Hl Hstart. unfold ExamRunner.auto_submit_due.
  rewrite Ht, Hs, Hst, Hl. simpl. apply Z.ltb_lt. exact Hstart.
Qed.

(** C5.  When the countdown is 0 while the loaded session is in progress,
    has a positive start timestamp and loading has finished, the watcher
    sends the submit request without asking for confirmation; and whenever
    [handleFinishExam] asks for confirmation it was called manually. *)
Theorem auto_submit_without_confirmation
    (st : ExamRunner.State) (sess : StudentExamSession) (s : Store) :
  ExamRunner.timeLeft st = 0 -> ExamRunner.session st = Some sess ->
  status sess = in_progress -> ExamRunner.loading st = false ->
  0 < startTime sess ->
  ERequest (submit_request (with_remaining sess 0) s) ∈ events (watcher st s)
  /\ (forall e, e ∈ events (watcher st s) -> is_confirm e = false)
  /\ (forall manual st' s' e,
        e ∈ events (finish manual st' s') -> is_confirm e = true ->
        manual = true).
Proof.
  intros Ht Hs Hst Hl Hstart.
  unfold ExamRunner.auto_submit_watcher.
  rewrite (auto_submit_due_true st sess Ht Hs Hst Hl Hstart).
  split; [|split].
  - pose proof (handleFinishExam_run false st sess s Hs Hl) as Hrun.
    cbv zeta in Hrun. rewrite Ht in Hrun.
    destruct (server (submit_request (with_remaining sess 0) s)) as [data|err].
    + destruct Hrun as [_ Hrun]; [discriminate|].
      destruct (nullish data); destruct Hrun as [_ ->]; simpl; set_solver.
    + destruct Hrun as (_ & _ & ->); [discriminate|]. simpl. set_solver.
  - intros e He. destruct (is_confirm e) eqn:Hc; [|reflexivity].
    pose proof (confirm_only_when_manual false st s e He Hc). discriminate.
  - intros manual st' s' e. apply confirm_only_when_manual.
Qed.

(** The two outcomes of a submission that goes ahead, the body of a
    resolved reply being a record (neither [null] nor [undefined]): if the
    submit call resolves, the cache entry of the session's exam and student
    is removed and the runner navigates to the result view, without an
    alert; if the submit call is rejected, the failure is alerted, the
    runner keeps the session as it was, in progress, and is no longer
    loading, so that a further attempt sends the request again, and the
    store is untouched. *)
Theorem submission_outcome
    (manual : bool) (st : ExamRunner.State) (sess : StudentExamSession)
    (s : Store) :
  ExamRunner.session st = Some sess -> status sess = in_progress ->
  ExamRunner.loading st = false ->
  (manual = true -> window_confirm ExamRunner.submit_prompt = true) ->
  let snapshot := with_remaining sess (ExamRunner.timeLeft st) in
  let key := session_key (examId sess) (studentId sess) in
  let r := finish manual st s in
  (forall data,
     server (submit_request snapshot s) = Resolved data -> nullish data = false ->
     items (store r) = delete key (items s)
     /\ items (store r) !! key = None
     /\ ENavigate (ExamRunner.result_path props) ∈ events r
     /\ (forall msg, EAlert msg ∉ events r))
  /\ (forall err,
        server (submit_request snapshot s) = Rejected err ->
        EAlert ExamRunner.submit_failed ∈ events r
        /\ (exists st', result r = Ok st'
                        /\ ExamRunner.session st' = Some sess
                        /\ ExamRunner.loading st' = false
                        /\ ERequest (submit_request snapshot s)
                             ∈ events (finish manual st' s))
        /\ store r = s
        /\ (forall path, ENavigate path ∉ events r)).
Proof.
  intros Hs Hst Hl Hc. cbv zeta.
  pose proof (handleFinishExam_run manual st sess s Hs Hl Hc) as Hrun.
  cbv zeta in Hrun. split.
  - intros data Hsrv Hdata. rewrite Hsrv, Hdata in Hrun.
    destruct Hrun as (Hstore & _ & Hev). rewrite Hstore, Hev. simpl.
    split; [reflexivity|]. split; [apply lookup_delete_eq|].
    split.
    + destruct manual; simpl; set_solver.
    + intros msg Hin. destruct manual; simpl in Hin;
        elem_of_concrete Hin; discriminate.
  - intros err Hsrv. rewrite Hsrv in Hrun.
    destruct Hrun as (Hres & Hstore & Hev). rewrite Hev.
    split; [destruct manual; simpl; set_solver|].
    split.
    { eexists. split; [exact Hres|]. split; [exact Hs|]. split; [reflexivity|].
      pose proof (handleFinishExam_run manual
                    (ExamRunner.set_loading false (after_submit st)) sess s
                    Hs eq_refl Hc) as Hagain.
      cbv zeta in Hagain.
      change (ExamRunner.timeLeft
                (ExamRunner.set_loading false (after_submit st)))
        with (ExamRunner.timeLeft st) in Hagain.
      rewrite Hsrv in Hagain. destruct Hagain as (_ & _ & ->).
      destruct manual; simpl; set_solver. }
    split; [exact Hstore|].
    intros path Hin. destruct manual; simpl in Hin;
      elem_of_concrete Hin; discriminate.
Qed.

(** When the submit call resolves with an empty body ([null] or
    [undefined]), the cache entry is removed all the same, yet reading the
    body throws: the runner reports a failure, does not navigate, and keeps
    the session for a further attempt. *)
Lemma handleFinishExam_null_body manual st sess s data :
  ExamRunner.session st = Some sess -> ExamRunner.loading st = false ->
  (manual = true -> window_confirm ExamRunner.submit_prompt = true) ->
  server (submit_request (with_remaining sess (ExamRunner.timeLeft st)) s)
    = Resolved data ->
  nullish data = true ->
  let key := session_key (examId sess) (studentId sess) in
  let r := finish manual st s in
  items (store r) = delete key (items s)
  /\ ERemoveItem key ∈ events r
  /\ EAlert ExamRunner.submit_failed ∈ events r
  /\ (forall path, ENavigate path ∉ events r)
  /\ exists st', result r = Ok st'
                 /\ ExamRunner.session st' = Some sess
                 /\ ExamRunner.loading st' = false.
Proof.
  intros Hs Hl Hc Hsrv Hnull. cbv zeta.
  pose proof (handleFinishExam_run manual st sess s Hs Hl Hc) as Hrun.
  cbv zeta in Hrun. rewrite Hsrv, Hnull in Hrun.
  destruct Hrun as (Hstore & Hres & Hev).
  rewrite Hstore, Hev, Hres.
  split; [reflexivity|].
  split; [destruct manual; simpl; rewrite !elem_of_cons; auto 10|].
  split; [destruct manual; simpl; rewrite !elem_of_cons; auto 10|].
  split.
  - intros path Hin. destruct manual; simpl in Hin;
      elem_of_concrete Hin; discriminate.
  - eexists. split; [reflexivity|]. split; [exact Hs | reflexivity].
Qed.

End ExamRunnerFacts.

(** C6.  The attempt of [RunnerDemo] is submitted and the backend answers
    the submit call with the body [null].  The cache entry of the exam and
    the student, present before, is removed, as after a submission that
    succeeded; yet the student is told that the submission failed and is
    not taken to the result view, and the runner keeps the session, in
    progress, for a further attempt.  The outcome is neither of the two that
    the specification allows: the entry removed and the result view, or an
    error and the entry kept. *)
Theorem submission_null_body :
  let key := session_key (examId RunnerDemo.session)
               (studentId RunnerDemo.session) in
  let asked :=
    submit_request
      (with_remaining RunnerDemo.session
         (ExamRunner.timeLeft RunnerDemo.state)) RunnerDemo.store in
  let r := ExamRunner.handleFinishExam RunnerDemo.server_null
             RunnerDemo.getTime RunnerDemo.now RunnerDemo.confirm_yes
             RunnerDemo.props true RunnerDemo.state RunnerDemo.store in
  RunnerDemo.server_null asked = Resolved VNull
  /\ is_Some (items RunnerDemo.store !! key)
  /\ items (store r) !! key = None
  /\ events r
     = [EConfirm ExamRunner.submit_prompt; ERequest asked; ERemoveItem key;
        EConsoleError "Submission failed";
        EAlert "Failed to submit exam. Please try again."]
  /\ (forall path, ENavigate path ∉ events r)
  /\ exists st', result r = Ok st'
                 /\ ExamRunner.session st' = Some RunnerDemo.session
                 /\ status RunnerDemo.session = in_progress
                 /\ ExamRunner.loading st' = false.
Proof.
  cbv zeta.
  pose proof (handleFinishExam_null_body RunnerDemo.server_null
                RunnerDemo.getTime RunnerDemo.now RunnerDemo.confirm_yes
                RunnerDemo.props true RunnerDemo.state RunnerDemo.session
                RunnerDemo.store VNull eq_refl eq_refl (fun _ => eq_refl)
                eq_refl eq_refl)
    as (Hstore & _ & _ & Hnav & st' & Hres & Hsess & Hload).
  cbv zeta in Hstore, Hnav, Hres.
  split; [reflexivity|].
  split; [eexists; apply lookup_singleton_eq|].
  split; [rewrite Hstore; apply lookup_delete_eq|].
  split; [reflexivity|].
  split; [exact Hnav|].
  exists st'. split; [exact Hres|]. split; [exact Hsess|].
  split; [reflexivity | exact Hload].
Qed.

(** ** Manual grading *)

Section ResultDetailsFacts.

Variable server : Request -> Reply.
Variable Date_getTime : value -> option Z.
Variable Date_now : Z.
Variable StringToNumber : string -> option Z.
Variable props : ResultDetails.Props.

Abbreviation grade q text st :=
  (ResultDetails.submit_grade server Date_getTime Date_now StringToNumber props
     q text st).

Lemma param_present p e : p = Some e -> e <> "" -> param_missing p = false.
Proof. intros -> He. simpl. apply String.eqb_neq, He. Qed.

(** A run of [updateSessionScore]: one request, the store untouched. *)
Lemma updateSessionScore_run e sid qId ns s :
  let r := updateSessionScore server Date_getTime Date_now e sid qId ns s in
  store r = s /\ events r = [ERequest (grade_request e sid qId ns s)].
Proof.
  cbv zeta. unfold updateSessionScore, try_catch, bind, axios, getAuthHeaders,
    localStorage_getItem, ret, throw, grade_request, stored_token. simpl.
  destruct (server _) as [data|err]; simpl.
  - destruct data; simpl; split; reflexivity.
  - destruct (truthy _); simpl; split; reflexivity.
Qed.

(** The range check of [handleGrade], for a grade input that reads as the
    number [ns]. *)
Lemma handleGrade_range
    (q : Question) (text : string) (ns : Z) (e sid : string)
    (st : ResultDetails.State) (s : Store) :
  ResultDetails.examId props = Some e -> e <> "" ->
  ResultDetails.studentId props = Some sid -> sid <> "" ->
  text <> "" -> StringToNumber text = Some ns ->
  let r := grade q text st s in
  (ns < 0 \/ q_max_score q < ns ->
   r = mkRun (Ok st) s
         [EAlert ("Grade must be between 0 and " +:+ pretty (q_max_score q))])
  /\ (0 <= ns <= q_max_score q ->
      store r = s
      /\ exists rest,
           events r = ERequest (grade_request e sid (q_id q) ns s) :: rest
           /\ forall msg, EAlert msg ∈ rest -> msg = "Failed to update score").
Proof.
  intros He Hne Hs Hns Htext Hnum. cbv zeta.
  unfold ResultDetails.submit_grade.
  apply String.eqb_neq in Htext. rewrite Htext.
  unfold ResultDetails.handleGrade.
  rewrite (param_present _ _ He Hne), (param_present _ _ Hs Hns), Hnum. simpl.
  split.
  - intros Hout.
    assert (Hb : (ns <? 0) || (q_max_score q <? ns) = true).
    { apply orb_true_iff. destruct Hout; [left|right]; apply Z.ltb_lt; assumption. }
    rewrite Hb. reflexivity.
  - intros [Hlo Hhi].
    assert (Hb : (ns <? 0) || (q_max_score q <? ns) = false).
    { apply orb_false_iff. split; apply Z.ltb_ge; assumption. }
    rewrite Hb. rewrite He, Hs. simpl.
    unfold updateSessionScore, try_catch, bind, axios, getAuthHeaders,
      localStorage_getItem, emit, ret, throw, grade_request, stored_token. simpl.
    destruct (server _) as [data|err]; simpl.
    + destruct data; simpl; (split; [reflexivity|]); eexists;
        (split; [reflexivity|]); intros msg Hin; elem_of_concrete Hin;
        congruence.
    + destruct (truthy _); simpl; (split; [reflexivity|]); eexists;
        (split; [reflexivity|]); intros msg Hin; elem_of_concrete Hin;
        congruence.
Qed.

(** C8.  On the result page of an exam and a student, for a grade input
    that reads as the number [ns]: if [ns] is below 0 or above the
    question's maximum (as -1 and the maximum plus 1 are), the only effect is
    the message that the grade must be between 0 and the maximum, and no
    request leaves; if [ns] lies between 0 and the maximum, both included (as
    0 and the maximum itself do, the maximum of a question not being
    negative), the first effect is the grade request carrying [ns], and no
    validation message is shown. *)
Theorem grade_bounds
    (q : Question) (text : string) (ns : Z) (e sid : string)
    (st : ResultDetails.State) (s : Store) :
  ResultDetails.examId props = Some e -> e <> "" ->
  ResultDetails.studentId props = Some sid -> sid <> "" ->
  text <> "" -> StringToNumber text = Some ns ->
  let r := grade q text st s in
  let rejected :=
    r = mkRun (Ok st) s
          [EAlert ("Grade must be between 0 and " +:+ pretty (q_max_score q))] in
  let sent :=
    store r = s
    /\ exists rest,
         events r = ERequest (grade_request e sid (q_id q) ns s) :: rest
         /\ forall msg, EAlert msg ∈ rest -> msg = "Failed to update score" in
  (ns < 0 \/ q_max_score q < ns -> rejected)
  /\ (0 <= ns <= q_max_score q -> sent)
  /\ (0 <= q_max_score q ->
      (ns = -1 \/ ns = q_max_score q + 1 -> rejected)
      /\ (ns = 0 \/ ns = q_max_score q -> sent)).
Proof.
  intros He Hne Hs Hns Htext Hnum r rejected sent.
  destruct (handleGrade_range q text ns e sid st s He Hne Hs Hns Htext Hnum)
    as [Hout Hin].
  split; [exact Hout|]. split; [exact Hin|].
  intros Hmax. split.
  - intros Hb. apply Hout. lia.
  - intros Hb. apply Hin. lia.
Qed.

(** A grade that does not read as a number is refused with its own
    message. *)
Lemma grade_not_a_number q text e sid st s :
  ResultDetails.examId props = Some e -> e <> "" ->
  ResultDetails.studentId props = Some sid -> sid <> "" ->
  text <> "" -> StringToNumber text = None ->
  grade q text st s = mkRun (Ok st) s [EAlert "Grade must be a number"].
Proof.
  intros He Hne Hs Hns Htext Hnum.
  unfold ResultDetails.submit_grade.
  apply String.eqb_neq in Htext. rewrite Htext.
  unfold ResultDetails.handleGrade.
  rewrite (param_present _ _ He Hne), (param_present _ _ Hs Hns), Hnum.
  reflexivity.
Qed.

End ResultDetailsFacts.

(** ** The current user *)

Section CurrentUserFacts.

Variable JSON_parse : string -> option value.
Variable atob : string -> option string.
Variable server : Request -> Reply.

(** C10.  When the call to [/users/me] is rejected, [getCurrentUser]
    resolves with a user built from the decoded token exactly when the
    decoded token is truthy, and with [null] otherwise; the role of that user
    is ["admin"] or ["student"], and it is ["admin"] exactly when the role
    field of the decoded token is the string ["admin"]. *)
Theorem fallback_role (token : string) (err : value) (s : Store) :
  token <> "" ->
  server (mkRequest GET "/users/me" VUndefined (Some token)) = Rejected err ->
  let decoded := decodeTokenLocal JSON_parse atob token in
  match result (getCurrentUser JSON_parse atob server token s) with
  | Ok (FromToken user) =>
      truthy decoded = true
      /\ (user_role user = "admin" \/ user_role user = "student")
      /\ (user_role user = "admin" <-> prop decoded "role" = VString "admin")
      /\ (prop decoded "role" <> VString "admin" -> user_role user = "student")
  | Ok NoUser => truthy decoded = false
  | Ok (FromBackend _) => False
  | Throw _ => False
  end.
Proof.
  intros Htok Hsrv. cbv zeta.
  unfold getCurrentUser. apply String.eqb_neq in Htok. rewrite Htok.
  unfold try_catch, bind, axios, emit, ret. rewrite Hsrv. simpl.
  destruct (truthy (decodeTokenLocal JSON_parse atob token)) eqn:Ht; simpl;
    [|reflexivity].
  split; [reflexivity|].
  destruct (eq_string (prop (decodeTokenLocal JSON_parse atob token) "role")
              "admin") eqn:Hrole.
  - apply eq_string_true in Hrole.
    split; [left; reflexivity|]. split; [tauto|]. intros H; contradiction.
  - apply eq_string_false in Hrole.
    split; [right; reflexivity|]. split; [|intros _; reflexivity].
    split; [discriminate | intros H; contradiction].
Qed.

End CurrentUserFacts.

(** ** Autosave and resume *)

Section RoundTrip.

Variable JSON_stringify : value -> option string.
Variable JSON_parse : string -> option value.
Variable StringToNumber : string -> option Z.
Variable server : Request -> Reply.

(** The five fields that the resolver reads survive printing and parsing. *)
Lemma snapshot_fields session :
  let parsed := json_image (session_object session) in
  prop parsed "examId" = VString (examId session)
  /\ prop parsed "studentId" = VString (studentId session)
  /\ prop parsed "status" = VString (status_string (status session))
  /\ prop parsed "remainingSeconds" = VNumber (remainingSeconds session)
  /\ prop parsed "startTime" = VNumber (startTime session).
Proof. cbv zeta. repeat split; reflexivity. Qed.

Lemma status_string_submitted st :
  VString (status_string st) <> VString "submitted" <-> st <> submitted.
Proof. destruct st; simpl; split; intros H; congruence. Qed.

(** The resolver's verdict on the parsed snapshot is the one its own fields
    give. *)
Lemma snapshot_accepted session examId' userId now end_ :
  EntryAccepted (json_image (session_object session)) examId' userId now end_
  <-> examId session = examId' /\ studentId session = userId
      /\ session_resumable session now end_.
Proof.
  destruct (snapshot_fields session) as (He & Hs & Hst & Hr & Ht).
  cbv zeta in *. unfold session_resumable. split.
  - intros [[_ Hx] [_ Hu] Hstatus [n [Hn Hpos]] [t [Htm Htpos]] Hd].
    unfold local_exam_id in Hx. unfold local_student_id in Hu.
    unfold local_status in Hstatus. unfold local_remaining in Hn.
    unfold local_start in Htm.
    rewrite He in Hx. rewrite Hs in Hu. rewrite Hst in Hstatus.
    rewrite Hr in Hn. rewrite Ht in Htm. simpl in *.
    apply status_string_submitted in Hstatus.
    inversion Hn; inversion Htm; subst. tauto.
  - intros (Hx & Hu & Hstatus & Hpos & Htpos & Hd).
    split.
    + unfold local_exam_id. rewrite He. split; [reflexivity | exact Hx].
    + unfold local_student_id. rewrite Hs. split; [reflexivity | exact Hu].
    + unfold local_status. rewrite Hst. apply status_string_submitted, Hstatus.
    + unfold local_remaining. rewrite Hr. eauto.
    + unfold local_start. rewrite Ht. eauto.
    + exact Hd.
Qed.

(** C9.  Let the snapshot of a session print to a non-empty text that
    parses back to its JSON image, and let the store accept writes.  After
    [saveExamProgress], the store holds that text under the key that the
    resolver reads for the exam and the student of the session; the parsed
    entry has the [examId], [studentId], [status], [remainingSeconds] and
    [startTime] of the session; and the resolver's local fallback offers
    resumption exactly when the session's own fields allow it. *)
Theorem autosave_resume_round_trip
    (session : StudentExamSession) (s : Store) (text : string)
    (e : Exam) (userId : string) (now end_ : Date) :
  JSON_stringify (session_object session) = Some text ->
  text <> "" ->
  JSON_parse text = Some (json_image (session_object session)) ->
  writable s = true ->
  exam_id e = examId session -> userId = studentId session ->
  let saved := items (store (saveExamProgress JSON_stringify server session s)) in
  saved !! session_key (exam_id e) userId = Some text
  /\ (exists localSess,
        JSON_parse text = Some localSess
        /\ prop localSess "examId" = VString (examId session)
        /\ prop localSess "studentId" = VString (studentId session)
        /\ prop localSess "status" = VString (status_string (status session))
        /\ prop localSess "remainingSeconds" = VNumber (remainingSeconds session)
        /\ prop localSess "startTime" = VNumber (startTime session))
  /\ (local_fallback JSON_parse StringToNumber saved (exam_id e) userId now end_
        = Some resumable
      <-> session_resumable session now end_).
Proof.
  intros Hprint Hne Hparse Hw He Hu. cbv zeta.
  pose proof (saveExamProgress_mirror JSON_stringify server session s text
                Hprint Hw) as Hsaved.
  rewrite He, Hu. split; [exact Hsaved|]. split.
  - exists (json_image (session_object session)).
    split; [exact Hparse | apply snapshot_fields].
  - rewrite local_fallback_resumable. split.
    + intros (raw & v & Hraw & _ & Hp & Hacc).
      rewrite Hsaved in Hraw. inversion Hraw; subst raw.
      rewrite Hparse in Hp. inversion Hp; subst v.
      apply snapshot_accepted in Hacc. tauto.
    + intros Hres. exists text, (json_image (session_object session)).
      split; [exact Hsaved|]. split; [exact Hne|]. split; [exact Hparse|].
      apply snapshot_accepted. tauto.
Qed.

(** Two different pairs can share a key; the entry of one is then read for
    the other, and refused, because its ids are compared. *)
Lemma session_key_collision :
  session_key "a_b" "c" = session_key "a" "b_c".
Proof. reflexivity. Qed.

End RoundTrip.

(** * The statements at a concrete attempt *)

Lemma countdown_monotone_witness :
  let value n :=
    Countdown.timeLeft
      (Countdown.ticks n (Countdown.timer_effect (RunnerDemo.timer 42))) in
  (0 <= value 4%nat <= value 3%nat)%Q
  /\ ((value 4%nat == value 3%nat - 1)%Q
      \/ ((value 3%nat == 0)%Q /\ (value 4%nat == 0)%Q)).
Proof.
  assert (Hw : whole_seconds (Countdown.timeLeft (RunnerDemo.timer 42))).
  { exists 42. split; [lia | reflexivity]. }
  exact (proj2 (proj1 (proj2 (proj2 (proj2 (proj2 (proj2 (proj2
           (countdown_monotone (RunnerDemo.timer 42) eq_refl)))))))
           Hw 3%nat)).
Defined.

(** Resumed with 42 seconds left: after 42 ticks the watcher submits
    without asking. *)
Lemma auto_submit_without_confirmation_witness :
  let st := ExamRunner.ticks 42 (ExamRunner.timer_effect RunnerDemo.state) in
  let r := ExamRunner.auto_submit_watcher RunnerDemo.server_up
             RunnerDemo.getTime RunnerDemo.now RunnerDemo.confirm_yes
             RunnerDemo.props st RunnerDemo.store in
  ERequest (submit_request (with_remaining RunnerDemo.session 0) RunnerDemo.store)
    ∈ events r
  /\ (forall e, e ∈ events r -> is_confirm e = false).
Proof.
  cbv zeta.
  pose proof (auto_submit_without_confirmation RunnerDemo.server_up
           RunnerDemo.getTime RunnerDemo.now RunnerDemo.confirm_yes
           RunnerDemo.props
           (ExamRunner.ticks 42 (ExamRunner.timer_effect RunnerDemo.state))
           RunnerDemo.session RunnerDemo.store
           eq_refl eq_refl eq_refl eq_refl ltac:(simpl; lia)) as (H1 & H2 & _).
  split; [exact H1 | exact H2].
Defined.

Lemma submission_outcome_witness :
  store (ExamRunner.handleFinishExam RunnerDemo.server_down RunnerDemo.getTime
           RunnerDemo.now RunnerDemo.confirm_yes RunnerDemo.props true
           RunnerDemo.state RunnerDemo.store)
  = RunnerDemo.store.
Proof.
  apply (proj2 (submission_outcome RunnerDemo.server_down RunnerDemo.getTime
                  RunnerDemo.now RunnerDemo.confirm_yes RunnerDemo.props true
                  RunnerDemo.state RunnerDemo.session RunnerDemo.store
                  eq_refl eq_refl eq_refl (fun _ => eq_refl))
           (VObject [("message", VString "Network Error")])).
  reflexivity.
Defined.

(** An autosave while the backend is down: the snapshot is written, the
    request leaves and its failure is logged. *)
Lemma autosave_never_rejects_witness :
  let r := saveExamProgress RunnerDemo.print RunnerDemo.server_down
             RunnerDemo.session RunnerDemo.store in
  result r = Ok tt
  /\ events r
     = [ESetItem "exam_session_e1_u1" RunnerDemo.text;
        EConsoleLog "Saving exam progress payload";
        ERequest (autosave_request RunnerDemo.session RunnerDemo.store);
        EConsoleError "Failed to autosave session on backend"]
  /\ items (store r) !! "exam_session_e1_u1" = Some RunnerDemo.text.
Proof.
  pose proof (autosave_never_rejects RunnerDemo.print RunnerDemo.server_down
                RunnerDemo.session RunnerDemo.store)
    as (Hres & _ & Hev & _ & Hmirror & _).
  split; [exact Hres|]. split; [exact Hev|].
  exact (proj1 (Hmirror RunnerDemo.text eq_refl eq_refl)).
Defined.

Lemma grade_bounds_witness :
  ResultDetails.submit_grade RunnerDemo.server_up RunnerDemo.getTime
    RunnerDemo.now RunnerDemo.read_number RunnerDemo.result_props
    RunnerDemo.text_question "11" RunnerDemo.result_state RunnerDemo.store
  = mkRun (Ok RunnerDemo.result_state) RunnerDemo.store
      [EAlert ("Grade must be between 0 and " +:+ pretty 10)].
Proof.
  apply (proj1 (grade_bounds RunnerDemo.server_up RunnerDemo.getTime
                  RunnerDemo.now RunnerDemo.read_number RunnerDemo.result_props
                  RunnerDemo.text_question "11" 11 "e1" "u1"
                  RunnerDemo.result_state RunnerDemo.store
                  eq_refl ltac:(discriminate) eq_refl ltac:(discriminate)
                  ltac:(discriminate) eq_refl)).
  right. simpl. lia.
Defined.

Lemma autosave_resume_round_trip_witness :
  local_fallback RunnerDemo.parse Demo.no_number
    (items (store (saveExamProgress RunnerDemo.print RunnerDemo.server_down
                     RunnerDemo.session RunnerDemo.store)))
    "e1" "u1" (Some RunnerDemo.now) (Some 1893456000000)
  = Some resumable.
Proof.
  apply (proj2 (proj2 (autosave_resume_round_trip RunnerDemo.print
    RunnerDemo.parse Demo.no_number RunnerDemo.server_down RunnerDemo.session
    RunnerDemo.store RunnerDemo.text RunnerDemo.exam "u1"
    (Some RunnerDemo.now) (Some 1893456000000)
    eq_refl ltac:(discriminate) eq_refl eq_refl eq_refl eq_refl))).
  split; [discriminate|]. split; [simpl; lia|]. split; [simpl; lia|].
  reflexivity.
Defined.

Lemma fallback_role_witness :
  match result (getCurrentUser RunnerDemo.parse_token RunnerDemo.decode64
                  RunnerDemo.server_down "dG9rZW4" RunnerDemo.store) with
  | Ok (FromToken user) => user_role user = "student"
  | _ => False
  end.
Proof.
  pose proof (fallback_role RunnerDemo.parse_token RunnerDemo.decode64
                RunnerDemo.server_down "dG9rZW4"
                (VObject [("message", VString "Network Error")])
                RunnerDemo.store ltac:(discriminate) eq_refl) as H.
  cbv zeta in H.
  destruct (result (getCurrentUser RunnerDemo.parse_token RunnerDemo.decode64
                      RunnerDemo.server_down "dG9rZW4" RunnerDemo.store))
    as [[data|user|]|exn]; try contradiction.
  - destruct H as (_ & _ & _ & H). apply H. discriminate.
  - discriminate H.
Defined.

(** * More properties *)

(** ** The clock display *)

Lemma append_cons c s t : String c s +:+ t = String c (s +:+ t).
Proof. reflexivity. Qed.

Lemma append_length s t :
  String.length (s +:+ t) = (String.length s + String.length t)%nat.
Proof.
  induction s as [|c s IH]; [reflexivity|].
  rewrite append_cons. simpl. rewrite IH. reflexivity.
Qed.

Lemma append_tail_inj s1 : forall s2 t1 t2,
  s1 +:+ t1 = s2 +:+ t2 -> String.length t1 = String.length t2 ->
  s1 = s2 /\ t1 = t2.
Proof.
  induction s1 as [|c s1 IH]; intros [|d s2] t1 t2 Heq Hlen.
  - split; [reflexivity | exact Heq].
  - exfalso. change (t1 = String d s2 +:+ t2) in Heq.
    rewrite Heq, append_length in Hlen. simpl in Hlen. lia.
  - exfalso. change (String c s1 +:+ t1 = t2) in Heq.
    rewrite <- Heq, append_length in Hlen. simpl in Hlen. lia.
  - rewrite !append_cons in Heq. inversion Heq; subst.
    destruct (IH s2 t1 t2) as [-> ->]; auto.
Qed.

(** The seconds of a minute, [0] to [59]. *)
Lemma second_in_table x : 0 <= x < 60 -> In x (List.map Z.of_nat (seq 0 60)).
Proof.
  intros Hx. apply in_map_iff. exists (Z.to_nat x). split; [lia|].
  apply in_seq. lia.
Qed.

Lemma two_digits x :
  0 <= x < 60 -> String.length (RunnerView.padStart_zero 2 (pretty x)) = 2%nat.
Proof.
  intros Hx.
  assert (Hall : forallb
            (fun x => Nat.eqb (String.length (RunnerView.padStart_zero 2 (pretty x))) 2)
            (List.map Z.of_nat (seq 0 60)) = true) by (vm_compute; reflexivity).
  rewrite forallb_forall in Hall.
  apply Nat.eqb_eq, Hall, second_in_table, Hx.
Qed.

Lemma two_digits_inj x y :
  0 <= x < 60 -> 0 <= y < 60 ->
  RunnerView.padStart_zero 2 (pretty x) = RunnerView.padStart_zero 2 (pretty y) ->
  x = y.
Proof.
  intros Hx Hy Heq.
  assert (Hall : forallb
            (fun x => forallb
               (fun y => implb (String.eqb (RunnerView.padStart_zero 2 (pretty x))
                                           (RunnerView.padStart_zero 2 (pretty y)))
                               (x =? y))
               (List.map Z.of_nat (seq 0 60)))
            (List.map Z.of_nat (seq 0 60)) = true) by (vm_compute; reflexivity).
  rewrite forallb_forall in Hall.
  specialize (Hall x (second_in_table x Hx)).
  rewrite forallb_forall in Hall.
  specialize (Hall y (second_in_table y Hy)).
  rewrite Heq, String.eqb_refl in Hall. simpl in Hall.
  apply Z.eqb_eq, Hall.
Qed.

Lemma formatTime_nonneg sec :
  0 <= sec ->
  RunnerView.formatTime sec
  = pretty (sec / 60) +:+ ":" +:+ RunnerView.padStart_zero 2 (pretty (sec mod 60)).
Proof.
  intros Hsec. unfold RunnerView.formatTime.
  destruct (Z.ltb_spec sec 0) as [Hneg|_]; [lia|].
  cbv zeta. rewrite Z.rem_mod_nonneg by lia. reflexivity.
Qed.

(** X1.  [formatTime] shows every value of zero or less as ["0:00"], shows a
    non-negative whole number of seconds as its minutes, a colon and exactly
    two digits of seconds, and shows different non-negative values
    differently. *)
Theorem formatTime_display :
  (forall sec, sec <= 0 -> RunnerView.formatTime sec = "0:00")
  /\ (forall sec, 0 <= sec ->
        exists ss, RunnerView.formatTime sec = pretty (sec / 60) +:+ ":" +:+ ss
                   /\ String.length ss = 2%nat)
  /\ (forall a b, 0 <= a -> 0 <= b ->
        RunnerView.formatTime a = RunnerView.formatTime b -> a = b).
Proof.
  split; [|split].
  - intros sec Hsec. unfold RunnerView.formatTime.
    destruct (Z.ltb_spec sec 0) as [_|Hge]; [reflexivity|].
    assert (sec = 0) as -> by lia. reflexivity.
  - intros sec Hsec. rewrite (formatTime_nonneg sec Hsec).
    eexists. split; [reflexivity|]. apply two_digits.
    apply Z.mod_pos_bound. lia.
  - intros a b Ha Hb Heq.
    rewrite (formatTime_nonneg a Ha), (formatTime_nonneg b Hb) in Heq.
    assert (Hra : 0 <= a mod 60 < 60) by (apply Z.mod_pos_bound; lia).
    assert (Hrb : 0 <= b mod 60 < 60) by (apply Z.mod_pos_bound; lia).
    apply append_tail_inj in Heq as [Hm Hs].
    2:{ rewrite !append_length, (two_digits _ Hra), (two_digits _ Hrb).
        reflexivity. }
    apply (inj pretty) in Hm.
    rewrite !append_cons in Hs. inversion Hs as [Hs'].
    change (RunnerView.padStart_zero 2 (pretty (a mod 60))
            = RunnerView.padStart_zero 2 (pretty (b mod 60))) in Hs'.
    apply (two_digits_inj _ _ Hra Hrb) in Hs'.
    rewrite (Z.div_mod a 60), (Z.div_mod b 60) by lia. congruence.
Qed.

(** ** The multi-choice checkbox *)

Lemma elem_of_filter_bool {A} (f : A -> bool) (l : list A) x :
  x ∈ List.filter f l <-> x ∈ l /\ f x = true.
Proof. rewrite !list_elem_of_In. apply filter_In. Qed.

Lemma NoDup_filter_bool {A} (f : A -> bool) (l : list A) :
  NoDup l -> NoDup (List.filter f l).
Proof. rewrite !NoDup_ListNoDup. apply List.NoDup_filter. Qed.

Lemma filter_bool_all {A} (f : A -> bool) (l : list A) :
  (forall x, x ∈ l -> f x = true) -> List.filter f l = l.
Proof.
  induction l as [|a l IH]; intros H; simpl; [reflexivity|].
  rewrite (H a) by apply list_elem_of_here.
  rewrite IH; [reflexivity|]. intros x Hx. apply H, list_elem_of_further, Hx.
Qed.

Lemma option_checked_array xs opt :
  RunnerView.option_checked (VArray xs) opt = Some true <-> VString opt ∈ xs.
Proof.
  simpl. split.
  - intros H. inversion H as [H']. apply existsb_exists in H' as (x & Hin & Hx).
    apply eq_string_true in Hx. subst. apply list_elem_of_In, Hin.
  - intros Hin. f_equal. apply existsb_exists. exists (VString opt).
    split; [apply list_elem_of_In, Hin | apply eq_string_true; reflexivity].
Qed.

(** X2.  A click on the checkbox of option [opt], for a stored answer that
    is the array [xs] and a box that showed the stored state before the
    click: the new answer is an array that holds [opt] exactly when the box
    is now checked, holds every other value exactly when [xs] did, and has no
    repeated entry if [xs] had none; unchecking the option again gives back
    an answer it was not part of. *)
Theorem toggle_option_membership (xs : list value) (opt : string) (checked : bool) :
  RunnerView.option_checked (VArray xs) opt = Some (negb checked) ->
  exists ys,
    RunnerView.toggle_option (VArray xs) opt checked = Some (VArray ys)
    /\ (VString opt ∈ ys <-> checked = true)
    /\ (forall v, v <> VString opt -> (v ∈ ys <-> v ∈ xs))
    /\ (NoDup xs -> NoDup ys)
    /\ (checked = true ->
        RunnerView.toggle_option (VArray ys) opt false = Some (VArray xs)).
Proof.
  intros Hshown. destruct checked; simpl in Hshown |- *.
  - (* the option was not part of the answer and is added *)
    assert (Hnot : VString opt ∉ xs).
    { intros Hin. apply option_checked_array in Hin. simpl in Hin. congruence. }
    eexists. split; [reflexivity|]. split; [|split; [|split]].
    + split; [reflexivity|]. intros _. apply elem_of_app. right. apply list_elem_of_here.
    + intros v Hv. rewrite elem_of_app, list_elem_of_singleton. tauto.
    + intros Hnd. apply NoDup_app. split; [exact Hnd|]. split; [|apply NoDup_singleton].
      intros x Hx Hx'. apply list_elem_of_singleton in Hx'. subst. contradiction.
    + intros _. f_equal. f_equal. rewrite List.filter_app. simpl.
      rewrite String.eqb_refl. simpl. rewrite app_nil_r.
      apply filter_bool_all. intros x Hx. apply negb_true_iff, eq_string_false.
      intros ->. contradiction.
  - eexists. split; [reflexivity|]. split; [|split; [|split]].
    + split; [|discriminate]. intros Hin. apply elem_of_filter_bool in Hin as [_ Hin].
      simpl in Hin. rewrite String.eqb_refl in Hin. discriminate.
    + intros v Hv. rewrite elem_of_filter_bool. split; [tauto|].
      intros Hin. split; [exact Hin|]. apply negb_true_iff, eq_string_false, Hv.
    + apply NoDup_filter_bool.
    + discriminate.
Qed.

Lemma toggle_option_membership_witness :
  exists ys,
    RunnerView.toggle_option (VArray [VString "A"]) "B" true = Some (VArray ys)
    /\ VString "B" ∈ ys
    /\ RunnerView.toggle_option (VArray ys) "B" false
       = Some (VArray [VString "A"]).
Proof.
  destruct (toggle_option_membership [VString "A"] "B" true eq_refl)
    as (ys & Hrun & Hin & _ & _ & Hback).
  exists ys. split; [exact Hrun|].
  split; [apply Hin; reflexivity | apply Hback; reflexivity].
Defined.

(** The first click on an unanswered question stores the single option. *)
Lemma toggle_option_first opt :
  RunnerView.toggle_option VUndefined opt true = Some (VArray [VString opt]).
Proof. reflexivity. Qed.

(** ** The questions of an exam *)

Lemma find_question_Some bank id q :
  List.find (fun q => String.eqb (q_id q) id) bank = Some q ->
  q ∈ bank /\ q_id q = id.
Proof.
  intros H. apply find_some in H as [Hin Heq].
  split; [apply list_elem_of_In, Hin | apply String.eqb_eq, Heq].
Qed.

Lemma find_question_None bank id :
  List.find (fun q => String.eqb (q_id q) id) bank = None <-> id ∉ q_id <$> bank.
Proof.
  split.
  - intros H Hin. apply list_elem_of_fmap in Hin as (q & -> & Hq).
    apply list_elem_of_In in Hq.
    pose proof (find_none _ _ H q Hq) as Hne. simpl in Hne.
    rewrite String.eqb_refl in Hne. discriminate.
  - intros Hnot.
    destruct (List.find _ bank) as [q|] eqn:Hf; [|reflexivity].
    apply find_question_Some in Hf as [Hin Hid]. exfalso. apply Hnot.
    apply list_elem_of_fmap. exists q. auto.
Qed.

(** X3.  The question list of an exam holds only questions of the bank
    whose id the exam names; their ids are the exam's ids in the exam's
    order, without the ids that have no question in the bank; when every id
    has one, the ids are exactly the exam's. *)
Theorem exam_questions_ids (question_ids : list string) (bank : list Question) :
  (forall q, q ∈ RunnerView.exam_questions question_ids bank ->
             q ∈ bank /\ q_id q ∈ question_ids)
  /\ q_id <$> RunnerView.exam_questions question_ids bank
     = filter (fun id => id ∈ q_id <$> bank) question_ids
  /\ ((forall id, id ∈ question_ids -> id ∈ q_id <$> bank) ->
      q_id <$> RunnerView.exam_questions question_ids bank = question_ids).
Proof.
  assert (Hids : q_id <$> RunnerView.exam_questions question_ids bank
                 = filter (fun id => id ∈ q_id <$> bank) question_ids).
  { unfold RunnerView.exam_questions.
    induction question_ids as [|id ids IH]; [reflexivity|].
    cbn [omap list_omap]. rewrite filter_cons.
    destruct (List.find _ bank) as [q|] eqn:Hf.
    - pose proof (find_question_Some _ _ _ Hf) as [Hin Hid].
      rewrite decide_True.
      + rewrite fmap_cons, Hid. f_equal. exact IH.
      + apply list_elem_of_fmap. exists q. auto.
    - apply find_question_None in Hf. rewrite decide_False by exact Hf. exact IH. }
  split; [|split].
  - intros q Hq. unfold RunnerView.exam_questions in Hq.
    apply list_elem_of_omap in Hq as (id & Hid & Hf).
    apply find_question_Some in Hf as [Hin Heq]. subst. auto.
  - exact Hids.
  - intros Hall. rewrite Hids. clear Hids.
    induction question_ids as [|id ids IH]; [reflexivity|].
    rewrite filter_cons, decide_True by (apply Hall, list_elem_of_here).
    f_equal. apply IH.
    intros x Hx. apply Hall, list_elem_of_further, Hx.
Qed.

(** ** Moving between questions *)

Lemma question_at_Some questions i :
  0 <= i < Z.of_nat (length questions) ->
  is_Some (RunnerView.question_at questions i).
Proof.
  intros Hi. unfold RunnerView.question_at.
  destruct (Z.ltb_spec i 0); [lia|]. apply lookup_lt_is_Some. lia.
Qed.

(** With the index on a question, the updaters of the two buttons leave it
    on a question. *)
Lemma index_in_range (questions : list Question) (i : Z) :
  0 <= i < Z.of_nat (length questions) ->
  let last := Z.of_nat (length questions) - 1 in
  is_Some (RunnerView.question_at questions (RunnerView.previous_index i))
  /\ is_Some (RunnerView.question_at questions (RunnerView.next_index questions i))
  /\ RunnerView.previous_index 0 = 0
  /\ RunnerView.next_index questions last = last
  /\ (i < last ->
      RunnerView.previous_index (RunnerView.next_index questions i) = i)
  /\ (0 < i ->
      RunnerView.next_index questions (RunnerView.previous_index i) = i).
Proof.
  intros Hi last. subst last.
  unfold RunnerView.previous_index, RunnerView.next_index.
  split; [apply question_at_Some; lia|].
  split; [apply question_at_Some; lia|].
  repeat split; lia.
Qed.

(** ** Answering *)

Lemma lookup_set_field_eq k v fields :
  lookup_field k (RunnerView.set_field k v fields) = Some v.
Proof.
  induction fields as [|[k' v'] rest IH]; simpl.
  - rewrite String.eqb_refl. reflexivity.
  - destruct (String.eqb k k') eqn:Hk; simpl; rewrite Hk; [reflexivity | exact IH].
Qed.

Lemma lookup_set_field_ne k k0 v fields :
  k0 <> k ->
  lookup_field k0 (RunnerView.set_field k v fields) = lookup_field k0 fields.
Proof.
  intros Hne. induction fields as [|[k' v'] rest IH]; simpl.
  - apply String.eqb_neq in Hne. rewrite Hne. reflexivity.
  - destruct (String.eqb k k') eqn:Hk; simpl.
    + apply String.eqb_eq in Hk. subst k'.
      apply String.eqb_neq in Hne. rewrite Hne. reflexivity.
    + destruct (String.eqb k0 k'); [reflexivity | exact IH].
Qed.

(** Writing an answer neither repeats a key nor drops one. *)
Lemma set_field_keys k v fields :
  NoDup (fst <$> fields) ->
  NoDup (fst <$> RunnerView.set_field k v fields)
  /\ (forall k0, k0 ∈ fst <$> RunnerView.set_field k v fields
                 <-> k0 = k \/ k0 ∈ fst <$> fields).
Proof.
  induction fields as [|[k' v'] rest IH]; intros Hnd; simpl.
  - split; [apply NoDup_singleton|]. intros k0.
    rewrite list_elem_of_singleton. split; [tauto|].
    intros [H|H]; [exact H | inversion H].
  - rewrite fmap_cons in Hnd. apply NoDup_cons in Hnd as [Hk' Hnd].
    destruct (IH Hnd) as [IHnd IHin].
    destruct (String.eqb k k') eqn:Hk.
    + apply String.eqb_eq in Hk. subst k'. rewrite !fmap_cons. simpl.
      split; [apply NoDup_cons; auto|].
      intros k0. rewrite !elem_of_cons. tauto.
    + apply String.eqb_neq in Hk. rewrite !fmap_cons. simpl. split.
      * apply NoDup_cons. split; [|exact IHnd].
        intros Hin. apply IHin in Hin as [Hin|Hin]; [congruence | contradiction].
      * intros k0. rewrite !elem_of_cons, IHin. tauto.
Qed.

(** The answers object of a session with one more answer holds that
    answer under the id of its question. *)
Lemma prop_answers_set_field session k v s t :
  prop (prop (req_body (autosave_request
                          (with_remaining (RunnerView.with_answer session k v) t)
                          s)) "answers") k
  = v.
Proof.
  change (prop (VObject (RunnerView.set_field k v (answers session))) k = v).
  unfold prop, get. rewrite lookup_set_field_eq. reflexivity.
Qed.

Section RunnerViewFacts.

Variable JSON_stringify : value -> option string.
Variable server : Request -> Reply.

(** Whatever the store and the backend do, an autosave returns normally,
    shows nothing, and its only request is the one of the session. *)
Lemma saveExamProgress_quiet session s :
  let r := saveExamProgress JSON_stringify server session s in
  result r = Ok tt
  /\ (forall e, e ∈ events r -> surfaced e = false)
  /\ (forall req, ERequest req ∈ events r -> req = autosave_request session s)
  /\ (forall k, k <> session_key (examId session) (studentId session) ->
                items (store r) !! k = items s !! k).
Proof.
  cbv zeta.
  unfold saveExamProgress, try_catch, bind, stringify, localStorage_setItem,
    getAuthHeaders, localStorage_getItem, axios, emit, ret, throw,
    autosave_request, stored_token.
  destruct (JSON_stringify (session_object session)) as [text|] eqn:Htext;
    [destruct (writable s) eqn:Hw|];
    (destruct (JSON_stringify
                (VObject [("answers", VObject (answers session));
                          ("remaining_seconds",
                           VNumber (remainingSeconds session))]))
       as [shown|] eqn:Hshown);
    simpl;
    rewrite ?(lookup_insert_ne _ _ _ _ (session_key_not_token _ _));
    try (destruct (server _) as [data|err0] eqn:Hsrv); simpl.
  all: split; [reflexivity|].
  all: split; [intros e He; elem_of_concrete He; reflexivity|].
  all: split; [intros req Hreq; elem_of_concrete Hreq; try discriminate;
               inversion Hreq; reflexivity|].
  all: intros k Hk; try reflexivity; apply lookup_insert_ne; congruence.
Qed.

Lemma saveProgressNow_run sess st s :
  let snapshot := with_remaining sess (ExamRunner.timeLeft st) in
  let r := RunnerView.saveProgressNow JSON_stringify server (Some sess) st s in
  result r = Ok (ExamRunner.set_saving false st)
  /\ store r = store (saveExamProgress JSON_stringify server snapshot s)
  /\ events r = events (saveExamProgress JSON_stringify server snapshot s).
Proof.
  cbv zeta. unfold RunnerView.saveProgressNow.
  pose proof (saveExamProgress_quiet
                (with_remaining sess (ExamRunner.timeLeft st)) s) as (Hres & _).
  cbv zeta in Hres.
  unfold bind, try_catch, ret.
  destruct (saveExamProgress JSON_stringify server
              (with_remaining sess (ExamRunner.timeLeft st)) s)
    as [res s1 ev1].
  simpl in Hres. subst res. simpl. rewrite app_nil_r. auto.
Qed.

(** Saving before a move: it returns the runner with the indicator off and
    the session as it was, and shows nothing. *)
Lemma saveProgressNow_quiet sessToSave st s :
  let r := RunnerView.saveProgressNow JSON_stringify server sessToSave st s in
  (exists st', result r = Ok st'
               /\ ExamRunner.session st' = ExamRunner.session st
               /\ ExamRunner.timeLeft st' = ExamRunner.timeLeft st)
  /\ (forall e, e ∈ events r -> surfaced e = false).
Proof.
  cbv zeta. destruct sessToSave as [sess|].
  - pose proof (saveProgressNow_run sess st s) as (Hres & _ & Hev).
    cbv zeta in Hres, Hev.
    pose proof (saveExamProgress_quiet
                  (with_remaining sess (ExamRunner.timeLeft st)) s)
      as (_ & Hquiet & _).
    cbv zeta in Hquiet.
    split; [eexists; split; [exact Hres|]; split; reflexivity|].
    rewrite Hev. exact Hquiet.
  - simpl. split; [eexists; split; [reflexivity|]; split; reflexivity|].
    intros e He. elem_of_concrete He.
Qed.

(** Once its payload is printed an autosave sends its request. *)
Lemma saveExamProgress_sends session s :
  is_Some (JSON_stringify (req_body (autosave_request session s))) ->
  ERequest (autosave_request session s)
    ∈ events (saveExamProgress JSON_stringify server session s).
Proof.
  intros [shown Hshown].
  destruct (saveExamProgress_run JSON_stringify server session s shown Hshown)
    as (_ & ->).
  rewrite !elem_of_app, !elem_of_cons. auto.
Qed.

(** Saving a session is the autosave of its snapshot at the current
    countdown: the snapshot is mirrored when it prints and the store accepts
    it, and the request leaves once the payload is printed. *)
Lemma saveProgressNow_saves sess st s :
  let snapshot := with_remaining sess (ExamRunner.timeLeft st) in
  let save := saveExamProgress JSON_stringify server snapshot s in
  let r := RunnerView.saveProgressNow JSON_stringify server (Some sess) st s in
  store r = store save
  /\ events r = events save
  /\ (is_Some (JSON_stringify (req_body (autosave_request snapshot s))) ->
      ERequest (autosave_request snapshot s) ∈ events r)
  /\ (forall text,
        JSON_stringify (session_object snapshot) = Some text ->
        writable s = true ->
        items (store r) !! session_key (examId sess) (studentId sess)
        = Some text).
Proof.
  cbv zeta.
  pose proof (saveProgressNow_run sess st s) as (_ & Hstore & Hev).
  cbv zeta in Hstore, Hev. rewrite Hstore, Hev.
  split; [reflexivity|]. split; [reflexivity|]. split.
  - apply saveExamProgress_sends.
  - intros text Htext Hw.
    apply (saveExamProgress_mirror JSON_stringify server
             (with_remaining sess (ExamRunner.timeLeft st)) s text Htext Hw).
Qed.

(** X4.  With the current index on a question, the Previous and the Next
    button save the session first and then leave the index on a question:
    Previous stops at the first and Next at the last, and each undoes the
    other away from the two ends.  The save is the autosave of the loaded
    session with the current countdown: its snapshot is mirrored under the
    session's key when it prints and the store accepts it, and its request
    leaves once the payload is printed; with no session loaded nothing is
    saved or sent.  Nothing is shown whatever becomes of the save, and the
    session and the countdown are as before. *)
Theorem question_index_in_range
    (questions : list Question) (i : Z) (st : ExamRunner.State) (s : Store) :
  0 <= i < Z.of_nat (length questions) ->
  let last := Z.of_nat (length questions) - 1 in
  let back := RunnerView.go_previous JSON_stringify server i st s in
  let forth := RunnerView.go_next JSON_stringify server questions i st s in
  (exists st' j,
     result back = Ok (st', j)
     /\ j = Z.max 0 (i - 1)
     /\ is_Some (RunnerView.question_at questions j)
     /\ ExamRunner.session st' = ExamRunner.session st
     /\ ExamRunner.timeLeft st' = ExamRunner.timeLeft st)
  /\ (exists st' j,
        result forth = Ok (st', j)
        /\ j = Z.min last (i + 1)
        /\ is_Some (RunnerView.question_at questions j)
        /\ ExamRunner.session st' = ExamRunner.session st
        /\ ExamRunner.timeLeft st' = ExamRunner.timeLeft st)
  /\ (forall e, e ∈ events back \/ e ∈ events forth -> surfaced e = false)
  /\ RunnerView.previous_index 0 = 0
  /\ RunnerView.next_index questions last = last
  /\ (i < last ->
      RunnerView.previous_index (RunnerView.next_index questions i) = i)
  /\ (0 < i ->
      RunnerView.next_index questions (RunnerView.previous_index i) = i)
  /\ (store forth = store back /\ events forth = events back)
  /\ (forall sess,
        ExamRunner.session st = Some sess ->
        let snapshot := with_remaining sess (ExamRunner.timeLeft st) in
        let save := saveExamProgress JSON_stringify server snapshot s in
        store back = store save
        /\ events back = events save
        /\ (is_Some (JSON_stringify (req_body (autosave_request snapshot s))) ->
            ERequest (autosave_request snapshot s) ∈ events back)
        /\ (forall text,
              JSON_stringify (session_object snapshot) = Some text ->
              writable s = true ->
              items (store back) !! session_key (examId sess) (studentId sess)
              = Some text))
  /\ (ExamRunner.session st = None -> store back = s /\ events back = []).
Proof.
  intros Hi. cbv zeta.
  destruct (index_in_range questions i Hi) as (Hp & Hn & H0 & Hl & Hpn & Hnp).
  pose proof (saveProgressNow_quiet (ExamRunner.session st) st s)
    as ((st' & Hres & Hsess & Htime) & Hquiet).
  cbv zeta in Hres, Hquiet.
  assert (Hsaves : forall sess, ExamRunner.session st = Some sess ->
            let r := RunnerView.saveProgressNow JSON_stringify server
                       (ExamRunner.session st) st s in
            let snapshot := with_remaining sess (ExamRunner.timeLeft st) in
            let save := saveExamProgress JSON_stringify server snapshot s in
            store r = store save
            /\ events r = events save
            /\ (is_Some (JSON_stringify
                           (req_body (autosave_request snapshot s))) ->
                ERequest (autosave_request snapshot s) ∈ events r)
            /\ (forall text,
                  JSON_stringify (session_object snapshot) = Some text ->
                  writable s = true ->
                  items (store r)
                    !! session_key (examId sess) (studentId sess)
                  = Some text)).
  { intros sess Hs. rewrite Hs. exact (saveProgressNow_saves sess st s). }
  assert (Hnone : ExamRunner.session st = None ->
            RunnerView.saveProgressNow JSON_stringify server
              (ExamRunner.session st) st s = mkRun (Ok st) s []).
  { intros Hs. rewrite Hs. reflexivity. }
  cbv zeta in Hsaves.
  unfold RunnerView.go_previous, RunnerView.go_next, bind, ret.
  destruct (RunnerView.saveProgressNow JSON_stringify server
              (ExamRunner.session st) st s) as [res s1 ev1].
  simpl in Hres, Hquiet, Hsaves. subst res. simpl.
  rewrite !app_nil_r.
  split; [exists st', (RunnerView.previous_index i); auto 10|].
  split; [exists st', (RunnerView.next_index questions i); auto 10|].
  split; [intros e [He|He]; apply Hquiet, He|].
  do 4 (split; [assumption|]).
  split; [split; reflexivity|].
  split; [exact Hsaves|].
  intros Hs. specialize (Hnone Hs). inversion Hnone. split; reflexivity.
Qed.

(** X5.  An answer to the current question is stored under that question's
    id and no other answer changes; the session keeps its ids, start and
    status and the countdown is untouched; the pending debounced save is
    cancelled.  The session with the new answer is then saved with the
    current countdown: its snapshot is mirrored under the session's key when
    it prints and the store accepts it, its request, which carries the new
    answers, leaves once the payload is printed and is the only request, and
    nothing is shown to the student whatever becomes of it. *)
Theorem handleAnswerChange_stores
    (questions : list Question) (currentQIndex : Z) (val : value)
    (st : ExamRunner.State) (session : StudentExamSession) (q : Question)
    (s : Store) :
  ExamRunner.session st = Some session ->
  RunnerView.question_at questions currentQIndex = Some q ->
  let updated := RunnerView.with_answer session (q_id q) val in
  let snapshot := with_remaining updated (ExamRunner.timeLeft st) in
  let save := saveExamProgress JSON_stringify server snapshot s in
  let r := RunnerView.handleAnswerChange JSON_stringify server questions
             currentQIndex val st s in
  (exists st',
     result r = Ok st'
     /\ ExamRunner.session st' = Some updated
     /\ ExamRunner.timeLeft st' = ExamRunner.timeLeft st
     /\ ExamRunner.save_scheduled st' = false)
  /\ lookup_field (q_id q) (answers updated) = Some val
  /\ (forall k, k <> q_id q ->
        lookup_field k (answers updated) = lookup_field k (answers session))
  /\ (examId updated = examId session /\ studentId updated = studentId session
      /\ startTime updated = startTime session /\ status updated = status session)
  /\ (forall e, e ∈ events r -> surfaced e = false)
  /\ (forall req, ERequest req ∈ events r -> req = autosave_request snapshot s)
  /\ (store r = store save /\ events r = events save)
  /\ (is_Some (JSON_stringify (req_body (autosave_request snapshot s))) ->
      ERequest (autosave_request snapshot s) ∈ events r
      /\ prop (prop (req_body (autosave_request snapshot s)) "answers") (q_id q)
         = val)
  /\ (forall text,
        JSON_stringify (session_object snapshot) = Some text ->
        writable s = true ->
        items (store r) !! session_key (examId session) (studentId session)
        = Some text).
Proof.
  intros Hs Hq updated snapshot save r. subst r save snapshot.
  unfold RunnerView.handleAnswerChange. rewrite Hs, Hq.
  fold updated.
  pose proof (saveProgressNow_run updated
                (ExamRunner.clear_save_timeout
                   (RunnerView.set_session updated st)) s) as (Hres & _ & Hev).
  pose proof (saveProgressNow_saves updated
                (ExamRunner.clear_save_timeout
                   (RunnerView.set_session updated st)) s)
    as (Hstore & _ & Hsent & Hmirror).
  cbv zeta in Hres, Hev, Hstore, Hsent, Hmirror.
  change (ExamRunner.timeLeft
            (ExamRunner.clear_save_timeout (RunnerView.set_session updated st)))
    with (ExamRunner.timeLeft st) in Hev, Hstore, Hsent, Hmirror.
  pose proof (saveExamProgress_quiet
                (with_remaining updated (ExamRunner.timeLeft st)) s)
    as (_ & Hquiet & Hreq & _).
  cbv zeta in Hquiet, Hreq.
  split; [eexists; split; [exact Hres|]; repeat split|].
  split; [apply lookup_set_field_eq|].
  split; [intros k Hk; apply lookup_set_field_ne, Hk|].
  split; [repeat split|].
  split; [rewrite Hev; exact Hquiet|].
  split; [rewrite Hev; exact Hreq|].
  split; [split; [exact Hstore | exact Hev]|].
  split.
  - intros Hp. split; [exact (Hsent Hp)|].
    apply prop_answers_set_field.
  - exact Hmirror.
Qed.

(** Without a loaded session, or off the question list, the handler does
    nothing. *)
Lemma handleAnswerChange_nothing questions currentQIndex val st s :
  ExamRunner.session st = None
  \/ RunnerView.question_at questions currentQIndex = None ->
  RunnerView.handleAnswerChange JSON_stringify server questions currentQIndex
    val st s = mkRun (Ok st) s [].
Proof.
  intros H. unfold RunnerView.handleAnswerChange.
  destruct (ExamRunner.session st); [|reflexivity].
  destruct H as [H|H]; [discriminate|]. rewrite H. reflexivity.
Qed.

(** X6.  Leaving the page (hidden tab or unload) saves nothing and sends
    nothing when no session is loaded or the session is submitted; for a
    session in progress it mirrors the session with the current countdown
    under the session's key, provided the snapshot prints and the store
    accepts it, and shows nothing. *)
Theorem save_on_leave_mirror (st : ExamRunner.State) (s : Store) :
  let r := RunnerView.save_on_leave JSON_stringify server st s in
  result r = Ok tt
  /\ (forall e, e ∈ events r -> surfaced e = false)
  /\ (ExamRunner.no_running_session st = true -> r = mkRun (Ok tt) s [])
  /\ (forall sess text,
        ExamRunner.session st = Some sess -> status sess = in_progress ->
        JSON_stringify
          (session_object (with_remaining sess (ExamRunner.timeLeft st)))
          = Some text ->
        writable s = true ->
        items (store r) !! session_key (examId sess) (studentId sess)
          = Some text).
Proof.
  cbv zeta. unfold RunnerView.save_on_leave, ExamRunner.no_running_session.
  destruct (ExamRunner.session st) as [sess|].
  - destruct (status sess) eqn:Hst.
    + pose proof (saveExamProgress_quiet
                    (with_remaining sess (ExamRunner.timeLeft st)) s)
        as (Hres & Hquiet & _).
      cbv zeta in Hres, Hquiet.
      split; [exact Hres|]. split; [exact Hquiet|]. split; [discriminate|].
      intros sess' text Heq _ Htext Hw. inversion Heq; subst sess'.
      apply (saveExamProgress_mirror JSON_stringify server
               (with_remaining sess (ExamRunner.timeLeft st)) s text Htext Hw).
    + split; [reflexivity|]. split; [intros e He; elem_of_concrete He|].
      split; [reflexivity|].
      intros sess' text Heq Hst'. inversion Heq; subst. congruence.
  - split; [reflexivity|]. split; [intros e He; elem_of_concrete He|].
    split; [reflexivity|]. intros sess' text Heq. discriminate.
Qed.

End RunnerViewFacts.

(** Next, on the first of two questions: the autosave request of the
    loaded session leaves, and the index moves to the second question. *)
Lemma question_index_in_range_witness :
  let forth := RunnerView.go_next RunnerDemo.print RunnerDemo.server_up
                 [GradingDemo.question ["A"]; RunnerDemo.text_question] 0
                 RunnerDemo.state RunnerDemo.store in
  (exists st' j, result forth = Ok (st', j) /\ j = 1)
  /\ ERequest (autosave_request
                 (with_remaining RunnerDemo.session
                    (ExamRunner.timeLeft RunnerDemo.state)) RunnerDemo.store)
       ∈ events forth
  /\ items (store forth) !! "exam_session_e1_u1" = Some RunnerDemo.text.
Proof.
  cbv zeta.
  pose proof (question_index_in_range RunnerDemo.print RunnerDemo.server_up
                [GradingDemo.question ["A"]; RunnerDemo.text_question] 0
                RunnerDemo.state RunnerDemo.store ltac:(simpl; lia))
    as (_ & (st' & j & Hres & Hj & _) & _ & _ & _ & _ & _ & (Hst & Hev) & Hsave & _).
  cbv zeta in Hres, Hst, Hev, Hsave.
  destruct (Hsave RunnerDemo.session eq_refl) as (_ & _ & Hsent & Hmirror).
  split; [exists st', j; split; [exact Hres | rewrite Hj; reflexivity]|].
  split.
  - rewrite Hev. apply Hsent. eexists. reflexivity.
  - rewrite Hst. exact (Hmirror RunnerDemo.text eq_refl eq_refl).
Defined.

(** An essay typed into the second question: it is in the answers of the
    session, and the autosave that carries it leaves. *)
Lemma handleAnswerChange_stores_witness :
  let updated := RunnerView.with_answer RunnerDemo.session "q7"
                   (VString "essay") in
  let r := RunnerView.handleAnswerChange RunnerDemo.print RunnerDemo.server_up
             [GradingDemo.question ["A"]; RunnerDemo.text_question] 1
             (VString "essay") RunnerDemo.state RunnerDemo.store in
  (exists st', result r = Ok st' /\ ExamRunner.session st' = Some updated)
  /\ ERequest (autosave_request
                 (with_remaining updated (ExamRunner.timeLeft RunnerDemo.state))
                 RunnerDemo.store)
       ∈ events r
  /\ items (store r) !! "exam_session_e1_u1" = Some RunnerDemo.text.
Proof.
  cbv zeta.
  pose proof (handleAnswerChange_stores RunnerDemo.print RunnerDemo.server_up
                [GradingDemo.question ["A"]; RunnerDemo.text_question] 1
                (VString "essay") RunnerDemo.state RunnerDemo.session
                RunnerDemo.text_question RunnerDemo.store eq_refl eq_refl)
    as ((st' & Hres & Hsess & _) & _ & _ & _ & _ & _ & _ & Hsent & Hmirror).
  cbv zeta in Hres, Hsess, Hsent, Hmirror.
  split; [exists st'; split; [exact Hres | exact Hsess]|].
  split.
  - apply Hsent. eexists. reflexivity.
  - exact (Hmirror RunnerDemo.text eq_refl eq_refl).
Defined.

(** ** Submitting once, and again *)

Section SubmitOnceFacts.

Variable server : Request -> Reply.
Variable Date_getTime : value -> option Z.
Variable Date_now : Z.
Variable window_confirm : string -> bool.
Variable props : ExamRunner.Props.

Abbreviation finish' manual st :=
  (ExamRunner.handleFinishExam server Date_getTime Date_now window_confirm props
     manual st).

Abbreviation watcher' st :=
  (ExamRunner.auto_submit_watcher server Date_getTime Date_now window_confirm
     props st).

Lemma finish_while_loading manual st s :
  ExamRunner.loading st = true -> finish' manual st s = mkRun (Ok st) s [].
Proof.
  intros Hl. unfold ExamRunner.handleFinishExam.
  destruct (ExamRunner.session st); [rewrite Hl|]; reflexivity.
Qed.

Lemma watcher_while_loading st s :
  ExamRunner.loading st = true -> watcher' st s = mkRun (Ok st) s [].
Proof.
  intros Hl. unfold ExamRunner.auto_submit_watcher, ExamRunner.auto_submit_due.
  rewrite Hl. destruct (ExamRunner.timeLeft st =? 0); [|reflexivity].
  destruct (ExamRunner.session st) as [sess|]; [|reflexivity].
  destruct (status sess); reflexivity.
Qed.

(** X7.  Once a submission has gone through, the runner is left loading, and
    in that state neither the Finish button nor the watcher does anything:
    no prompt, no request, no change of the store.  The same holds while a
    submission is under way. *)
Theorem no_second_submission
    (manual : bool) (st : ExamRunner.State) (sess : StudentExamSession)
    (s : Store) (data : value) :
  ExamRunner.session st = Some sess -> ExamRunner.loading st = false ->
  (manual = true -> window_confirm ExamRunner.submit_prompt = true) ->
  server (submit_request (with_remaining sess (ExamRunner.timeLeft st)) s)
    = Resolved data ->
  nullish data = false ->
  exists st',
    result (finish' manual st s) = Ok st'
    /\ ExamRunner.loading st' = true
    /\ forall manual' s',
         finish' manual' st' s' = mkRun (Ok st') s' []
         /\ watcher' st' s' = mkRun (Ok st') s' [].
Proof.
  intros Hs Hl Hc Hsrv Hdata.
  pose proof (handleFinishExam_run server Date_getTime Date_now window_confirm
                props manual st sess s Hs Hl Hc) as Hrun.
  cbv zeta in Hrun. rewrite Hsrv, Hdata in Hrun.
  destruct Hrun as (_ & Hres & _).
  exists (after_submit st). split; [exact Hres|]. split; [reflexivity|].
  intros manual' s'. split.
  - apply finish_while_loading. reflexivity.
  - apply watcher_while_loading. reflexivity.
Qed.

(** X8.  When the automatic submission is rejected, the runner is left with
    the countdown at 0, the session in progress and nothing loading, which is
    the watcher's condition again: run on that state with the call still
    rejected, the watcher sends the same request, alerts the same failure and
    leaves the same state. *)
Theorem rejected_auto_submit_repeats
    (st : ExamRunner.State) (sess : StudentExamSession) (s : Store)
    (err : value) :
  ExamRunner.timeLeft st = 0 -> ExamRunner.session st = Some sess ->
  status sess = in_progress -> ExamRunner.loading st = false ->
  0 < startTime sess ->
  server (submit_request (with_remaining sess 0) s) = Rejected err ->
  let failed := ExamRunner.set_loading false (after_submit st) in
  let again := mkRun (Ok failed) s
                 [ERequest (submit_request (with_remaining sess 0) s);
                  EConsoleError "Submission failed";
                  EAlert ExamRunner.submit_failed] in
  watcher' st s = again
  /\ ExamRunner.auto_submit_due failed = true
  /\ watcher' failed s = again.
Proof.
  intros Ht Hs Hst Hl Hstart Hsrv failed again.
  assert (Hstep : forall st0,
            ExamRunner.timeLeft st0 = 0 -> ExamRunner.session st0 = Some sess ->
            ExamRunner.loading st0 = false ->
            watcher' st0 s
            = mkRun (Ok (ExamRunner.set_loading false (after_submit st0))) s
                [ERequest (submit_request (with_remaining sess 0) s);
                 EConsoleError "Submission failed";
                 EAlert ExamRunner.submit_failed]).
  { intros st0 Ht0 Hs0 Hl0. unfold ExamRunner.auto_submit_watcher.
    rewrite (auto_submit_due_true st0 sess Ht0 Hs0 Hst Hl0 Hstart).
    pose proof (handleFinishExam_run server Date_getTime Date_now window_confirm
                  props false st0 sess s Hs0 Hl0) as Hrun.
    cbv zeta in Hrun. rewrite Ht0, Hsrv in Hrun.
    destruct Hrun as (Hres & Hstore & Hev); [discriminate|].
    destruct (ExamRunner.handleFinishExam _ _ _ _ _ false st0 s) as [res s1 ev1].
    simpl in Hres, Hstore, Hev. subst. reflexivity. }
  split; [apply Hstep; assumption|]. split.
  - apply (auto_submit_due_true failed sess); try assumption; reflexivity.
  - subst again. rewrite (Hstep failed); [reflexivity | exact Ht | exact Hs | reflexivity].
Qed.

End SubmitOnceFacts.

Lemma no_second_submission_witness :
  exists st',
    result (ExamRunner.handleFinishExam RunnerDemo.server_up RunnerDemo.getTime
              RunnerDemo.now RunnerDemo.confirm_yes RunnerDemo.props true
              RunnerDemo.state RunnerDemo.store) = Ok st'
    /\ ExamRunner.auto_submit_watcher RunnerDemo.server_up RunnerDemo.getTime
         RunnerDemo.now RunnerDemo.confirm_yes RunnerDemo.props st'
         RunnerDemo.store
       = mkRun (Ok st') RunnerDemo.store [].
Proof.
  destruct (no_second_submission RunnerDemo.server_up RunnerDemo.getTime
              RunnerDemo.now RunnerDemo.confirm_yes RunnerDemo.props true
              RunnerDemo.state RunnerDemo.session RunnerDemo.store
              (VObject [("exam_id", VString "e1"); ("student_id", VString "u1");
                        ("status", VString "submitted"); ("score", VNumber 5)])
              eq_refl eq_refl (fun _ => eq_refl) eq_refl eq_refl)
    as (st' & Hres & _ & Hidle).
  exists st'. split; [exact Hres|].
  apply (proj2 (Hidle false RunnerDemo.store)).
Defined.

Lemma rejected_auto_submit_repeats_witness :
  ExamRunner.auto_submit_due
    (ExamRunner.set_loading false (after_submit RunnerDemo.expired)) = true.
Proof.
  apply (rejected_auto_submit_repeats RunnerDemo.server_down RunnerDemo.getTime
           RunnerDemo.now RunnerDemo.confirm_yes RunnerDemo.props
           RunnerDemo.expired RunnerDemo.session RunnerDemo.store
           (VObject [("message", VString "Network Error")])
           eq_refl eq_refl eq_refl eq_refl ltac:(simpl; lia) eq_refl).
Defined.

(** ** Routing *)

Lemma role_is_truthy user r :
  eq_string (prop user "role") r = true -> truthy user = true.
Proof. destruct user; simpl; try discriminate; reflexivity. Qed.

Lemma roles_include_one user r :
  App.roles_include [r] user = eq_string (prop user "role") r.
Proof. unfold App.roles_include. simpl. apply orb_false_r. Qed.

Lemma eq_string_same v r1 r2 :
  eq_string v r1 = true -> eq_string v r2 = true -> r1 = r2.
Proof.
  destruct v; simpl; try discriminate.
  intros H1 H2. apply String.eqb_eq in H1, H2. congruence.
Qed.

(** X9.  Whatever location is opened and however many redirects are
    followed, a page that is shown is shown to the right visitor: nothing
    is shown while the user is being restored, the login and register pages
    are shown exactly to a visitor who is not signed in, and a page reserved
    for a role is shown only to a user whose role is that role. *)
Theorem pages_reserved
    (user : value) (isLoading : bool) (n : nat) (p : App.Path) (page : App.Page) :
  App.follow n user isLoading p = App.Show page ->
  isLoading = false
  /\ (App.public page = true <-> truthy user = false)
  /\ (forall r, App.reserved_for page = Some r ->
                eq_string (prop user "role") r = true).
Proof.
  assert (Hroute : forall p,
            App.route user isLoading p = App.Show page ->
            isLoading = false
            /\ (App.public page = true <-> truthy user = false)
            /\ (forall r, App.reserved_for page = Some r ->
                          eq_string (prop user "role") r = true)).
  { intros q Hq. destruct q; simpl in Hq;
      unfold App.AuthRedirect, App.ProtectedRoute in Hq;
      rewrite ?roles_include_one in Hq;
      destruct isLoading; try discriminate;
      destruct (truthy user) eqn:Hu; simpl in Hq; try discriminate;
      try (destruct (eq_string (prop user "role") _) eqn:Hr; simpl in Hq;
           try discriminate);
      inversion Hq; subst page; simpl;
      (split; [reflexivity|]); (split; [split; congruence|]);
      intros r Hres; inversion Hres; subst; assumption. }
  revert p. induction n as [|n IH]; intros p Hp; simpl in Hp.
  - destruct (App.route user isLoading p) eqn:Hr; try discriminate.
    inversion Hp; subst. apply (Hroute p Hr).
  - destruct (App.route user isLoading p) eqn:Hr; try discriminate.
    + apply (IH to Hp).
    + inversion Hp; subst. apply (Hroute p Hr).
Qed.

Lemma pages_reserved_witness :
  eq_string (prop (VObject [("id", VString "u1"); ("role", VString "student")])
                  "role") "student" = true.
Proof.
  apply (proj2 (proj2 (pages_reserved
           (VObject [("id", VString "u1"); ("role", VString "student")])
           false 1 App.root_path App.StudentDashboardPage eq_refl))
         "student" eq_refl).
Defined.

(** Two redirects are enough for a visitor and for the two roles. *)
Lemma routes_settle_steps (user : value) (isLoading : bool) (p : App.Path) :
  truthy user = false
  \/ eq_string (prop user "role") "admin" = true
  \/ eq_string (prop user "role") "student" = true ->
  forall n,
    App.is_navigate (App.follow 2 user isLoading p) = false
    /\ App.follow (S (S n)) user isLoading p = App.follow 2 user isLoading p.
Proof.
  intros Hrole.
  assert (Hcases :
    (truthy user = false)
    \/ (truthy user = true /\ eq_string (prop user "role") "admin" = true
        /\ eq_string (prop user "role") "student" = false)
    \/ (truthy user = true /\ eq_string (prop user "role") "admin" = false
        /\ eq_string (prop user "role") "student" = true)).
  { destruct Hrole as [H|[H|H]]; [left; exact H | right; left | right; right].
    - split; [apply (role_is_truthy _ _ H)|]. split; [exact H|].
      destruct (eq_string (prop user "role") "student") eqn:Hs; [|reflexivity].
      pose proof (eq_string_same _ _ _ H Hs). discriminate.
    - split; [apply (role_is_truthy _ _ H)|]. split; [|exact H].
      destruct (eq_string (prop user "role") "admin") eqn:Ha; [|reflexivity].
      pose proof (eq_string_same _ _ _ Ha H). discriminate. }
  intros n.
  destruct Hcases as [Hu|[(Hu & Ha & Hs)|(Hu & Ha & Hs)]];
    destruct isLoading; destruct p; simpl;
    unfold App.AuthRedirect, App.ProtectedRoute, App.home;
    rewrite ?roles_include_one, ?Hu, ?Ha, ?Hs; simpl;
    unfold App.AuthRedirect, App.ProtectedRoute, App.home;
    rewrite ?roles_include_one, ?Hu, ?Ha, ?Hs; simpl;
    unfold App.AuthRedirect, App.ProtectedRoute, App.home;
    rewrite ?roles_include_one, ?Hu, ?Ha, ?Hs; simpl;
    try (destruct n; simpl;
         unfold App.AuthRedirect, App.ProtectedRoute, App.home;
         rewrite ?roles_include_one, ?Hu, ?Ha, ?Hs; simpl);
    split; reflexivity.
Qed.

(** X10.  For a visitor who is not signed in and for a user whose role is
    [admin] or [student], every location settles after at most two
    redirects: following more of them changes nothing. *)
Theorem routes_settle (user : value) (isLoading : bool) (p : App.Path) :
  truthy user = false
  \/ eq_string (prop user "role") "admin" = true
  \/ eq_string (prop user "role") "student" = true ->
  App.is_navigate (App.follow 2 user isLoading p) = false
  /\ forall n, (2 <= n)%nat ->
       App.follow n user isLoading p = App.follow 2 user isLoading p.
Proof.
  intros Hrole.
  split; [apply (routes_settle_steps user isLoading p Hrole O)|].
  intros n Hn. destruct n as [|[|n]]; [lia | lia |].
  apply (routes_settle_steps user isLoading p Hrole n).
Qed.

Lemma routes_settle_witness :
  App.follow 5 (VObject [("id", VString "a1"); ("role", VString "admin")])
    false App.student_dashboard
  = App.follow 2 (VObject [("id", VString "a1"); ("role", VString "admin")])
      false App.student_dashboard.
Proof.
  apply (proj2 (routes_settle
                  (VObject [("id", VString "a1"); ("role", VString "admin")])
                  false App.student_dashboard (or_intror (or_introl eq_refl)))).
  lia.
Defined.

(** X11.  For a signed-in user whose role is neither [admin] nor
    [student], once the user has been restored, only the result page
    settles: every other location keeps redirecting, between the root and
    the student dashboard, however many redirects are followed. *)
Theorem unknown_role_redirect_loop (user : value) (n : nat) (p : App.Path) :
  truthy user = true ->
  eq_string (prop user "role") "admin" = false ->
  eq_string (prop user "role") "student" = false ->
  (forall e s, p <> App.result_details e s) ->
  App.is_navigate (App.follow n user false p) = true
  /\ App.route user false App.root_path = App.Navigate App.student_dashboard
  /\ App.route user false App.student_dashboard = App.Navigate App.root_path.
Proof.
  intros Hu Ha Hs Hp.
  assert (Hstep : forall q, (forall e s, q <> App.result_details e s) ->
            App.route user false q = App.Navigate App.root_path
            \/ App.route user false q = App.Navigate App.student_dashboard).
  { intros q Hq. destruct q as [| | | | | | | e | | e s]; simpl;
      unfold App.AuthRedirect, App.ProtectedRoute, App.home;
      rewrite ?roles_include_one, ?Hu, ?Ha, ?Hs; simpl; auto.
    exfalso. apply (Hq e s). reflexivity. }
  split.
  - revert p Hp. induction n as [|n IH]; intros p Hp; simpl.
    + destruct (Hstep p Hp) as [-> | ->]; reflexivity.
    + destruct (Hstep p Hp) as [-> | ->]; apply IH; intros e s; discriminate.
  - simpl. unfold App.ProtectedRoute, App.home.
    rewrite ?roles_include_one, Hu, Ha, Hs. split; reflexivity.
Qed.

Lemma unknown_role_redirect_loop_witness :
  App.is_navigate
    (App.follow 100 (VObject [("id", VNumber 7); ("role", VString "teacher")])
       false App.login_path) = true.
Proof.
  apply (unknown_role_redirect_loop
           (VObject [("id", VNumber 7); ("role", VString "teacher")])
           100 App.login_path eq_refl eq_refl eq_refl).
  intros e s. discriminate.
Defined.

(** ** Signing in and out *)

Lemma api_login_run server email password s :
  AuthApi.login server email password s
  = match server (AuthApi.login_request email password) with
    | Resolved data =>
        if AuthApi.login_body_ok data
        then mkRun (Ok (AuthApi.mkAuthResponse (prop data "user")
                                               (prop data "token")))
                   s [ERequest (AuthApi.login_request email password)]
        else mkRun (Throw (new_Error (VString "Invalid response from auth server")))
                   s [ERequest (AuthApi.login_request email password)]
    | Rejected err =>
        mkRun (Throw (AuthApi.auth_failure "Login failed: backend not reachable" err))
              s [ERequest (AuthApi.login_request email password)]
    end.
Proof.
  unfold AuthApi.login, AuthApi.login_request, AuthApi.login_body_ok,
    try_catch, bind, axios, ret, throw.
  destruct (server _) as [data|err]; simpl; [|reflexivity].
  destruct (truthy data); simpl; [|reflexivity].
  destruct (truthy (prop data "user")); simpl; [|reflexivity].
  destruct (truthy (prop data "token")); simpl; reflexivity.
Qed.

(** The error of a failed sign-in always carries a message. *)
Lemma auth_failure_message fallback err :
  exists text, AuthApi.auth_failure fallback err = new_Error (VString text).
Proof.
  unfold AuthApi.auth_failure, new_Error.
  destruct (truthy (prop (response_data err) "detail")); eexists; reflexivity.
Qed.

Section AuthFacts.

Variable server : Request -> Reply.

(** X12.  Signing in.  When the backend answers the login request with a
    body that has a user and a token and the store takes the token, the
    provider holds that user, the token is stored under [authToken] (no other
    item changes), the default header is [Bearer] and the token, and a
    welcome is notified.  When the provider's [login] rejects, the store,
    the user and the default header are as before and one error
    notification is added; for a rejection that carries a [detail] text,
    the notification is that text.  The only request is the login request. *)
Theorem login_outcome (email pass : string) (st : AuthContext.State) (s : Store) :
  let r := AuthContext.login server email pass st s in
  (forall data,
      server (AuthApi.login_request email pass) = Resolved data ->
      AuthApi.login_body_ok data = true -> writable s = true ->
      exists st',
        result r = Ok (st', None)
        /\ AuthContext.user st' = prop data "user"
        /\ AuthContext.authorization st'
           = Some (AuthContext.bearer (to_string (prop data "token")))
        /\ AuthContext.notifications st'
           = AuthContext.notifications st
             ++ [("success",
                  VString ("Welcome back, "
                           +:+ to_string (prop (prop data "user") "full_name")
                           +:+ "!"))]
        /\ items (store r) !! "authToken" = Some (to_string (prop data "token"))
        /\ (forall k, k <> "authToken" -> items (store r) !! k = items s !! k))
  /\ (forall st' e,
        result r = Ok (st', Some e) ->
        store r = s
        /\ AuthContext.user st' = AuthContext.user st
        /\ AuthContext.authorization st' = AuthContext.authorization st
        /\ exists msg,
             AuthContext.notifications st'
             = AuthContext.notifications st ++ [("error", msg)])
  /\ (forall err text,
        server (AuthApi.login_request email pass) = Rejected err ->
        prop (response_data err) "detail" = VString text -> text <> "" ->
        exists st',
          result r = Ok (st', Some (new_Error (VString text)))
          /\ AuthContext.notifications st'
             = AuthContext.notifications st ++ [("error", VString text)])
  /\ (forall req, ERequest req ∈ events r ->
        req = AuthApi.login_request email pass).
Proof.
  cbv zeta. unfold AuthContext.login, try_catch, bind.
  rewrite api_login_run.
  destruct (server (AuthApi.login_request email pass)) as [data|err] eqn:Hsrv.
  - destruct (AuthApi.login_body_ok data) eqn:Hok.
    + unfold localStorage_setItem, ret. simpl.
      destruct (writable s) eqn:Hw; simpl.
      * split; [|split; [|split]].
        -- intros data' Hdata _ _. inversion Hdata; subst data'.
           eexists. split; [reflexivity|]. simpl.
           repeat split.
           ++ apply lookup_insert_eq.
           ++ intros k Hk. apply lookup_insert_ne. congruence.
        -- intros st' e He. inversion He.
        -- intros err text Herr. discriminate.
        -- intros req Hreq. elem_of_concrete Hreq; try discriminate.
           inversion Hreq. reflexivity.
      * split; [|split; [|split]].
        -- intros data' _ _ Hw'. discriminate.
        -- intros st' e He. inversion He; subst. simpl.
           repeat split. eexists. reflexivity.
        -- intros err text Herr. discriminate.
        -- intros req Hreq. elem_of_concrete Hreq; try discriminate.
           inversion Hreq. reflexivity.
    + unfold ret. simpl. split; [|split; [|split]].
      * intros data' Hdata Hok'. inversion Hdata; subst. congruence.
      * intros st' e He. inversion He; subst. simpl.
        repeat split. eexists. reflexivity.
      * intros err text Herr. discriminate.
      * intros req Hreq. elem_of_concrete Hreq; try discriminate.
        inversion Hreq. reflexivity.
  - unfold ret. simpl. split; [|split; [|split]].
    + intros data Hdata. discriminate.
    + intros st' e He. inversion He; subst. simpl.
      repeat split. eexists. reflexivity.
    + intros err' text Herr Hdetail Htext. inversion Herr; subst err'.
      apply String.eqb_neq in Htext.
      unfold AuthApi.auth_failure. rewrite Hdetail. simpl. rewrite Htext. simpl.
      unfold or_else. simpl. rewrite Htext. simpl.
      eexists. split; reflexivity.
    + intros req Hreq. elem_of_concrete Hreq; try discriminate.
      inversion Hreq. reflexivity.
Qed.

End AuthFacts.


Lemma login_outcome_witness :
  exists st',
    result (AuthContext.login PagesDemo.auth_server "ada@example.org" "secret"
              AuthContext.initial RunnerDemo.store) = Ok (st', None)
    /\ AuthContext.authorization st' = Some (AuthContext.bearer "t0k3n").
Proof.
  destruct (proj1 (login_outcome PagesDemo.auth_server "ada@example.org"
                     "secret" AuthContext.initial RunnerDemo.store)
              _ eq_refl eq_refl eq_refl)
    as (st' & Hres & _ & Hauth & _).
  exists st'. split; [exact Hres | exact Hauth].
Defined.

Lemma stored_token_None_delete s :
  stored_token (mkStore (delete "authToken" (items s)) (writable s)) = None.
Proof. unfold stored_token. simpl. rewrite lookup_delete_eq. reflexivity. Qed.

Lemma stored_token_Some s t :
  stored_token s = Some t <-> items s !! "authToken" = Some t /\ t <> "".
Proof.
  unfold stored_token. destruct (items s !! "authToken") as [t'|].
  - destruct (String.eqb_spec t' ""); split.
    + discriminate.
    + intros [H Hne]. inversion H; subst. contradiction.
    + intros H. inversion H; subst. auto.
    + intros [H _]. exact H.
  - split; [discriminate | intros [H _]; discriminate].
Qed.

(** A visitor who is not signed in ends on the login page, or on the
    register page when that is the location opened. *)
Lemma visitor_routes p :
  App.follow 2 VNull false p
  = App.Show (match p with
              | App.register_path => App.RegisterPage
              | _ => App.LoginPage
              end).
Proof. destruct p; reflexivity. Qed.

Section SignOutFacts.

Variable window_confirm : string -> bool.

(** X13.  Signing out.  [handleLogout] asks first; declined, it changes
    nothing and goes nowhere.  Confirmed, it removes the stored token and
    nothing else from the store (a saved attempt stays), clears the user and
    the default header, so that the headers of a later call carry no token,
    goes to the login location, and from then on every location ends on the
    login or the register page. *)
Theorem logout_clears (st : AuthContext.State) (s : Store) :
  let r := AuthContext.handleLogout window_confirm st s in
  (window_confirm AuthContext.logout_prompt = false ->
   r = mkRun (Ok st) s [EConfirm AuthContext.logout_prompt])
  /\ (window_confirm AuthContext.logout_prompt = true ->
      exists st',
        result r = Ok st'
        /\ AuthContext.user st' = VNull
        /\ AuthContext.authorization st' = None
        /\ AuthContext.notifications st'
           = AuthContext.notifications st
             ++ [("info", VString "You have been logged out.")]
        /\ events r = [EConfirm AuthContext.logout_prompt;
                       ERemoveItem "authToken"; ENavigate "/login"]
        /\ items (store r) !! "authToken" = None
        /\ (forall k, k <> "authToken" -> items (store r) !! k = items s !! k)
        /\ getAuthHeaders (store r) = mkRun (Ok None) (store r) []
        /\ (forall p,
              App.follow 2 (AuthContext.user st') false p = App.Show App.LoginPage
              \/ App.follow 2 (AuthContext.user st') false p
                 = App.Show App.RegisterPage)).
Proof.
  cbv zeta.
  unfold AuthContext.handleLogout, AuthContext.logout, ExamRunner.confirm,
    localStorage_removeItem, bind, emit, ret.
  destruct (window_confirm AuthContext.logout_prompt); simpl.
  - split; [discriminate|]. intros _. eexists. split; [reflexivity|]. simpl.
    split; [reflexivity|]. split; [reflexivity|]. split; [reflexivity|].
    split; [reflexivity|]. split; [apply lookup_delete_eq|].
    split; [intros k Hk; apply lookup_delete_ne; congruence|].
    split.
    + unfold getAuthHeaders, localStorage_getItem, bind, ret. simpl.
      rewrite lookup_delete_eq. reflexivity.
    + intros p. destruct p; auto.
  - split; [reflexivity | discriminate].
Qed.

End SignOutFacts.

Lemma logout_clears_witness :
  exists st',
    result (AuthContext.handleLogout RunnerDemo.confirm_yes AuthContext.initial
              RunnerDemo.store) = Ok st'
    /\ AuthContext.user st' = VNull.
Proof.
  destruct (proj2 (logout_clears RunnerDemo.confirm_yes AuthContext.initial
                     RunnerDemo.store) eq_refl)
    as (st' & Hres & Huser & _).
  exists st'. split; assumption.
Defined.

Section RestoreFacts.

Variable JSON_parse : string -> option value.
Variable atob : string -> option string.
Variable server : Request -> Reply.

(** X14.  Restoring the user when the application loads.  Without a stored
    token nothing is requested and nothing changes but the end of loading.
    With one, [/users/me] is asked with that token.  A body that is a user
    is taken as the user; when the call is rejected and the token decodes,
    the user is the one built from the token, whose role is [admin] or
    [student], so that every location settles.  In these cases the token
    stays and the default header is [Bearer] and the token.  In the other
    cases the token is removed, no default header remains and the user is
    as before.  Loading has ended in every case. *)
Theorem restore_outcome (st : AuthContext.State) (s : Store) :
  let r := AuthContext.restore JSON_parse atob server st s in
  let me t := mkRequest GET "/users/me" VUndefined (Some t) in
  exists st',
    result r = Ok st'
    /\ AuthContext.isLoading st' = false
    /\ AuthContext.notifications st' = AuthContext.notifications st
    /\ (stored_token s = None ->
        st' = AuthContext.set_isLoading false st /\ store r = s /\ events r = [])
    /\ (forall t data,
          stored_token s = Some t -> server (me t) = Resolved data ->
          events r !! 0%nat = Some (ERequest (me t))
          /\ if truthy data
             then AuthContext.user st' = data
                  /\ AuthContext.authorization st' = Some (AuthContext.bearer t)
                  /\ store r = s
             else AuthContext.user st' = AuthContext.user st
                  /\ AuthContext.authorization st' = None
                  /\ items (store r) !! "authToken" = None)
    /\ (forall t err,
          stored_token s = Some t -> server (me t) = Rejected err ->
          events r !! 0%nat = Some (ERequest (me t))
          /\ if truthy (decodeTokenLocal JSON_parse atob t)
             then (eq_string (prop (AuthContext.user st') "role") "admin" = true
                   \/ eq_string (prop (AuthContext.user st') "role") "student"
                      = true)
                  /\ (forall p, App.is_navigate
                                  (App.follow 2 (AuthContext.user st') false p)
                                = false)
                  /\ AuthContext.authorization st' = Some (AuthContext.bearer t)
                  /\ store r = s
             else AuthContext.user st' = AuthContext.user st
                  /\ AuthContext.authorization st' = None
                  /\ items (store r) !! "authToken" = None).
Proof.
  cbv zeta. unfold AuthContext.restore, localStorage_getItem, bind.
  unfold stored_token.
  destruct (items s !! "authToken") as [t|] eqn:Htok; simpl.
  2:{ eexists. split; [reflexivity|]. repeat split; discriminate. }
  destruct (String.eqb t "") eqn:Hempty; simpl.
  { eexists. split; [reflexivity|]. repeat split; discriminate. }
  unfold getCurrentUser, try_catch, bind, axios, emit, ret.
  rewrite Hempty.
  destruct (server (mkRequest GET "/users/me" VUndefined (Some t)))
    as [data|err] eqn:Hsrv; simpl.
  - destruct (truthy data) eqn:Hd; simpl.
    + eexists. split; [reflexivity|]. simpl.
      split; [reflexivity|]. split; [reflexivity|]. split; [discriminate|].
      split.
      * intros t' data' Ht' Hdata'. inversion Ht'; subst t'.
        rewrite Hsrv in Hdata'. inversion Hdata'; subst data'.
        rewrite Hd. auto.
      * intros t' err' Ht' Herr'. inversion Ht'; subst t'.
        rewrite Hsrv in Herr'. discriminate.
    + unfold localStorage_removeItem. simpl.
      eexists. split; [reflexivity|]. simpl.
      split; [reflexivity|]. split; [reflexivity|]. split; [discriminate|].
      split.
      * intros t' data' Ht' Hdata'. inversion Ht'; subst t'.
        rewrite Hsrv in Hdata'. inversion Hdata'; subst data'.
        rewrite Hd. split; [reflexivity|]. split; [reflexivity|].
        split; [reflexivity|]. apply lookup_delete_eq.
      * intros t' err' Ht' Herr'. inversion Ht'; subst t'.
        rewrite Hsrv in Herr'. discriminate.
  - destruct (truthy (decodeTokenLocal JSON_parse atob t)) eqn:Hdec; simpl.
    + eexists. split; [reflexivity|]. simpl.
      split; [reflexivity|]. split; [reflexivity|]. split; [discriminate|].
      split.
      * intros t' data' Ht' Hdata'. inversion Ht'; subst t'.
        rewrite Hsrv in Hdata'. discriminate.
      * intros t' err' Ht' Herr'. inversion Ht'; subst t'.
        rewrite Hdec. split; [reflexivity|].
        assert (Hrole :
          eq_string (VString (if eq_string
                                   (prop (decodeTokenLocal JSON_parse atob t) "role")
                                   "admin"
                              then "admin" else "student")) "admin" = true
          \/ eq_string (VString (if eq_string
                                      (prop (decodeTokenLocal JSON_parse atob t) "role")
                                      "admin"
                                 then "admin" else "student")) "student" = true).
        { destruct (eq_string (prop (decodeTokenLocal JSON_parse atob t) "role")
                      "admin"); [left | right]; reflexivity. }
        split; [exact Hrole|]. split; [|split; reflexivity].
        intros p.
        match goal with
        | |- context [App.route ?u false p] =>
            change (App.is_navigate (App.follow 2 u false p) = false);
            apply (proj1 (routes_settle_steps u false p (or_intror Hrole) O))
        end.
    + unfold localStorage_removeItem. simpl.
      eexists. split; [reflexivity|]. simpl.
      split; [reflexivity|]. split; [reflexivity|]. split; [discriminate|].
      split.
      * intros t' data' Ht' Hdata'. inversion Ht'; subst t'.
        rewrite Hsrv in Hdata'. discriminate.
      * intros t' err' Ht' Herr'. inversion Ht'; subst t'.
        rewrite Hdec. split; [reflexivity|]. split; [reflexivity|].
        split; [reflexivity|]. apply lookup_delete_eq.
Qed.

End RestoreFacts.


Lemma restore_outcome_witness :
  exists st',
    result (AuthContext.restore RunnerDemo.parse_token RunnerDemo.decode64
              RunnerDemo.server_down AuthContext.initial RunnerDemo.store)
    = Ok st'
    /\ AuthContext.isLoading st' = false.
Proof.
  destruct (restore_outcome RunnerDemo.parse_token RunnerDemo.decode64
              RunnerDemo.server_down AuthContext.initial RunnerDemo.store)
    as (st' & Hres & Hload & _).
  exists st'. split; assumption.
Defined.

Lemma api_login_store server email password s :
  store (AuthApi.login server email password s) = s.
Proof.
  rewrite api_login_run.
  destruct (server _); [destruct (AuthApi.login_body_ok _)|]; reflexivity.
Qed.

Lemma api_register_store server name email password s :
  store (AuthApi.register server name email password s) = s.
Proof.
  unfold AuthApi.register, try_catch, bind, axios, ret, throw.
  destruct (server (mkRequest POST "/auth/register" _ None)) as [data|err];
    simpl; [|reflexivity].
  destruct (truthy data); simpl; [|reflexivity].
  destruct (truthy (prop data "id")); simpl; [|reflexivity].
  destruct (truthy (prop data "email")); simpl; [|reflexivity].
  destruct (truthy (prop data "token")); simpl; [reflexivity|].
  destruct (server (mkRequest POST "/auth/login" _ None)) as [loginData|err];
    simpl; [|reflexivity].
  destruct (truthy loginData); simpl; [|reflexivity].
  destruct (truthy (prop loginData "user")); simpl; [|reflexivity].
  destruct (truthy (prop loginData "token")); simpl; reflexivity.
Qed.




Section CoherenceFacts.

Variable JSON_parse : string -> option value.
Variable JSON_stringify : value -> option string.
Variable atob : string -> option string.
Variable server : Request -> Reply.
Variable Date_getTime : value -> option Z.
Variable Date_now : Z.


End CoherenceFacts.


Lemma new_Error_message detail :
  new_Error detail = new_Error (VString (to_string detail)).
Proof. reflexivity. Qed.

(** X16.  [login] and [register] of the API layer either resolve with a
    user and a token that are both present, or reject with an error that
    carries a message; they leave the store alone.  [login] sends the one
    login request; [register] sends the register request and, exactly when
    the answer has an id and an email but no token, the login request after
    it.  Neither call passes a token of its own. *)
Theorem auth_api_contract
    (server : Request -> Reply) (name email password : string) (s : Store) :
  let answered (r : Run AuthApi.AuthResponse) :=
    match result r with
    | Ok res => truthy (AuthApi.res_user res) = true
                /\ truthy (AuthApi.res_token res) = true
    | Throw e => exists text, e = new_Error (VString text)
    end in
  let l := AuthApi.login server email password s in
  let r := AuthApi.register server name email password s in
  let registered :=
    match server (AuthApi.register_request name email password) with
    | Resolved data =>
        truthy data && truthy (prop data "id") && truthy (prop data "email")
        && negb (truthy (prop data "token"))
    | Rejected _ => false
    end in
  answered l /\ store l = s
  /\ events l = [ERequest (AuthApi.login_request email password)]
  /\ answered r /\ store r = s
  /\ events r
     = ERequest (AuthApi.register_request name email password)
       :: (if registered
           then [ERequest (AuthApi.login_request email password)] else [])
  /\ req_token (AuthApi.login_request email password) = None
  /\ req_token (AuthApi.register_request name email password) = None.
Proof.
  cbv zeta.
  split; [|split; [apply api_login_store|split]].
  - rewrite api_login_run. unfold AuthApi.login_body_ok.
    destruct (server _) as [data|err]; simpl.
    + destruct (truthy data); simpl; [|eexists; reflexivity].
      destruct (truthy (prop data "user")) eqn:Hu; simpl; [|eexists; reflexivity].
      destruct (truthy (prop data "token")) eqn:Ht; simpl;
        [auto | eexists; reflexivity].
    + apply auth_failure_message.
  - rewrite api_login_run.
    destruct (server _) as [data|err];
      [destruct (AuthApi.login_body_ok data)|]; reflexivity.
  - split; [|split; [apply api_register_store|split; [|split; reflexivity]]].
    + unfold AuthApi.register, AuthApi.register_request, try_catch, bind, axios,
        ret, throw.
      destruct (server (mkRequest POST "/auth/register" _ None)) as [data|err];
        simpl; [|apply auth_failure_message].
      destruct (truthy data) eqn:Hd; simpl; [|eexists; reflexivity].
      destruct (truthy (prop data "id")); simpl; [|eexists; reflexivity].
      destruct (truthy (prop data "email")); simpl; [|eexists; reflexivity].
      destruct (truthy (prop data "token")) eqn:Ht; simpl; [auto|].
      destruct (server (mkRequest POST "/auth/login" _ None))
        as [loginData|err]; simpl; [|apply auth_failure_message].
      destruct (truthy loginData); simpl; [|eexists; reflexivity].
      destruct (truthy (prop loginData "user")) eqn:Hlu; simpl;
        [|eexists; reflexivity].
      destruct (truthy (prop loginData "token")) eqn:Hlt; simpl;
        [auto | eexists; reflexivity].
    + unfold AuthApi.register, AuthApi.register_request, AuthApi.login_request,
        try_catch, bind, axios, ret, throw.
      destruct (server (mkRequest POST "/auth/register" _ None)) as [data|err];
        simpl; [|reflexivity].
      destruct (truthy data); simpl; [|reflexivity].
      destruct (truthy (prop data "id")); simpl; [|reflexivity].
      destruct (truthy (prop data "email")); simpl; [|reflexivity].
      destruct (truthy (prop data "token")); simpl; [reflexivity|].
      destruct (server (mkRequest POST "/auth/login" _ None))
        as [loginData|err]; simpl; [|reflexivity].
      destruct (truthy loginData); simpl; [|reflexivity].
      destruct (truthy (prop loginData "user")); simpl; [|reflexivity].
      destruct (truthy (prop loginData "token")); simpl; reflexivity.
Qed.

(** ** The student dashboard *)

Lemma get_nullish data k : is_Some (get data k) <-> nullish data = false.
Proof.
  destruct data; simpl; split; intros H; try reflexivity; try discriminate;
    try (eexists; reflexivity); destruct H; discriminate.
Qed.

Section StartFacts.

Variable server : Request -> Reply.
Variable Date_getTime : value -> option Z.
Variable Date_now : Z.

(** X17.  The Start button.  [handleStart] sends the one start request of
    the exam, with the stored token, and leaves the store alone.  It goes to
    the runner of that exam exactly when the request is answered with a body
    that is not null; when the request is rejected it goes nowhere and
    alerts, showing the [detail] text of the rejection when there is one.
    Either way the exam is no longer marked as starting afterwards. *)
Theorem start_outcome
    (uid examId : string) (startingMap : gmap string bool) (s : Store) :
  let r := Dashboard.handleStart server Date_getTime Date_now (Some uid) examId
             startingMap s in
  result r = Ok (<[examId := false]> startingMap)
  /\ store r = s
  /\ events r !! 0%nat = Some (ERequest (start_request examId s))
  /\ (forall req, ERequest req ∈ events r -> req = start_request examId s)
  /\ (ENavigate (Dashboard.runner_path examId) ∈ events r
      <-> exists data, server (start_request examId s) = Resolved data
                       /\ nullish data = false)
  /\ (forall data,
        server (start_request examId s) = Resolved data -> nullish data = false ->
        events r = [ERequest (start_request examId s);
                    ENavigate (Dashboard.runner_path examId)])
  /\ (forall err,
        server (start_request examId s) = Rejected err ->
        exists msg,
          events r = [ERequest (start_request examId s);
                      EConsoleError "Failed to start exam"; EAlert msg]
          /\ forall text,
               prop (response_data err) "detail" = VString text -> text <> "" ->
               msg = text).
Proof.
  cbv zeta.
  unfold Dashboard.handleStart, Dashboard.startExamSession, try_catch, bind,
    getAuthHeaders, localStorage_getItem, axios, emit, ret, throw, start_request,
    stored_token.
  simpl.
  destruct (server _) as [data|err] eqn:Hsrv; simpl.
  - destruct (get data "exam_id") as [v|] eqn:Hget; simpl.
    + assert (Hnn : nullish data = false)
        by (apply (get_nullish data "exam_id"); rewrite Hget; eexists; reflexivity).
      split; [f_equal; apply insert_insert_eq|]. split; [reflexivity|].
      split; [reflexivity|].
      split; [intros req Hreq; elem_of_concrete Hreq; try discriminate;
              inversion Hreq; reflexivity|].
      split; [split|split].
      * intros _. exists data. auto.
      * intros _. apply list_elem_of_further, list_elem_of_here.
      * intros data' Hd _. reflexivity.
      * intros err Herr. discriminate.
    + assert (Hnn : nullish data = true).
      { destruct (nullish data) eqn:Hn; [reflexivity|].
        apply (get_nullish data "exam_id") in Hn. rewrite Hget in Hn.
        destruct Hn; discriminate. }
      split; [f_equal; apply insert_insert_eq|]. split; [reflexivity|].
      split; [reflexivity|].
      split; [intros req Hreq; elem_of_concrete Hreq; try discriminate;
              inversion Hreq; reflexivity|].
      split; [split|split].
      * intros Hin. elem_of_concrete Hin; discriminate.
      * intros (data' & Hd & Hn). inversion Hd; subst. congruence.
      * intros data' Hd Hn. inversion Hd; subst. congruence.
      * intros err Herr. discriminate.
  - split; [f_equal; apply insert_insert_eq|]. split; [reflexivity|].
    split; [reflexivity|].
    split; [intros req Hreq; elem_of_concrete Hreq; try discriminate;
            inversion Hreq; reflexivity|].
    split; [split|split].
    + intros Hin. elem_of_concrete Hin; discriminate.
    + intros (data' & Hd & _). discriminate.
    + intros data' Hd. discriminate.
    + intros err' Herr. inversion Herr; subst err'.
      eexists. split; [reflexivity|].
      intros text Hdetail Htext. rewrite Hdetail.
      apply String.eqb_neq in Htext.
      unfold or_else, new_Error. simpl.
      repeat (rewrite ?Htext; simpl). reflexivity.
Qed.

End StartFacts.


Lemma start_outcome_witness :
  events (Dashboard.handleStart RunnerDemo.server_up RunnerDemo.getTime
            RunnerDemo.now (Some "u1") "e1" ∅ RunnerDemo.store)
  = [ERequest (start_request "e1" RunnerDemo.store);
     ENavigate (Dashboard.runner_path "e1")].
Proof.
  apply (proj1 (proj2 (proj2 (proj2 (proj2 (proj2
           (start_outcome RunnerDemo.server_up RunnerDemo.getTime
              RunnerDemo.now "u1" "e1" ∅ RunnerDemo.store))))))
         _ eq_refl eq_refl).
Defined.

Section CardFacts.

Variable JSON_parse : string -> option value.
Variable StringToNumber : string -> option Z.
Variable Date_parse : string -> Date.

Lemma isActive_window clock exam :
  Dashboard.isActive Date_parse clock exam = true
  <-> exists start end_,
        Date_parse (exam_start_time exam) = Some start
        /\ Date_parse (exam_end_time exam) = Some end_
        /\ start <= clock <= end_.
Proof.
  unfold Dashboard.isActive, Dashboard.date_ge, date_le.
  destruct (Date_parse (exam_start_time exam)) as [a|];
    destruct (Date_parse (exam_end_time exam)) as [b|]; simpl.
  - rewrite andb_true_iff, !Z.leb_le. split.
    + intros [H1 H2]. exists a, b. auto.
    + intros (a' & b' & Ha & Hb & H). inversion Ha; inversion Hb; subst. lia.
  - split; [intros H; rewrite andb_false_r in H; discriminate|].
    intros (a' & b' & _ & Hb & _). discriminate.
  - split; [discriminate|]. intros (a' & b' & Ha & _). discriminate.
  - split; [discriminate|]. intros (a' & b' & Ha & _). discriminate.
Qed.

(** A card that offers something is the card of an exam whose window is
    open, and it shows the label of the exam. *)
Lemma exam_card_offer m startingMap user_id clock exam :
  let card := Dashboard.exam_card Date_parse m startingMap user_id clock exam in
  (Dashboard.isActive Date_parse clock exam = false ->
   card = Dashboard.NotStartedYet \/ card = Dashboard.Expired)
  /\ (forall link, card = Dashboard.Resume link ->
        Dashboard.isActive Date_parse clock exam = true
        /\ m !! exam_id exam = Some resumable
        /\ link = Dashboard.runner_path (exam_id exam))
  /\ (forall b, card = Dashboard.Start b ->
        Dashboard.isActive Date_parse clock exam = true
        /\ m !! exam_id exam = None).
Proof.
  cbv zeta. unfold Dashboard.exam_card.
  destruct (Dashboard.isActive Date_parse clock exam).
  - split; [discriminate|].
    destruct (m !! exam_id exam) as [[|]|]; split; intros x Hx;
      try discriminate; inversion Hx; auto.
  - split.
    + intros _. destruct (Dashboard.date_lt _ _); auto.
    + destruct (Dashboard.date_lt _ _); split; intros x Hx; discriminate.
Qed.

(** X18.  An exam that the batched results report as submitted, for this
    exam and this student, cannot be started or resumed from the dashboard:
    whenever the card is drawn, it offers neither Start nor Resume; inside
    the exam's window it shows Submitted with the link to the result of this
    exam and student, outside it shows a disabled button. *)
Theorem submitted_exam_card
    (rs1 rs2 : list value) (r : value) (ls : Storage) (userId : string)
    (clock : Z) (exams : list Exam) (e : Exam) :
  NoDup (exam_id <$> exams) -> e ∈ exams ->
  record_matches r (exam_id e) userId ->
  Forall (fun x => ~ record_matches x (exam_id e) userId) rs2 ->
  prop r "status" = VString "submitted" ->
  let m := build_status_map JSON_parse StringToNumber Date_parse
             (rs1 ++ r :: rs2) ls userId clock exams in
  forall (render : Z) (startingMap : gmap string bool),
    let card := Dashboard.exam_card Date_parse m startingMap (Some userId)
                  render e in
    (forall b, card <> Dashboard.Start b)
    /\ (forall link, card <> Dashboard.Resume link)
    /\ (Dashboard.isActive Date_parse render e = true ->
        card = Dashboard.Submitted ("/result/" +:+ exam_id e +:+ "/" +:+ userId))
    /\ (Dashboard.isActive Date_parse render e = false ->
        card = Dashboard.NotStartedYet \/ card = Dashboard.Expired).
Proof.
  intros Hnd He Hr Hrs2 Hst m render startingMap card.
  assert (Hm : m !! exam_id e = Some submitted_label).
  { subst m. rewrite (build_status_map_lookup _ _ _ _ _ _ _ _ _ Hnd He).
    rewrite (label_exam_server_record _ _ _ _ _ _ _ _ r
               (index_results_last userId rs1 r rs2 (exam_id e) Hr Hrs2) Hr).
    rewrite Hst. reflexivity. }
  pose proof (exam_card_offer m startingMap (Some userId) render e)
    as (Hout & Hres & Hstart).
  cbv zeta in Hout, Hres, Hstart. fold card in Hout, Hres, Hstart.
  split; [|split; [|split]].
  - intros b Hb. destruct (Hstart b Hb) as [_ Hnone]. congruence.
  - intros link Hl. destruct (Hres link Hl) as (_ & Hlab & _). congruence.
  - intros Hact. subst card. unfold Dashboard.exam_card.
    rewrite Hact, Hm. reflexivity.
  - exact Hout.
Qed.

Lemma gt_number_seconds_left sess :
  gt_number StringToNumber (prop sess "remainingSeconds" ?? VNumber 0) 0 = true ->
  seconds_left StringToNumber sess.
Proof.
  unfold gt_number, seconds_left.
  destruct (to_number StringToNumber _) as [n|]; [|discriminate].
  intros H. exists n. split; [reflexivity|]. apply Z.ltb_lt, H.
Qed.

(** X19.  A Resume link on a card is backed by an attempt that can be
    resumed: the link leads to the runner of this exam, the exam's window is
    open when the card is drawn, and when the dashboard loaded either the
    batched results held a record of this exam and student that is not
    submitted and has seconds left, or no usable record was found and the
    local cache held an accepted entry under this exam's and student's
    key. *)
Theorem resume_card_justified
    (rs : list value) (ls : Storage) (userId : string) (clock : Z)
    (exams : list Exam) (e : Exam) (startingMap : gmap string bool)
    (user_id : option string) (render : Z) (link : string) :
  NoDup (exam_id <$> exams) -> e ∈ exams ->
  Dashboard.exam_card Date_parse
    (build_status_map JSON_parse StringToNumber Date_parse rs ls userId clock
       exams)
    startingMap user_id render e = Dashboard.Resume link ->
  link = Dashboard.runner_path (exam_id e)
  /\ (exists start end_,
        Date_parse (exam_start_time e) = Some start
        /\ Date_parse (exam_end_time e) = Some end_
        /\ start <= render <= end_)
  /\ ((exists sess,
         index_results userId rs !! exam_id e = Some sess
         /\ record_matches sess (exam_id e) userId
         /\ prop sess "status" <> VString "submitted"
         /\ seconds_left StringToNumber sess
         /\ date_le (Some clock) (Date_parse (exam_end_time e)) = true)
      \/ (valid_server_record (index_results userId rs) (exam_id e) userId = None
          /\ exists raw localSess,
               ls !! session_key (exam_id e) userId = Some raw /\ raw <> ""
               /\ JSON_parse raw = Some localSess
               /\ EntryAccepted localSess (exam_id e) userId (Some clock)
                    (Date_parse (exam_end_time e)))).
Proof.
  intros Hnd He Hcard.
  pose proof (exam_card_offer
                (build_status_map JSON_parse StringToNumber Date_parse rs ls
                   userId clock exams)
                startingMap user_id render e) as (_ & Hres & _).
  cbv zeta in Hres. destruct (Hres link Hcard) as (Hact & Hlab & Hlink).
  split; [exact Hlink|]. split; [apply isActive_window, Hact|].
  rewrite (build_status_map_lookup _ _ _ _ _ _ _ _ _ Hnd He) in Hlab.
  destruct (valid_server_record (index_results userId rs) (exam_id e) userId)
    as [sess|] eqn:Hvalid.
  - left. unfold valid_server_record in Hvalid.
    destruct (index_results userId rs !! exam_id e) as [sess'|] eqn:Hlook;
      [|discriminate].
    destruct (truthy sess' && isServerSessionValid sess' (exam_id e) userId);
      [|discriminate].
    inversion Hvalid; subst sess'.
    pose proof (index_results_sound _ _ _ _ Hlook) as Hmatch.
    rewrite (label_exam_server_record _ _ _ _ _ _ _ _ sess Hlook Hmatch) in Hlab.
    exists sess. split; [reflexivity|]. split; [exact Hmatch|].
    destruct (eq_string (prop sess "status") "submitted") eqn:Hst;
      [discriminate|].
    apply eq_string_false in Hst. split; [exact Hst|].
    destruct (gt_number StringToNumber _ 0) eqn:Hgt; [|discriminate].
    destruct (date_le _ _) eqn:Hle; [|discriminate].
    split; [apply gt_number_seconds_left, Hgt | reflexivity].
  - right. split; [reflexivity|].
    rewrite (label_exam_no_server_record _ _ _ _ _ _ _ _ Hvalid) in Hlab.
    apply local_fallback_resumable in Hlab. exact Hlab.
Qed.

End CardFacts.


Lemma submitted_exam_card_witness :
  Dashboard.exam_card PagesDemo.date
    (build_status_map Demo.parse Demo.no_number PagesDemo.date
       ([Demo.foreign_record] ++ PagesDemo.submitted_record :: [])
       Demo.storage "u1" Demo.clock [Demo.exam])
    ∅ (Some "u1") Demo.clock Demo.exam
  = Dashboard.Submitted "/result/e1/u1".
Proof.
  assert (Hnd : NoDup (exam_id <$> [Demo.exam])) by (apply NoDup_singleton).
  assert (Hin : Demo.exam ∈ [Demo.exam]) by (apply list_elem_of_here).
  assert (Hm : record_matches PagesDemo.submitted_record (exam_id Demo.exam) "u1")
    by (repeat split; reflexivity).
  apply (proj1 (proj2 (proj2
           (submitted_exam_card Demo.parse Demo.no_number PagesDemo.date
              [Demo.foreign_record] [] PagesDemo.submitted_record Demo.storage
              "u1" Demo.clock [Demo.exam] Demo.exam Hnd Hin Hm (Forall_nil_2 _)
              eq_refl Demo.clock ∅)))).
  reflexivity.
Defined.

Lemma resume_card_justified_witness :
  exists start end_,
    PagesDemo.date (exam_start_time Demo.exam) = Some start
    /\ PagesDemo.date (exam_end_time Demo.exam) = Some end_
    /\ start <= Demo.clock <= end_.
Proof.
  assert (Hnd : NoDup (exam_id <$> [Demo.exam])) by (apply NoDup_singleton).
  assert (Hin : Demo.exam ∈ [Demo.exam]) by (apply list_elem_of_here).
  apply (proj1 (proj2
           (resume_card_justified Demo.parse Demo.no_number PagesDemo.date
              [Demo.own_record] Demo.storage "u1" Demo.clock [Demo.exam]
              Demo.exam ∅ (Some "u1") Demo.clock "/student/exam/e1"
              Hnd Hin ltac:(vm_compute; reflexivity)))).
Defined.

(** ** Reading exams and questions *)

Section ReadFacts.

Variable server : Request -> Reply.

Lemma fetchExams_run role s :
  exists res,
    ExamApi.fetchExams server role s
    = mkRun res s [ERequest (exams_request role s)]
    /\ match res with
       | Ok mapped =>
           exists xs, server (exams_request role s) = Resolved (VArray xs)
                      /\ mapM ExamApi.map_exam xs = Some mapped
       | Throw e => exists text, e = new_Error (VString text)
       end.
Proof.
  unfold ExamApi.fetchExams, exams_request, try_catch, bind, getAuthHeaders,
    localStorage_getItem, axios, ret, throw, stored_token.
  simpl.
  destruct (server _) as [data|err]; simpl.
  - destruct data as [| | | | |xs|]; simpl;
      try (eexists; split; [reflexivity|]; eexists; reflexivity).
    destruct (mapM ExamApi.map_exam xs) as [mapped|] eqn:Hmap; simpl.
    + eexists. split; [reflexivity|]. exists xs. auto.
    + eexists. split; [reflexivity|]. eexists. reflexivity.
  - eexists. split; [reflexivity|]. eexists. reflexivity.
Qed.

Lemma fetchAllQuestions_run s :
  exists res,
    ExamApi.fetchAllQuestions server s = mkRun res s [ERequest questions_request]
    /\ match res with
       | Ok items =>
           exists data total,
             server questions_request = Resolved data
             /\ prop data "items" = VArray items
             /\ prop data "total" = VNumber total
       | Throw e => exists text, e = new_Error (VString text)
       end.
Proof.
  unfold ExamApi.fetchAllQuestions, ExamApi.fetchQuestions, questions_request,
    try_catch, bind, axios, ret, throw.
  simpl.
  destruct (server _) as [data|err]; simpl.
  - destruct (truthy data) eqn:Hd; simpl.
    + destruct (prop data "items") as [| | | | |items|] eqn:Hi; simpl;
        try (eexists; split; [reflexivity|]; eexists; reflexivity).
      destruct (prop data "total") as [| | |total| | |] eqn:Ht; simpl;
        try (eexists; split; [reflexivity|]; eexists; reflexivity).
      eexists. split; [reflexivity|]. exists data, total. auto.
    + eexists. split; [reflexivity|]. eexists. reflexivity.
  - eexists. split; [reflexivity|]. eexists. reflexivity.
Qed.

(** The two calls on a well-formed answer. *)
Lemma fetchExams_resolved role s xs mapped :
  server (exams_request role s) = Resolved (VArray xs) ->
  mapM ExamApi.map_exam xs = Some mapped ->
  ExamApi.fetchExams server role s
  = mkRun (Ok mapped) s [ERequest (exams_request role s)].
Proof.
  intros Hsrv Hmap.
  unfold ExamApi.fetchExams, try_catch, bind, getAuthHeaders,
    localStorage_getItem, axios, ret, throw.
  simpl. unfold exams_request, stored_token in Hsrv. rewrite Hsrv. simpl.
  rewrite Hmap. reflexivity.
Qed.

Lemma fetchAllQuestions_resolved s data items total :
  server questions_request = Resolved data ->
  prop data "items" = VArray items -> prop data "total" = VNumber total ->
  ExamApi.fetchAllQuestions server s
  = mkRun (Ok items) s [ERequest questions_request].
Proof.
  intros Hsrv Hitems Htotal.
  unfold ExamApi.fetchAllQuestions, ExamApi.fetchQuestions, try_catch, bind,
    axios, ret, throw.
  simpl. unfold questions_request in Hsrv. simpl in Hsrv. rewrite Hsrv. simpl.
  destruct (truthy data) eqn:Hd.
  - rewrite Hitems, Htotal. reflexivity.
  - rewrite (prop_falsy data "items" Hd) in Hitems. discriminate.
Qed.

End ReadFacts.

(** ** The exam form *)

Lemma map_exam_Some e : is_Some (ExamApi.map_exam e) <-> nullish e = false.
Proof.
  unfold ExamApi.map_exam. rewrite <- (get_nullish e "id").
  destruct (get e "id"); split; intros [x Hx]; try discriminate;
    eexists; reflexivity.
Qed.

Lemma field_set_field_eq k v d :
  ExamManager.field (RunnerView.set_field k v d) k = v.
Proof.
  unfold ExamManager.field, prop. simpl. rewrite lookup_set_field_eq. reflexivity.
Qed.

Lemma field_set_field_ne k k0 v d :
  k0 <> k -> ExamManager.field (RunnerView.set_field k v d) k0 = ExamManager.field d k0.
Proof.
  intros Hne. unfold ExamManager.field, prop. simpl.
  rewrite (lookup_set_field_ne k k0 v d Hne). reflexivity.
Qed.

Section ExamFormFacts.

Variable server : Request -> Reply.
Variable Date_getTime : value -> option Z.

(** Saving the form is one request; it resolves exactly when the request is
    answered with a body that is not null. *)
Lemma save_form_run st s :
  exists res,
    ExamManager.save_form server st s
    = mkRun res s [ERequest (ExamManager.save_request st s)]
    /\ match res with
       | Ok text =>
           (exists data, server (ExamManager.save_request st s) = Resolved data
                         /\ nullish data = false)
           /\ text = (if truthy (ExamManager.editingId st)
                      then "Exam updated successfully"
                      else "Exam created successfully")
       | Throw e =>
           (exists text, e = new_Error (VString text))
           /\ (forall data, server (ExamManager.save_request st s) = Resolved data ->
                            nullish data = true)
       end.
Proof.
  unfold ExamManager.save_form, ExamManager.save_request.
  destruct (truthy (ExamManager.editingId st)).
  - unfold ExamManager.updateExam, try_catch, bind, getAuthHeaders,
      localStorage_getItem, axios, ret, throw, stored_token.
    rewrite field_set_field_eq. simpl.
    destruct (server _) as [data|err] eqn:Hsrv; simpl.
    + destruct (ExamApi.map_exam data) as [mapped|] eqn:Hmap; simpl.
      * eexists. split; [reflexivity|]. split; [|reflexivity].
        exists data. split; [reflexivity|].
        apply map_exam_Some. rewrite Hmap. eexists; reflexivity.
      * eexists. split; [reflexivity|]. split; [eexists; reflexivity|].
        intros data' Hd. inversion Hd; subst data'.
        destruct (nullish data) eqn:Hn; [reflexivity|].
        apply map_exam_Some in Hn. rewrite Hmap in Hn. destruct Hn; discriminate.
    + eexists. split; [reflexivity|]. split; [eexists; reflexivity|].
      intros data Hd. discriminate.
  - unfold ExamManager.createExam, try_catch, bind, getAuthHeaders,
      localStorage_getItem, axios, ret, throw, stored_token.
    simpl.
    destruct (server _) as [data|err] eqn:Hsrv; simpl.
    + destruct (ExamApi.map_exam data) as [mapped|] eqn:Hmap; simpl.
      * eexists. split; [reflexivity|]. split; [|reflexivity].
        exists data. split; [reflexivity|].
        apply map_exam_Some. rewrite Hmap. eexists; reflexivity.
      * eexists. split; [reflexivity|]. split; [eexists; reflexivity|].
        intros data' Hd. inversion Hd; subst data'.
        destruct (nullish data) eqn:Hn; [reflexivity|].
        apply map_exam_Some in Hn. rewrite Hmap in Hn. destruct Hn; discriminate.
    + eexists. split; [reflexivity|]. split; [eexists; reflexivity|].
      intros data Hd. discriminate.
Qed.

(** Reloading sends the two list requests and never fails. *)
Lemma manager_loadData_run st s :
  exists es qs tail,
    ExamManager.loadData server st s
    = mkRun (Ok (ExamManager.set_loaded es qs st)) s
        (ERequest (exams_request VUndefined s) :: ERequest questions_request
         :: tail)
    /\ (tail = [] \/ tail = [EConsoleError "Failed to load exams/questions"]).
Proof.
  unfold ExamManager.loadData, settle, bind.
  destruct (fetchExams_run server VUndefined s) as (r1 & -> & _).
  destruct (fetchAllQuestions_run server s) as (r2 & -> & _).
  destruct r1 as [es|e1]; destruct r2 as [qs|e2]; simpl;
    do 3 eexists; (split; [reflexivity|]); auto.
Qed.

(** X20.  The exam form is saved only when it is complete and its window
    is well formed.  With a missing title, start or end, an empty
    selection, a time that cannot be read, or a start not before the end,
    [handleCreateOrUpdate] sends nothing and leaves the form and the list as
    they are, telling the user why.  Otherwise its first act is the one
    request that saves the form: a [PUT] to the exam being edited, a [POST]
    when none is.  When that request is answered with a body, the form is
    closed and emptied, a success is notified and the lists are asked again;
    when it is not, the form stays as it is, an error is notified and
    nothing else is asked.  The store is never written. *)
Theorem exam_form_guard (st : ExamManager.State) (s : Store) :
  let r := ExamManager.handleCreateOrUpdate server Date_getTime st s in
  let saved :=
    exists data, server (ExamManager.save_request st s) = Resolved data
                 /\ nullish data = false in
  store r = s
  /\ exists st',
       result r = Ok st'
       /\ (~ ExamManager.form_ok Date_getTime (ExamManager.newExam st) ->
           (forall e, e ∈ events r -> is_request e = false)
           /\ ExamManager.newExam st' = ExamManager.newExam st
           /\ ExamManager.exams st' = ExamManager.exams st
           /\ ExamManager.isCreating st' = ExamManager.isCreating st
           /\ ExamManager.editingId st' = ExamManager.editingId st
           /\ (events r = [EAlert ExamManager.fill_fields]
               \/ exists msg,
                    ExamManager.notifications st'
                    = ExamManager.notifications st ++ [("error", msg)]))
       /\ (ExamManager.form_ok Date_getTime (ExamManager.newExam st) ->
           events r !! 0%nat = Some (ERequest (ExamManager.save_request st s))
           /\ ExamManager.loading st' = false
           /\ (saved ->
               ExamManager.isCreating st' = false
               /\ ExamManager.editingId st' = VNull
               /\ ExamManager.newExam st' = ExamManager.empty_draft
               /\ (exists msg,
                     ExamManager.notifications st'
                     = ExamManager.notifications st ++ [("success", msg)])
               /\ events r !! 1%nat = Some (ERequest (exams_request VUndefined s))
               /\ events r !! 2%nat = Some (ERequest questions_request))
           /\ (~ saved ->
               ExamManager.newExam st' = ExamManager.newExam st
               /\ ExamManager.isCreating st' = ExamManager.isCreating st
               /\ ExamManager.editingId st' = ExamManager.editingId st
               /\ (exists msg,
                     ExamManager.notifications st'
                     = ExamManager.notifications st ++ [("error", msg)])
               /\ events r = [ERequest (ExamManager.save_request st s);
                              EConsoleError "Create/Update exam failed"])).
Proof.
  cbv zeta. unfold ExamManager.handleCreateOrUpdate, ExamManager.form_ok.
  destruct (ExamManager.missing_fields (ExamManager.newExam st)) eqn:Hmiss.
  { simpl. split; [reflexivity|]. exists st. split; [reflexivity|]. split.
    - intros _. split; [intros e He; elem_of_concrete He; reflexivity|].
      repeat split. left. reflexivity.
    - intros [Hm _]. discriminate. }
  destruct (Date_getTime (ExamManager.field (ExamManager.newExam st) "start_time"))
    as [startTs|] eqn:Hstart.
  2:{ simpl. split; [reflexivity|]. eexists. split; [reflexivity|]. split.
      - intros _. split; [intros e He; elem_of_concrete He|].
        repeat split. right. eexists. reflexivity.
      - intros (_ & a & b & Ha & _). discriminate. }
  destruct (Date_getTime (ExamManager.field (ExamManager.newExam st) "end_time"))
    as [endTs|] eqn:Hend.
  2:{ simpl. split; [reflexivity|]. eexists. split; [reflexivity|]. split.
      - intros _. split; [intros e He; elem_of_concrete He|].
        repeat split. right. eexists. reflexivity.
      - intros (_ & a & b & _ & Hb & _). discriminate. }
  destruct (Z.leb_spec endTs startTs) as [Hle|Hlt].
  { simpl. split; [reflexivity|]. eexists. split; [reflexivity|]. split.
    - intros _. split; [intros e He; elem_of_concrete He|].
      repeat split. right. eexists. reflexivity.
    - intros (_ & a & b & Ha & Hb & Hab). inversion Ha; inversion Hb; subst. lia. }
  unfold bind, settle.
  destruct (save_form_run st s) as (res & -> & Hres).
  destruct res as [text|e].
  - destruct Hres as [Hsaved _].
    destruct (manager_loadData_run
                (ExamManager.set_form false VNull ExamManager.empty_draft
                   (ExamManager.addNotification "success" (VString text)
                      (ExamManager.set_loading true st))) s)
      as (es & qs & tail & -> & Htail).
    simpl. split; [reflexivity|]. eexists. split; [reflexivity|]. split.
    + intros Hnot. exfalso. apply Hnot. split; [reflexivity|].
      exists startTs, endTs. auto.
    + intros _. split; [reflexivity|]. split; [reflexivity|]. split.
      * intros _. simpl. repeat split. eexists. reflexivity.
      * intros Hnot. contradiction.
  - destruct Hres as [_ Hnull].
    simpl. split; [reflexivity|]. eexists. split; [reflexivity|]. split.
    + intros Hnot. exfalso. apply Hnot. split; [reflexivity|].
      exists startTs, endTs. auto.
    + intros _. split; [reflexivity|]. split; [reflexivity|]. split.
      * intros (data & Hd & Hn). rewrite (Hnull data Hd) in Hn. discriminate.
      * intros _. simpl. repeat split. eexists. reflexivity.
Qed.

End ExamFormFacts.


Lemma exam_form_guard_witness :
  exists st',
    result (ExamManager.handleCreateOrUpdate RunnerDemo.server_up
              PagesDemo.getTime PagesDemo.manager RunnerDemo.store) = Ok st'
    /\ ExamManager.newExam st' = ExamManager.empty_draft.
Proof.
  destruct (proj2 (exam_form_guard RunnerDemo.server_up PagesDemo.getTime
                     PagesDemo.manager RunnerDemo.store))
    as (st' & Hres & _ & Hok).
  exists st'. split; [exact Hres|].
  assert (Hform : ExamManager.form_ok PagesDemo.getTime
                    (ExamManager.newExam PagesDemo.manager)).
  { split; [reflexivity|].
    exists 1577836800000, 1893456000000.
    split; [reflexivity|]. split; [reflexivity | lia]. }
  destruct (Hok Hform) as (_ & _ & Hsaved & _).
  apply Hsaved. eexists. split; reflexivity.
Defined.

Lemma existsb_eq_string ids qId :
  existsb (fun id => eq_string id qId) ids = true <-> VString qId ∈ ids.
Proof.
  split.
  - intros H. apply existsb_exists in H as (x & Hin & Hx).
    apply eq_string_true in Hx. subst. apply list_elem_of_In, Hin.
  - intros Hin. apply existsb_exists. exists (VString qId).
    split; [apply list_elem_of_In, Hin | apply eq_string_true; reflexivity].
Qed.

(** X21.  A click on a question of the exam form, for a draft whose
    selection is an array: the question is selected afterwards exactly when
    it was not before, every other entry of the selection and every other
    field of the draft stays, and a selection without repeated entries stays
    without them.  Selecting a question and clicking it again gives back the
    selection, and a draft whose selection has become empty is one the form
    refuses to save. *)
Theorem toggleQuestion_selection
    (qId : string) (d : ExamManager.Draft) (ids : list value) :
  ExamManager.field d "question_ids" = VArray ids ->
  exists d' ids',
    ExamManager.toggleQuestion qId d = Some d'
    /\ ExamManager.field d' "question_ids" = VArray ids'
    /\ (VString qId ∈ ids' <-> VString qId ∉ ids)
    /\ (forall v, v <> VString qId -> (v ∈ ids' <-> v ∈ ids))
    /\ (NoDup ids -> NoDup ids')
    /\ (forall k, k <> "question_ids" ->
                  ExamManager.field d' k = ExamManager.field d k)
    /\ (VString qId ∉ ids ->
        exists d'', ExamManager.toggleQuestion qId d' = Some d''
                    /\ ExamManager.field d'' "question_ids" = VArray ids)
    /\ (ids' = [] -> ExamManager.missing_fields d' = true).
Proof.
  intros Hsel. unfold ExamManager.toggleQuestion. rewrite Hsel.
  change (or_else (VArray ids) (VArray [])) with (VArray ids). cbv iota beta.
  destruct (existsb (fun id => eq_string id qId) ids) eqn:Hin.
  - (* selected: the click removes it *)
    apply existsb_eq_string in Hin.
    eexists. eexists. split; [reflexivity|].
    split; [apply field_set_field_eq|].
    split; [|split; [|split; [|split; [|split]]]].
    + split; [|intros Hnot; contradiction].
      intros Hf. apply elem_of_filter_bool in Hf as [_ Hf].
      simpl in Hf. rewrite String.eqb_refl in Hf. discriminate.
    + intros v Hv. rewrite elem_of_filter_bool. split; [tauto|].
      intros Hv'. split; [exact Hv'|]. apply negb_true_iff, eq_string_false, Hv.
    + apply NoDup_filter_bool.
    + intros k Hk. apply field_set_field_ne, Hk.
    + intros Hnot. contradiction.
    + intros Hempty. unfold ExamManager.missing_fields.
      rewrite field_set_field_eq, Hempty. simpl.
      rewrite !orb_true_r. reflexivity.
  - (* not selected: the click adds it *)
    assert (Hnot : VString qId ∉ ids).
    { intros H. apply existsb_eq_string in H. congruence. }
    eexists. eexists. split; [reflexivity|].
    split; [apply field_set_field_eq|].
    split; [|split; [|split; [|split; [|split]]]].
    + split; [intros _; exact Hnot|].
      intros _. apply elem_of_app. right. apply list_elem_of_here.
    + intros v Hv. rewrite elem_of_app, list_elem_of_singleton. tauto.
    + intros Hnd. apply NoDup_app. split; [exact Hnd|].
      split; [|apply NoDup_singleton].
      intros x Hx Hx'. apply list_elem_of_singleton in Hx'. subst. contradiction.
    + intros k Hk. apply field_set_field_ne, Hk.
    + intros _. rewrite field_set_field_eq.
      change (or_else (VArray (ids ++ [VString qId])) (VArray []))
        with (VArray (ids ++ [VString qId])). cbv iota beta.
      assert (Hnow : existsb (fun id => eq_string id qId) (ids ++ [VString qId])
                     = true).
      { apply existsb_eq_string, elem_of_app. right. apply list_elem_of_here. }
      rewrite Hnow. eexists. split; [reflexivity|].
      rewrite field_set_field_eq. f_equal.
      rewrite List.filter_app. simpl. rewrite String.eqb_refl. simpl.
      rewrite app_nil_r. apply filter_bool_all.
      intros x Hx. apply negb_true_iff, eq_string_false. intros ->. contradiction.
    + intros Hempty. destruct ids; discriminate.
Qed.

Lemma toggleQuestion_selection_witness :
  exists d',
    ExamManager.toggleQuestion "q1" ExamManager.empty_draft = Some d'
    /\ ExamManager.field d' "question_ids" = VArray [VString "q1"].
Proof.
  destruct (toggleQuestion_selection "q1" ExamManager.empty_draft [] eq_refl)
    as (d' & ids' & Hrun & Hfield & _).
  exists d'. split; [exact Hrun|].
  unfold ExamManager.toggleQuestion in Hrun. simpl in Hrun.
  inversion Hrun; subst d'. reflexivity.
Defined.

Lemma coalesce_twice x d :
  nullish d = false -> (x ?? d) ?? VUndefined ?? d = x ?? d.
Proof.
  intros Hd. unfold coalesce. destruct (nullish x) eqn:Hx.
  - rewrite Hd. simpl. rewrite Hd. reflexivity.
  - rewrite Hx. simpl. rewrite Hx. reflexivity.
Qed.

Lemma or_else_twice x d :
  truthy d = true -> or_else (or_else (or_else x d) VUndefined) d = or_else x d.
Proof.
  intros Hd. unfold or_else. destruct (truthy x) eqn:Hx.
  - rewrite Hx. simpl. rewrite Hx. reflexivity.
  - rewrite Hd. simpl. rewrite Hd. reflexivity.
Qed.

Lemma coalesce_absent x d : x ?? VUndefined ?? d = x ?? d.
Proof. destruct x; reflexivity. Qed.

Lemma or_else_absent x d : or_else (or_else x VUndefined) d = or_else x d.
Proof.
  unfold or_else. destruct (truthy x) eqn:Hx; simpl; rewrite ?Hx; reflexivity.
Qed.

(** A field of the update payload reads as the draft's field, defined or
    not. *)
Lemma defined_field_lookup name v rest k :
  lookup_field k (ExamManager.defined_field name v ++ rest)
  = if String.eqb k name
    then match v with VUndefined => lookup_field k rest | _ => Some v end
    else lookup_field k rest.
Proof.
  destruct v; simpl; destruct (String.eqb k name); reflexivity.
Qed.

Lemma update_payload_prop d id :
  let e := VObject (("id", id) :: ExamManager.update_payload d) in
  prop e "id" = id
  /\ prop e "title" = ExamManager.field d "title"
  /\ prop e "start_time" = ExamManager.field d "start_time"
  /\ prop e "end_time" = ExamManager.field d "end_time"
  /\ prop e "duration" = ExamManager.field d "duration_minutes"
  /\ prop e "questions" = ExamManager.field d "question_ids"
  /\ prop e "is_published" = ExamManager.field d "is_published"
  /\ prop e "description" = VUndefined
  /\ prop e "duration_minutes" = VUndefined
  /\ prop e "question_ids" = VUndefined.
Proof.
  cbv zeta. unfold ExamManager.update_payload, prop. simpl.
  rewrite !defined_field_lookup. simpl.
  assert (Hlast : forall name v k,
            lookup_field k (ExamManager.defined_field name v)
            = if String.eqb k name
              then match v with VUndefined => None | _ => Some v end
              else None).
  { intros name v k. destruct v; simpl; destruct (String.eqb k name); reflexivity. }
  rewrite !Hlast. simpl.
  repeat split;
    match goal with
    | |- context [ExamManager.field d ?k] =>
        destruct (ExamManager.field d k); reflexivity
    | _ => reflexivity
    end.
Qed.

(** X22.  An exam read back from the payload that saved it is the exam of
    the form: for a draft and any id the backend adds, the mapping of the
    response applied to the create payload, and to the update payload,
    gives the draft's title, start and end, its duration (0 when absent),
    its selection (empty when absent) and its publication flag (false when
    absent); the description is not part of either payload and reads as
    empty. *)
Theorem exam_payload_round_trip (d : ExamManager.Draft) (id : value) :
  let reads_back (payload : list (string * value)) :=
    exists e,
      ExamApi.map_exam (VObject (("id", id) :: payload)) = Some e
      /\ ExamApi.e_id e = id
      /\ ExamApi.e_title e = ExamManager.field d "title"
      /\ ExamApi.e_start_time e = ExamManager.field d "start_time"
      /\ ExamApi.e_end_time e = ExamManager.field d "end_time"
      /\ ExamApi.e_duration_minutes e
         = ExamManager.field d "duration_minutes" ?? VNumber 0
      /\ ExamApi.e_question_ids e
         = or_else (ExamManager.field d "question_ids") (VArray [])
      /\ ExamApi.e_is_published e
         = ExamManager.field d "is_published" ?? VBool false
      /\ ExamApi.e_description e = VString "" in
  reads_back (ExamManager.create_payload d)
  /\ reads_back (ExamManager.update_payload d).
Proof.
  cbv zeta. split.
  - eexists. split; [reflexivity|]. simpl.
    change (prop (VObject (("id", id) :: ExamManager.create_payload d)) "duration")
      with (ExamManager.field d "duration_minutes" ?? VNumber 0).
    change (prop (VObject (("id", id) :: ExamManager.create_payload d))
              "duration_minutes") with VUndefined.
    change (prop (VObject (("id", id) :: ExamManager.create_payload d)) "questions")
      with (or_else (ExamManager.field d "question_ids") (VArray [])).
    change (prop (VObject (("id", id) :: ExamManager.create_payload d))
              "question_ids") with VUndefined.
    change (prop (VObject (("id", id) :: ExamManager.create_payload d))
              "is_published")
      with (ExamManager.field d "is_published" ?? VBool false).
    repeat split.
    + apply coalesce_twice. reflexivity.
    + apply or_else_twice. reflexivity.
    + destruct (ExamManager.field d "is_published"); reflexivity.
  - pose proof (update_payload_prop d id)
      as (Hid & Ht & Hs & He & Hd & Hq & Hp & Hdesc & Hdm & Hqi).
    cbv zeta in Hid, Ht, Hs, He, Hd, Hq, Hp, Hdesc, Hdm, Hqi.
    eexists. split; [reflexivity|]. simpl.
    rewrite Ht, Hs, He, Hd, Hq, Hp, Hdesc, Hdm, Hqi.
    repeat split.
    + apply coalesce_absent.
    + apply or_else_absent.
Qed.

(** ** The result page *)

Section ResultPageFacts.

Variable server : Request -> Reply.
Variable Date_getTime : value -> option Z.
Variable Date_now : Z.

Lemma getExamResult_run examId studentId s :
  exists res,
    ExamApi.getExamResult server Date_getTime Date_now examId studentId s
    = mkRun res s
        [ERequest (ExamApi.result_request examId studentId (stored_token s))]
    /\ match res with
       | Ok (Some sess) =>
           exists d rest,
             server (ExamApi.result_request examId studentId (stored_token s))
             = Resolved (VArray (d :: rest))
             /\ ExamApi.map_result Date_getTime Date_now d = Some sess
       | Ok None =>
           exists data,
             server (ExamApi.result_request examId studentId (stored_token s))
             = Resolved data
             /\ forall d rest, data <> VArray (d :: rest)
       | Throw e => exists text, e = new_Error (VString text)
       end.
Proof.
  unfold ExamApi.getExamResult, ExamApi.result_request, try_catch, bind,
    getAuthHeaders, localStorage_getItem, axios, ret, throw, stored_token.
  simpl.
  destruct (server _) as [data|err]; simpl.
  - destruct data as [| | | | |[|d rest]|]; simpl;
      try (eexists; split; [reflexivity|]; eexists; split; [reflexivity|];
           intros; discriminate).
    destruct (ExamApi.map_result Date_getTime Date_now d) as [sess|] eqn:Hmap;
      simpl.
    + eexists. split; [reflexivity|]. exists d, rest. auto.
    + eexists. split; [reflexivity|]. eexists. reflexivity.
  - eexists. split; [reflexivity|]. eexists. reflexivity.
Qed.

Lemma getExamResult_found examId studentId s d rest sess :
  server (ExamApi.result_request examId studentId (stored_token s))
    = Resolved (VArray (d :: rest)) ->
  ExamApi.map_result Date_getTime Date_now d = Some sess ->
  ExamApi.getExamResult server Date_getTime Date_now examId studentId s
  = mkRun (Ok (Some sess)) s
      [ERequest (ExamApi.result_request examId studentId (stored_token s))].
Proof.
  intros Hsrv Hmap.
  unfold ExamApi.getExamResult, try_catch, bind, getAuthHeaders,
    localStorage_getItem, axios, ret, throw.
  simpl. unfold ExamApi.result_request, stored_token in Hsrv. rewrite Hsrv.
  simpl. rewrite Hmap. reflexivity.
Qed.

Lemma getExamResult_none examId studentId s data :
  server (ExamApi.result_request examId studentId (stored_token s))
    = Resolved data ->
  (forall d rest, data <> VArray (d :: rest)) ->
  ExamApi.getExamResult server Date_getTime Date_now examId studentId s
  = mkRun (Ok None) s
      [ERequest (ExamApi.result_request examId studentId (stored_token s))].
Proof.
  intros Hsrv Hno.
  unfold ExamApi.getExamResult, try_catch, bind, getAuthHeaders,
    localStorage_getItem, axios, ret, throw.
  simpl. unfold ExamApi.result_request, stored_token in Hsrv. rewrite Hsrv.
  simpl. destruct data as [| | | | |[|d rest]|]; try reflexivity.
  exfalso. apply (Hno d rest). reflexivity.
Qed.

Variable props : ResultDetails.Props.
Variable currentUser : value.

(** X23.  Opening the result of an exam and a student.  A user whose role
    is [student] and whose id is not the student id of the location, as a
    string, is told [Unauthorized] and sent to the root, and nothing is
    requested.  For every other user the page asks, in this order, for the
    result of the exam and the student, for the exams at the endpoint of the
    user's role, and for the question bank, and asks for nothing else; it
    stops loading whatever comes back.  When the three calls succeed and the
    answer to the first has no record, the user is told that the result was
    not found and sent back, and the page shows what it showed.  When they
    succeed and the answer has a record, the page shows the session of its
    first record and the exam of this id, with the questions of that exam,
    and tells the user nothing.  When one of the three calls fails, the
    failure is logged and the page shows what it showed.  The session shown
    is never another one, the alert that the result was not found is raised
    in no other case, and the store is not touched. *)
Theorem result_page_guard (st : ResultPage.State) (s : Store) :
  param_missing (ResultDetails.examId props) = false ->
  param_missing (ResultDetails.studentId props) = false ->
  let examId := template_param (ResultDetails.examId props) in
  let studentId := template_param (ResultDetails.studentId props) in
  let asked := ExamApi.result_request examId studentId (stored_token s) in
  let requests :=
    [ERequest asked; ERequest (exams_request (prop currentUser "role") s);
     ERequest questions_request] in
  let r := ResultPage.loadData server Date_getTime Date_now props currentUser
             st s in
  store r = s
  /\ (ResultPage.unauthorized props currentUser = true ->
      r = mkRun (Ok st) s [EAlert "Unauthorized"; ENavigate "/"])
  /\ (ResultPage.unauthorized props currentUser = false ->
      exists st' tail,
        result r = Ok st'
        /\ ResultPage.loading st' = false
        /\ events r = requests ++ tail
        /\ (forall e, e ∈ tail -> is_request e = false)
        /\ (forall sess,
              ResultPage.session st' = Some sess ->
              ResultPage.session st = Some sess
              \/ exists d rest,
                   server asked = Resolved (VArray (d :: rest))
                   /\ ExamApi.map_result Date_getTime Date_now d = Some sess)
        /\ (tail = [EAlert "Result not found"; ENavigateBack] ->
            ResultPage.session st' = ResultPage.session st
            /\ exists data, server asked = Resolved data
                            /\ forall d rest, data <> VArray (d :: rest)))
  /\ (ResultPage.unauthorized props currentUser = false ->
      forall xs exams bank allQuestions total,
        server (exams_request (prop currentUser "role") s)
          = Resolved (VArray xs) ->
        mapM ExamApi.map_exam xs = Some exams ->
        server questions_request = Resolved bank ->
        prop bank "items" = VArray allQuestions ->
        prop bank "total" = VNumber total ->
        (forall data,
           server asked = Resolved data ->
           (forall d rest, data <> VArray (d :: rest)) ->
           r = mkRun (Ok (ResultPage.set_loading false st)) s
                 (requests ++ [EAlert "Result not found"; ENavigateBack]))
        /\ (forall d rest sess,
              server asked = Resolved (VArray (d :: rest)) ->
              ExamApi.map_result Date_getTime Date_now d = Some sess ->
              exists st',
                result r = Ok st'
                /\ ResultPage.session st' = Some sess
                /\ ResultPage.exam st' = QuestionList.find_exam examId exams
                /\ ResultPage.loading st' = false
                /\ (forall e, e ∈ events r -> surfaced e = false)
                /\ (forall found qs,
                      QuestionList.find_exam examId exams = Some found ->
                      QuestionList.exam_questions
                        (ExamApi.e_question_ids found) allQuestions = Some qs ->
                      ResultPage.questions st' = qs /\ events r = requests)))
  /\ (ResultPage.unauthorized props currentUser = false ->
      (exists e, result (ExamApi.getExamResult server Date_getTime Date_now
                           examId studentId s) = Throw e)
      \/ (exists e, result (ExamApi.fetchExams server
                              (prop currentUser "role") s) = Throw e)
      \/ (exists e, result (ExamApi.fetchAllQuestions server s) = Throw e) ->
      r = mkRun (Ok (ResultPage.set_loading false st)) s
            (requests ++ [EConsoleError ""])).
Proof.
  intros He Hs. cbv zeta. unfold ResultPage.loadData. rewrite He, Hs. simpl.
  destruct (ResultPage.unauthorized props currentUser) eqn:Hun.
  { split; [reflexivity|]. split; [reflexivity|].
    split; [discriminate|]. split; discriminate. }
  split; [|split; [discriminate|]; split; [|split]].
  - unfold bind, settle.
    destruct (getExamResult_run (template_param (ResultDetails.examId props))
                (template_param (ResultDetails.studentId props)) s)
      as (r1 & -> & H1).
    destruct (fetchExams_run server (prop currentUser "role") s)
      as (r2 & -> & _).
    destruct (fetchAllQuestions_run server s) as (r3 & -> & _).
    destruct r1 as [[sess|]|e1]; destruct r2 as [exams|e2];
      destruct r3 as [allQuestions|e3]; simpl; try reflexivity.
    destruct (QuestionList.find_exam _ exams) as [found|]; simpl;
      [|reflexivity].
    destruct (QuestionList.exam_questions _ allQuestions); reflexivity.
  - intros _. unfold bind, settle.
    destruct (getExamResult_run (template_param (ResultDetails.examId props))
                (template_param (ResultDetails.studentId props)) s)
      as (r1 & -> & H1).
    destruct (fetchExams_run server (prop currentUser "role") s)
      as (r2 & -> & _).
    destruct (fetchAllQuestions_run server s) as (r3 & -> & _).
    destruct r1 as [[sess|]|e1]; destruct r2 as [exams|e2];
      destruct r3 as [allQuestions|e3]; simpl;
      try (do 2 eexists; split; [reflexivity|]; split; [reflexivity|];
           split; [reflexivity|];
           split; [intros e Hin; elem_of_concrete Hin; reflexivity|];
           split; [intros sess' Hsess; left; exact Hsess|];
           intros Htail; first [discriminate | split; [reflexivity | exact H1]]).
    destruct (QuestionList.find_exam _ exams) as [found|]; simpl.
    + destruct (QuestionList.exam_questions _ allQuestions) as [qs|]; simpl;
        (do 2 eexists; split; [reflexivity|]; split; [reflexivity|];
         split; [reflexivity|];
         split; [intros e Hin; elem_of_concrete Hin; reflexivity|];
         split; [intros sess' Hsess; right; inversion Hsess; subst; exact H1|];
         intros Htail; discriminate).
    + do 2 eexists. split; [reflexivity|]. split; [reflexivity|].
      split; [reflexivity|].
      split; [intros e Hin; elem_of_concrete Hin|].
      split; [intros sess' Hsess; right; inversion Hsess; subst; exact H1|].
      intros Htail. discriminate.
  - intros _ xs exams bank allQuestions total Hexams Hmap Hbank Hitems Htotal.
    pose proof (fetchExams_resolved server (prop currentUser "role") s xs
                  exams Hexams Hmap) as Hrun2.
    pose proof (fetchAllQuestions_resolved server s bank allQuestions total
                  Hbank Hitems Htotal) as Hrun3.
    unfold bind, settle.
    split.
    + intros data Hdata Hno.
      rewrite (getExamResult_none _ _ s data Hdata Hno). cbv beta iota.
      rewrite Hrun2. cbv beta iota. rewrite Hrun3. reflexivity.
    + intros d rest sess Hdata Hsess.
      rewrite (getExamResult_found _ _ s d rest sess Hdata Hsess).
      cbv beta iota. rewrite Hrun2. cbv beta iota. rewrite Hrun3. simpl.
      destruct (QuestionList.find_exam _ exams) as [found|] eqn:Hfind; simpl.
      * destruct (QuestionList.exam_questions _ allQuestions) as [qs|] eqn:Hqs;
          simpl; eexists; (split; [reflexivity|]); (split; [reflexivity|]);
          (split; [reflexivity|]); (split; [reflexivity|]);
          (split; [intros e Hin; elem_of_concrete Hin; reflexivity|]);
          intros found' qs' Hf Hq; inversion Hf; subst found';
          rewrite Hqs in Hq; inversion Hq; split; reflexivity.
      * eexists. split; [reflexivity|]. split; [reflexivity|].
        split; [reflexivity|]. split; [reflexivity|].
        split; [intros e Hin; elem_of_concrete Hin; reflexivity|].
        intros found' qs' Hf. discriminate.
  - intros _ Hfail. unfold bind, settle.
    destruct (getExamResult_run (template_param (ResultDetails.examId props))
                (template_param (ResultDetails.studentId props)) s)
      as (r1 & Hrun1 & _).
    destruct (fetchExams_run server (prop currentUser "role") s)
      as (r2 & Hrun2 & _).
    destruct (fetchAllQuestions_run server s) as (r3 & Hrun3 & _).
    rewrite Hrun1, Hrun2, Hrun3 in Hfail. simpl in Hfail.
    rewrite Hrun1. cbv beta iota. rewrite Hrun2. cbv beta iota.
    rewrite Hrun3.
    destruct r1 as [[sess|]|e1]; destruct r2 as [exams|e2];
      destruct r3 as [allQuestions|e3]; try reflexivity;
      exfalso; destruct Hfail as [[e H]|[[e H]|[e H]]]; discriminate.
Qed.

End ResultPageFacts.

(** The administrator opens the result of an attempt that has none yet. *)
Lemma result_page_guard_witness :
  ResultPage.loadData PagesDemo.exam_server RunnerDemo.getTime RunnerDemo.now
    RunnerDemo.result_props PagesDemo.admin ResultPage.initial
    RunnerDemo.store
  = mkRun (Ok (ResultPage.set_loading false ResultPage.initial))
      RunnerDemo.store
      [ERequest (ExamApi.result_request "e1" "u1"
                   (stored_token RunnerDemo.store));
       ERequest (exams_request (VString "admin") RunnerDemo.store);
       ERequest questions_request;
       EAlert "Result not found"; ENavigateBack].
Proof.
  assert (Hmap : mapM ExamApi.map_exam [PagesDemo.exam_record]
                 = Some (omap ExamApi.map_exam [PagesDemo.exam_record])).
  { reflexivity. }
  pose proof (result_page_guard PagesDemo.exam_server RunnerDemo.getTime
                RunnerDemo.now RunnerDemo.result_props PagesDemo.admin
                ResultPage.initial RunnerDemo.store eq_refl eq_refl)
    as (_ & _ & _ & Hloaded & _).
  cbv zeta in Hloaded.
  destruct (Hloaded eq_refl [PagesDemo.exam_record]
              (omap ExamApi.map_exam [PagesDemo.exam_record])
              (VObject [("items", VArray [PagesDemo.question_record]);
                        ("total", VNumber 1)])
              [PagesDemo.question_record] 1 eq_refl Hmap eq_refl eq_refl
              eq_refl) as (Hnone & _).
  apply (Hnone (VArray []) eq_refl). discriminate.
Defined.

(** ** Loading the runner *)

Section RunnerPageFacts.

Variable JSON_stringify : value -> option string.
Variable server : Request -> Reply.
Variable Date_getTime : value -> option Z.
Variable Date_now : Z.
Variable origin : string.

Lemma startExamSession_run examId studentId s :
  exists res,
    Dashboard.startExamSession server Date_getTime Date_now examId studentId s
    = mkRun res s [ERequest (start_request examId s)]
    /\ match res with
       | Ok sess =>
           exists data,
             server (start_request examId s) = Resolved data
             /\ nullish data = false
             /\ sess = Dashboard.map_start_response Date_getTime Date_now
                         examId studentId data
       | Throw e => exists text, e = new_Error (VString text)
       end.
Proof.
  unfold Dashboard.startExamSession, start_request, try_catch, bind,
    getAuthHeaders, localStorage_getItem, axios, ret, throw, stored_token.
  simpl.
  destruct (server _) as [data|err]; simpl.
  - destruct (get data "exam_id") as [v|] eqn:Hget; simpl.
    + eexists. split; [reflexivity|]. exists data. split; [reflexivity|].
      split; [|reflexivity].
      apply (get_nullish data "exam_id"). rewrite Hget. eexists; reflexivity.
    + eexists. split; [reflexivity|]. eexists. reflexivity.
  - eexists. split; [reflexivity|]. eexists. reflexivity.
Qed.

Lemma startExamSession_resolved examId studentId s data :
  server (start_request examId s) = Resolved data -> nullish data = false ->
  Dashboard.startExamSession server Date_getTime Date_now examId studentId s
  = mkRun (Ok (Dashboard.map_start_response Date_getTime Date_now examId
                 studentId data))
      s [ERequest (start_request examId s)].
Proof.
  intros Hsrv Hnn.
  unfold Dashboard.startExamSession, try_catch, bind, getAuthHeaders,
    localStorage_getItem, axios, ret, throw.
  simpl. unfold start_request, stored_token in Hsrv. rewrite Hsrv. simpl.
  apply (get_nullish data "exam_id") in Hnn as [v Hv]. rewrite Hv. reflexivity.
Qed.

Lemma startExamSession_failed examId studentId s :
  (forall data, server (start_request examId s) = Resolved data ->
                nullish data = true) ->
  exists e,
    Dashboard.startExamSession server Date_getTime Date_now examId studentId s
    = mkRun (Throw e) s [ERequest (start_request examId s)].
Proof.
  intros Hbad.
  destruct (startExamSession_run examId studentId s) as (res & Hrun & Hres).
  destruct res as [sess|e]; [|exists e; exact Hrun].
  destruct Hres as (data & Hsrv & Hnn & _).
  rewrite (Hbad data Hsrv) in Hnn. discriminate.
Qed.

Variable props : ExamRunner.Props.

(** X24.  Opening the runner of an exam.  The attempt is started first.
    When the start is rejected, or answered with an empty body, the runner
    alerts that the exam failed to load and goes to the dashboard.  When the
    backend reports the attempt as submitted, the runner goes to the result
    of this exam and user and asks for nothing more.  Otherwise it asks for
    the question bank and then for the exams, at the endpoint [/api/exams/]
    (the one of the call without a role); when both answers are well formed,
    the exam of this id is in the list and its questions can be collected,
    the runner is ready with the started session and those questions, and
    nothing is shown.  In every remaining case, a failed call for the
    questions or for the exams, an exam that is not in the list or questions
    that cannot be collected, it alerts that the exam failed to load and
    goes to the dashboard.  The store is not touched. *)
Theorem runner_load_outcome (s : Store) :
  param_missing (ExamRunner.examId props) = false ->
  let examId := template_param (ExamRunner.examId props) in
  let started := ERequest (start_request examId s) in
  let failure := [EConsoleError ""; EAlert "Failed to load exam";
                  ENavigate "/student/dashboard"] in
  let r := RunnerPage.initializeExam server Date_getTime Date_now props s in
  store r = s
  /\ req_url (exams_request VUndefined s) = "/api/exams/"
  /\ (exists out,
       result r = Ok out
       /\ match out with
          | RunnerPage.NoExam => False
          | RunnerPage.AlreadySubmitted =>
              events r = [started; ENavigate (ExamRunner.result_path props)]
              /\ exists data,
                   server (start_request examId s) = Resolved data
                   /\ or_else (prop data "status") (VString "in_progress")
                      = VString "submitted"
          | RunnerPage.Ready sess questions =>
              events r = [started; ERequest questions_request;
                          ERequest (exams_request VUndefined s)]
              /\ Dashboard.s_status sess <> VString "submitted"
              /\ (exists data,
                    server (start_request examId s) = Resolved data
                    /\ sess = Dashboard.map_start_response Date_getTime Date_now
                                examId (ExamRunner.currentUser_id props) data)
              /\ exists xs exams examDef data total allQuestions,
                   server (exams_request VUndefined s) = Resolved (VArray xs)
                   /\ mapM ExamApi.map_exam xs = Some exams
                   /\ QuestionList.find_exam examId exams = Some examDef
                   /\ server questions_request = Resolved data
                   /\ prop data "items" = VArray allQuestions
                   /\ prop data "total" = VNumber total
                   /\ QuestionList.exam_questions
                        (ExamApi.e_question_ids examDef) allQuestions
                      = Some questions
          | RunnerPage.LoadFailed =>
              events r = [started] ++ failure
              \/ events r = [started; ERequest questions_request] ++ failure
              \/ events r = [started; ERequest questions_request;
                             ERequest (exams_request VUndefined s)] ++ failure
          end)
  /\ ((forall data, server (start_request examId s) = Resolved data ->
                    nullish data = true) ->
      r = mkRun (Ok RunnerPage.LoadFailed) s ([started] ++ failure))
  /\ (forall data,
        server (start_request examId s) = Resolved data ->
        nullish data = false ->
        let sess := Dashboard.map_start_response Date_getTime Date_now examId
                      (ExamRunner.currentUser_id props) data in
        (Dashboard.s_status sess = VString "submitted" ->
         r = mkRun (Ok RunnerPage.AlreadySubmitted) s
               [started; ENavigate (ExamRunner.result_path props)])
        /\ (Dashboard.s_status sess <> VString "submitted" ->
            (forall bank allQuestions total xs exams,
               server questions_request = Resolved bank ->
               prop bank "items" = VArray allQuestions ->
               prop bank "total" = VNumber total ->
               server (exams_request VUndefined s) = Resolved (VArray xs) ->
               mapM ExamApi.map_exam xs = Some exams ->
               match QuestionList.find_exam examId exams with
               | Some examDef =>
                   match QuestionList.exam_questions
                           (ExamApi.e_question_ids examDef) allQuestions with
                   | Some questions =>
                       r = mkRun (Ok (RunnerPage.Ready sess questions)) s
                             [started; ERequest questions_request;
                              ERequest (exams_request VUndefined s)]
                   | None =>
                       r = mkRun (Ok RunnerPage.LoadFailed) s
                             ([started; ERequest questions_request;
                               ERequest (exams_request VUndefined s)]
                              ++ failure)
                   end
               | None =>
                   r = mkRun (Ok RunnerPage.LoadFailed) s
                         ([started; ERequest questions_request;
                           ERequest (exams_request VUndefined s)] ++ failure)
               end)
            /\ (forall e,
                  result (ExamApi.fetchAllQuestions server s) = Throw e ->
                  r = mkRun (Ok RunnerPage.LoadFailed) s
                        ([started; ERequest questions_request] ++ failure))
            /\ (forall allQuestions e,
                  result (ExamApi.fetchAllQuestions server s) = Ok allQuestions ->
                  result (ExamApi.fetchExams server VUndefined s) = Throw e ->
                  r = mkRun (Ok RunnerPage.LoadFailed) s
                        ([started; ERequest questions_request;
                          ERequest (exams_request VUndefined s)] ++ failure)))).
Proof.
  intros He. cbv zeta.
  split; [|split; [reflexivity|]; split; [|split]].
  - unfold RunnerPage.initializeExam. rewrite He. unfold try_catch, bind.
    destruct (startExamSession_run (template_param (ExamRunner.examId props))
                (ExamRunner.currentUser_id props) s) as (r0 & -> & H0).
    destruct r0 as [sess|e0]; [|reflexivity].
    destruct (eq_string (Dashboard.s_status sess) "submitted"); [reflexivity|].
    destruct (fetchAllQuestions_run server s) as (r1 & -> & H1).
    destruct r1 as [allQuestions|e1]; [|reflexivity].
    destruct (fetchExams_run server VUndefined s) as (r2 & -> & H2).
    destruct r2 as [exams|e2]; [|reflexivity].
    simpl.
    destruct (QuestionList.find_exam _ exams) as [examDef|]; [|reflexivity].
    simpl.
    destruct (QuestionList.exam_questions _ allQuestions); reflexivity.
  - unfold RunnerPage.initializeExam. rewrite He. unfold try_catch, bind.
    destruct (startExamSession_run (template_param (ExamRunner.examId props))
                (ExamRunner.currentUser_id props) s) as (r0 & -> & H0).
    destruct r0 as [sess|e0].
    2:{ simpl. eexists. split; [reflexivity|]. left. reflexivity. }
    destruct H0 as (data0 & Hsrv0 & Hnn0 & Hsess).
    destruct (eq_string (Dashboard.s_status sess) "submitted") eqn:Hst.
    { simpl. eexists. split; [reflexivity|]. split; [reflexivity|].
      exists data0. split; [exact Hsrv0|].
      apply eq_string_true in Hst. rewrite Hsess in Hst. exact Hst. }
    apply eq_string_false in Hst.
    destruct (fetchAllQuestions_run server s) as (r1 & -> & H1).
    destruct r1 as [allQuestions|e1].
    2:{ simpl. eexists. split; [reflexivity|]. right. left. reflexivity. }
    destruct H1 as (data1 & total & Hsrv1 & Hitems & Htotal).
    destruct (fetchExams_run server VUndefined s) as (r2 & -> & H2).
    destruct r2 as [exams|e2].
    2:{ simpl. eexists. split; [reflexivity|]. right. right. reflexivity. }
    destruct H2 as (xs & Hsrv2 & Hmap).
    simpl.
    destruct (QuestionList.find_exam _ exams) as [examDef|] eqn:Hfind; simpl.
    2:{ eexists. split; [reflexivity|]. right. right. reflexivity. }
    destruct (QuestionList.exam_questions _ allQuestions) as [qs|] eqn:Hqs; simpl.
    2:{ eexists. split; [reflexivity|]. right. right. reflexivity. }
    eexists. split; [reflexivity|]. split; [reflexivity|].
    split; [exact Hst|]. split; [exists data0; auto|].
    exists xs, exams, examDef, data1, total, allQuestions. auto 10.
  - intros Hbad.
    destruct (startExamSession_failed
                (template_param (ExamRunner.examId props))
                (ExamRunner.currentUser_id props) s Hbad) as (e & Hrun).
    unfold RunnerPage.initializeExam. rewrite He. unfold try_catch, bind.
    rewrite Hrun. reflexivity.
  - intros data Hsrv Hnn.
    pose proof (startExamSession_resolved
                  (template_param (ExamRunner.examId props))
                  (ExamRunner.currentUser_id props) s data Hsrv Hnn) as Hrun.
    split.
    + intros Hst. apply eq_string_true in Hst.
      unfold RunnerPage.initializeExam. rewrite He. unfold try_catch, bind.
      rewrite Hrun. cbv beta iota. rewrite Hst. reflexivity.
    + intros Hst. apply eq_string_false in Hst. split.
      * intros bank allQuestions total xs exams Hbank Hitems Htotal Hexams Hmap.
        pose proof (fetchAllQuestions_resolved server s bank allQuestions total
                      Hbank Hitems Htotal) as Hrun1.
        pose proof (fetchExams_resolved server VUndefined s xs exams
                      Hexams Hmap) as Hrun2.
        unfold RunnerPage.initializeExam. rewrite He. unfold try_catch, bind.
        rewrite Hrun. cbv beta iota. rewrite Hst.
        rewrite Hrun1. cbv beta iota. rewrite Hrun2. cbv beta iota.
        destruct (QuestionList.find_exam _ exams) as [examDef|];
          [|reflexivity].
        destruct (QuestionList.exam_questions _ allQuestions); reflexivity.
      * split.
        -- intros e Hres.
           destruct (fetchAllQuestions_run server s) as (r1 & Hrun1 & _).
           rewrite Hrun1 in Hres. simpl in Hres. subst r1.
           unfold RunnerPage.initializeExam. rewrite He.
           unfold try_catch, bind.
           rewrite Hrun. cbv beta iota. rewrite Hst. rewrite Hrun1.
           reflexivity.
        -- intros allQuestions e Hres1 Hres2.
           destruct (fetchAllQuestions_run server s) as (r1 & Hrun1 & _).
           rewrite Hrun1 in Hres1. simpl in Hres1. subst r1.
           destruct (fetchExams_run server VUndefined s) as (r2 & Hrun2 & _).
           rewrite Hrun2 in Hres2. simpl in Hres2. subst r2.
           unfold RunnerPage.initializeExam. rewrite He.
           unfold try_catch, bind.
           rewrite Hrun. cbv beta iota. rewrite Hst. rewrite Hrun1.
           cbv beta iota. rewrite Hrun2. reflexivity.
Qed.

End RunnerPageFacts.

(** The student opens the runner of the exam under way: the runner is ready
    with the attempt of 42 seconds and the one question of the exam. *)
Lemma runner_load_outcome_witness :
  RunnerPage.initializeExam PagesDemo.exam_server RunnerDemo.getTime
    RunnerDemo.now RunnerDemo.props RunnerDemo.store
  = mkRun
      (Ok (RunnerPage.Ready
             (Dashboard.map_start_response RunnerDemo.getTime RunnerDemo.now
                "e1" "u1" PagesDemo.attempt_record)
             [PagesDemo.question_record]))
      RunnerDemo.store
      [ERequest (start_request "e1" RunnerDemo.store);
       ERequest questions_request;
       ERequest (exams_request VUndefined RunnerDemo.store)].
Proof.
  assert (Hmap : mapM ExamApi.map_exam [PagesDemo.exam_record]
                 = Some (omap ExamApi.map_exam [PagesDemo.exam_record])).
  { reflexivity. }
  pose proof (runner_load_outcome PagesDemo.exam_server RunnerDemo.getTime
                RunnerDemo.now RunnerDemo.props RunnerDemo.store eq_refl)
    as (_ & _ & _ & _ & Hloaded).
  cbv zeta in Hloaded.
  destruct (Hloaded PagesDemo.attempt_record eq_refl eq_refl) as (_ & Hopen).
  assert (Hst : Dashboard.s_status
                  (Dashboard.map_start_response RunnerDemo.getTime
                     RunnerDemo.now "e1" "u1" PagesDemo.attempt_record)
                <> VString "submitted") by discriminate.
  destruct (Hopen Hst) as (Hready & _).
  exact (Hready (VObject [("items", VArray [PagesDemo.question_record]);
                          ("total", VNumber 1)])
           [PagesDemo.question_record] 1 [PagesDemo.exam_record]
           (omap ExamApi.map_exam [PagesDemo.exam_record])
           eq_refl eq_refl eq_refl eq_refl Hmap).
Defined.

(** ** Uploading an image *)

Section UploadFacts.

Variable JSON_stringify : value -> option string.
Variable server : Request -> Reply.
Variable origin : string.




End UploadFacts.



(** ** The questions of an exam, from the responses *)

Lemma strict_eq_eq a b : QuestionList.strict_eq a b = true -> a = b.
Proof.
  destruct a, b; simpl; try discriminate; intros H; try reflexivity.
  - apply Bool.eqb_prop in H. congruence.
  - apply Z.eqb_eq in H. congruence.
  - apply String.eqb_eq in H. congruence.
Qed.

Lemma find_by_id_bank id bank :
  Forall (fun q => nullish q = false) bank ->
  QuestionList.find_by_id id bank
  = Some (List.find (fun q => QuestionList.strict_eq (prop q "id") id) bank).
Proof.
  induction 1 as [|q bank Hq _ IH]; [reflexivity|].
  simpl. unfold prop.
  destruct (get q "id") as [qid|] eqn:Hget.
  - simpl. destruct (QuestionList.strict_eq qid id); [reflexivity | exact IH].
  - exfalso. apply (get_nullish q "id") in Hq. rewrite Hget in Hq.
    destruct Hq; discriminate.
Qed.

Lemma mapM_total {A B} (f : A -> option B) (g : A -> B) (l : list A) :
  (forall x, f x = Some (g x)) -> mapM f l = Some (g <$> l).
Proof.
  intros Hf. induction l as [|x l IH]; [reflexivity|].
  cbn. rewrite Hf. cbn. rewrite IH. reflexivity.
Qed.

(** X26.  The question list built from the two responses, for a selection
    that is an array and a bank without null entries: it is built; it holds
    only questions of the bank whose id is one of the selection; their ids
    are the ids of the selection, in its order, without those that no
    question of the bank carries; so it is never longer than the
    selection.  A selection that is not an array makes the construction
    throw. *)
Theorem exam_questions_of_responses (ids bank : list value) :
  Forall (fun q => nullish q = false) bank ->
  (exists qs,
     QuestionList.exam_questions (VArray ids) bank = Some qs
     /\ (forall q, q ∈ qs -> q ∈ bank /\ prop q "id" ∈ ids)
     /\ (fun q => prop q "id") <$> qs
        = List.filter
            (fun id => existsb (fun q => QuestionList.strict_eq (prop q "id") id)
                               bank)
            ids
     /\ (length qs <= length ids)%nat)
  /\ (forall selection,
        (forall xs, selection <> VArray xs) ->
        QuestionList.exam_questions selection bank = None).
Proof.
  intros Hbank. split.
  - unfold QuestionList.exam_questions.
    rewrite (mapM_total _
               (fun id => List.find
                            (fun q => QuestionList.strict_eq (prop q "id") id)
                            bank)
               ids (fun id => find_by_id_bank id bank Hbank)).
    eexists. split; [reflexivity|].
    split; [|split].
    + intros q Hq. apply list_elem_of_omap in Hq as (o & Ho & Heq).
      simpl in Heq. subst o.
      apply list_elem_of_fmap in Ho as (id & Hfind & Hid).
      symmetry in Hfind. apply find_some in Hfind as [Hin Hst].
      apply strict_eq_eq in Hst. split; [apply list_elem_of_In, Hin|].
      rewrite Hst. exact Hid.
    + clear Hbank. induction ids as [|id ids IH]; [reflexivity|].
      rewrite fmap_cons. cbn [omap list_omap]. simpl List.filter.
      destruct (List.find _ bank) as [q|] eqn:Hfind.
      * pose proof (find_some _ _ Hfind) as [Hin Hst].
        assert (Hex : existsb
                        (fun q => QuestionList.strict_eq (prop q "id") id) bank
                      = true).
        { apply existsb_exists. exists q. auto. }
        rewrite Hex. rewrite fmap_cons. f_equal; [|exact IH].
        apply strict_eq_eq, Hst.
      * assert (Hex : existsb
                        (fun q => QuestionList.strict_eq (prop q "id") id) bank
                      = false).
        { destruct (existsb _ bank) eqn:Hex; [|reflexivity].
          apply existsb_exists in Hex as (q & Hin & Hst).
          pose proof (find_none _ _ Hfind q Hin) as Hno. simpl in Hno.
          congruence. }
        rewrite Hex. exact IH.
    + clear Hbank. induction ids as [|id ids IH]; [simpl; lia|].
      rewrite fmap_cons. cbn [omap list_omap].
      destruct (List.find _ bank); simpl in *; lia.
  - intros selection Hsel. destruct selection; try reflexivity.
    exfalso. apply (Hsel xs). reflexivity.
Qed.

Lemma exam_questions_of_responses_witness :
  exists qs,
    QuestionList.exam_questions (VArray [VString "q2"; VString "q9"])
      [VObject [("id", VString "q1")]; VObject [("id", VString "q2")]]
    = Some qs
    /\ (length qs <= 2)%nat.
Proof.
  destruct (proj1 (exam_questions_of_responses
                     [VString "q2"; VString "q9"]
                     [VObject [("id", VString "q1")]; VObject [("id", VString "q2")]]
                     ltac:(repeat constructor)))
    as (qs & Hqs & _ & _ & Hlen).
  exists qs. split; assumption.
Defined.

(** ** The list of exams *)

Lemma mapM_map_exam xs :
  (Forall (fun x => nullish x = false) xs ->
   exists exams,
     mapM ExamApi.map_exam xs = Some exams
     /\ length exams = length xs
     /\ forall i x, xs !! i = Some x ->
          exists e, exams !! i = Some e /\ ExamApi.map_exam x = Some e)
  /\ (Exists (fun x => nullish x = true) xs -> mapM ExamApi.map_exam xs = None).
Proof.
  split.
  - induction 1 as [|x xs Hx _ IH].
    + exists []. split; [reflexivity|]. split; [reflexivity|].
      intros i x Hi. rewrite lookup_nil in Hi. discriminate.
    + destruct IH as (exams & Hmap & Hlen & Hall).
      apply map_exam_Some in Hx as [e He].
      exists (e :: exams). cbn. rewrite He. cbn. rewrite Hmap. cbn.
      split; [reflexivity|]. split; [simpl; lia|].
      intros [|i] y Hy; simpl in Hy.
      * inversion Hy; subst y. exists e. auto.
      * apply (Hall i y Hy).
  - induction 1 as [x xs Hx | x xs _ IH].
    + cbn. destruct (ExamApi.map_exam x) as [e|] eqn:He; [|reflexivity].
      exfalso. assert (Hs : is_Some (ExamApi.map_exam x)) by (eexists; exact He).
      apply map_exam_Some in Hs. congruence.
    + cbn. destruct (ExamApi.map_exam x); [|reflexivity].
      cbn. rewrite IH. reflexivity.
Qed.

(** X27.  [fetchExams] sends one request and leaves the store alone.  It
    resolves when the answer is an array without null entries, with one exam
    per entry, in the order of the answer, each built from its entry.  One
    null entry makes the whole call reject; so does an answer that is not an
    array, with the message of an invalid response; a rejected request
    rejects with its [detail] text when it has one.  Every rejection carries
    a message. *)
Theorem fetchExams_contract
    (server : Request -> Reply) (role : value) (s : Store) :
  let r := ExamApi.fetchExams server role s in
  let asked := exams_request role s in
  store r = s
  /\ events r = [ERequest asked]
  /\ (forall e, result r = Throw e -> exists text, e = new_Error (VString text))
  /\ (forall xs,
        server asked = Resolved (VArray xs) ->
        Forall (fun x => nullish x = false) xs ->
        exists exams,
          result r = Ok exams
          /\ length exams = length xs
          /\ forall i x, xs !! i = Some x ->
               exists e, exams !! i = Some e /\ ExamApi.map_exam x = Some e)
  /\ (forall xs,
        server asked = Resolved (VArray xs) ->
        Exists (fun x => nullish x = true) xs ->
        exists e, result r = Throw e)
  /\ (forall data,
        server asked = Resolved data -> (forall xs, data <> VArray xs) ->
        result r
        = Throw (new_Error (VString "Invalid response from exams endpoint")))
  /\ (forall err text,
        server asked = Rejected err ->
        prop (response_data err) "detail" = VString text -> text <> "" ->
        result r = Throw (new_Error (VString text))).
Proof.
  cbv zeta.
  destruct (fetchExams_run server role s) as (res & Hrun & Hres).
  split; [rewrite Hrun; reflexivity|]. split; [rewrite Hrun; reflexivity|].
  split.
  { rewrite Hrun. simpl. intros e He. subst res. exact Hres. }
  clear Hrun Hres.
  unfold ExamApi.fetchExams, exams_request, try_catch, bind, getAuthHeaders,
    localStorage_getItem, axios, ret, throw, stored_token.
  simpl.
  destruct (server _) as [data|err]; simpl.
  - split; [|split; [|split]].
    + intros xs Hd Hall. inversion Hd; subst data.
      destruct (proj1 (mapM_map_exam xs) Hall) as (exams & Hmap & Hlen & Hent).
      rewrite Hmap. simpl. exists exams. auto.
    + intros xs Hd Hex. inversion Hd; subst data.
      rewrite (proj2 (mapM_map_exam xs) Hex). simpl. eexists. reflexivity.
    + intros data' Hd Hnot. inversion Hd; subst data'.
      destruct data; try reflexivity. exfalso. apply (Hnot xs). reflexivity.
    + intros err text Herr. discriminate.
  - split; [|split; [|split]]; try (intros x Hx; discriminate).
    intros err' text Herr Hdetail Htext. inversion Herr; subst err'.
    unfold ExamApi.error_detail. rewrite Hdetail.
    apply String.eqb_neq in Htext.
    unfold or_else, new_Error. simpl.
    repeat (rewrite ?Htext; simpl). reflexivity.
Qed.

(** ** Publishing and deleting an exam *)

Section ExamActionFacts.

Variable server : Request -> Reply.
Variable window_confirm : string -> bool.

Lemma publishExam_run (exam : ExamApi.MappedExam) s :
  exists res,
    ExamManager.publishExam server (ExamApi.e_id exam)
      (negb (truthy (ExamApi.e_is_published exam))) s
    = mkRun res s [ERequest (ExamManager.publish_request exam s)]
    /\ match res with
       | Ok _ =>
           exists data,
             server (ExamManager.publish_request exam s) = Resolved data
             /\ nullish data = false
       | Throw e =>
           (exists text, e = new_Error (VString text))
           /\ forall data,
                server (ExamManager.publish_request exam s) = Resolved data ->
                nullish data = true
       end.
Proof.
  unfold ExamManager.publishExam, ExamManager.publish_request, try_catch, bind,
    getAuthHeaders, localStorage_getItem, axios, ret, throw, stored_token.
  destruct (truthy (ExamApi.e_is_published exam)); simpl;
    (destruct (server _) as [data|err] eqn:Hsrv; simpl;
     [destruct (ExamApi.map_exam data) as [mapped|] eqn:Hmap; simpl|]).
  all: eexists; (split; [reflexivity|]).
  all: try (exists data; split; [reflexivity|];
            apply map_exam_Some; rewrite Hmap; eexists; reflexivity).
  all: split; [eexists; reflexivity|].
  all: intros data' Hd; try discriminate.
  all: inversion Hd; subst data'.
  all: destruct (nullish data) eqn:Hn; [reflexivity|].
  all: apply map_exam_Some in Hn; rewrite Hmap in Hn; destruct Hn; discriminate.
Qed.

(** X28.  Publishing and unpublishing.  For an exam that is published the
    request goes to its [unpublish] address and a success reads [Exam
    unpublished]; for one that is not, to its [publish] address, and a
    success reads [Exam published].  When the request is answered with a
    body, that success is notified and the lists are asked again; when it is
    not, an error is notified, the lists stay and nothing else is asked.
    The store is not written. *)
Theorem publish_toggle_consistent
    (exam : ExamApi.MappedExam) (st : ExamManager.State) (s : Store) :
  let r := ExamManager.handlePublishToggle server exam st s in
  let asked := ExamManager.publish_request exam s in
  let answered :=
    exists data, server asked = Resolved data /\ nullish data = false in
  store r = s
  /\ events r !! 0%nat = Some (ERequest asked)
  /\ req_url asked
     = "/api/exams/" +:+ to_string (ExamApi.e_id exam)
       +:+ (if truthy (ExamApi.e_is_published exam)
            then "/unpublish" else "/publish")
  /\ exists st',
       result r = Ok st'
       /\ (answered ->
           ExamManager.notifications st'
           = ExamManager.notifications st
             ++ [("success",
                  VString (if truthy (ExamApi.e_is_published exam)
                           then "Exam unpublished" else "Exam published"))]
           /\ events r !! 1%nat = Some (ERequest (exams_request VUndefined s))
           /\ events r !! 2%nat = Some (ERequest questions_request))
       /\ (~ answered ->
           (exists msg,
              ExamManager.notifications st'
              = ExamManager.notifications st ++ [("error", msg)])
           /\ ExamManager.exams st' = ExamManager.exams st
           /\ events r = [ERequest asked; EConsoleError "Publish toggle failed"]).
Proof.
  cbv zeta. unfold ExamManager.handlePublishToggle, bind, settle.
  destruct (publishExam_run exam s) as (res & -> & Hres).
  destruct res as [mapped|e].
  - destruct (manager_loadData_run server
                (ExamManager.addNotification "success"
                   (VString (if truthy (ExamApi.e_is_published exam)
                             then "Exam unpublished" else "Exam published"))
                   st) s)
      as (es & qs & tail & -> & _).
    simpl. split; [reflexivity|]. split; [reflexivity|]. split; [reflexivity|].
    eexists. split; [reflexivity|]. split.
    + intros _. simpl. repeat split.
    + intros Hnot. contradiction.
  - destruct Hres as [_ Hnull]. simpl.
    split; [reflexivity|]. split; [reflexivity|]. split; [reflexivity|].
    eexists. split; [reflexivity|]. split.
    + intros (data & Hd & Hn). rewrite (Hnull data Hd) in Hn. discriminate.
    + intros _. simpl. split; [eexists; reflexivity|]. split; reflexivity.
Qed.

(** X29.  Deleting an exam.  The Delete button asks first; declined, it
    changes nothing and sends nothing.  Confirmed, it sends the one [DELETE]
    request of the exam; when that is answered, with whatever body, the
    deletion is notified, under the type [error], and the lists are asked
    again; when it is rejected, the error is notified and nothing else is
    asked.  The store is not written. *)
Theorem delete_needs_confirmation
    (exam : ExamApi.MappedExam) (st : ExamManager.State) (s : Store) :
  let r := ExamManager.handleDelete server window_confirm exam st s in
  let asked := ExamManager.delete_request exam s in
  store r = s
  /\ (window_confirm ExamManager.delete_prompt = false ->
      r = mkRun (Ok st) s [EConfirm ExamManager.delete_prompt])
  /\ (window_confirm ExamManager.delete_prompt = true ->
      events r !! 0%nat = Some (EConfirm ExamManager.delete_prompt)
      /\ events r !! 1%nat = Some (ERequest asked)
      /\ exists st',
           result r = Ok st'
           /\ (forall data,
                 server asked = Resolved data ->
                 ExamManager.notifications st'
                 = ExamManager.notifications st
                   ++ [("error", VString "Exam deleted successfully")]
                 /\ events r !! 2%nat = Some (ERequest (exams_request VUndefined s))
                 /\ events r !! 3%nat = Some (ERequest questions_request))
           /\ (forall err,
                 server asked = Rejected err ->
                 (exists msg,
                    ExamManager.notifications st'
                    = ExamManager.notifications st ++ [("error", msg)])
                 /\ ExamManager.exams st' = ExamManager.exams st
                 /\ events r = [EConfirm ExamManager.delete_prompt;
                                ERequest asked;
                                EConsoleError "Delete exam failed"])).
Proof.
  cbv zeta. unfold ExamManager.handleDelete, ExamRunner.confirm, bind, settle.
  destruct (window_confirm ExamManager.delete_prompt); simpl.
  2:{ split; [reflexivity|]. split; [reflexivity | discriminate]. }
  unfold ExamManager.deleteExam, ExamManager.delete_request, try_catch, bind,
    getAuthHeaders, localStorage_getItem, axios, ret, throw, stored_token.
  simpl.
  destruct (server _) as [data|err] eqn:Hsrv; simpl.
  - destruct (manager_loadData_run server
                (ExamManager.addNotification "error"
                   (VString "Exam deleted successfully") st) s)
      as (es & qs & tail & -> & _).
    simpl. split; [reflexivity|]. split; [discriminate|]. intros _.
    split; [reflexivity|]. split; [reflexivity|].
    eexists. split; [reflexivity|]. split.
    + intros data' _. simpl. repeat split.
    + intros err Herr. discriminate.
  - split; [reflexivity|]. split; [discriminate|]. intros _.
    split; [reflexivity|]. split; [reflexivity|].
    eexists. split; [reflexivity|]. split.
    + intros data Hd. discriminate.
    + intros err' _. simpl. split; [eexists; reflexivity|]. split; reflexivity.
Qed.

End ExamActionFacts.
